(** * TypeORM entity manager and tree repository: a shallow embedding

    The development follows the TypeScript sources

    - [src/repository/LiteralRepository.ts] (which also holds
      [createLiteralEntityManager]),
    - the class based [EntityManager],
    - [src/error/EntityNotFoundError.ts],
    - [src/repository/LiteralTreeRepository.ts].

    JavaScript values are an inductive type, promises are their settled
    outcome, and every call of an external collaborator (query runner, query
    builder, persist executor, observers) is recorded in a trace of events and
    answered by a record of collaborator behaviours. *)

From Stdlib Require Import ZArith Ascii String List Bool Lia.
From stdpp Require Import base option list strings gmap.

Set Warnings "-register-all".

Open Scope string_scope.
Open Scope list_scope.

(** ** JavaScript values *)

Module Js.

(** The values the entity manager inspects at run time.  Numbers are
    integers, objects are their own enumerable properties in insertion
    order; functions and [EntitySchema] instances are kept apart because
    the code tells them apart with [instanceof]. *)
Inductive JsValue : Type :=
| VUndefined
| VNull
| VBool (b : bool)
| VNumber (n : Z)
| VString (s : string)
| VDate (time : Z)
| VFunction (name : string)
| VEntitySchema (name : option string)
| VArray (items : list JsValue)
| VObject (fields : list (string * JsValue)).

(** [typeof v === "string"], [typeof v === "number"], ... *)
Definition typeof (v : JsValue) : string :=
  match v with
  | VUndefined => "undefined"
  | VNull => "object"
  | VBool _ => "boolean"
  | VNumber _ => "number"
  | VString _ => "string"
  | VFunction _ => "function"
  | VDate _ | VEntitySchema _ | VArray _ | VObject _ => "object"
  end.

Definition isUndefined (v : JsValue) : bool :=
  match v with VUndefined => true | _ => false end.

Definition isNull (v : JsValue) : bool :=
  match v with VNull => true | _ => false end.

(** [v === false] *)
Definition isFalse (v : JsValue) : bool :=
  match v with VBool false => true | _ => false end.

(** [v] is the empty string *)
Definition isEmptyString (v : JsValue) : bool :=
  match v with VString EmptyString => true | _ => false end.

Definition isString (v : JsValue) : bool :=
  match v with VString _ => true | _ => false end.

Definition isNumber (v : JsValue) : bool :=
  match v with VNumber _ => true | _ => false end.

(** [Array.isArray(v)] and [v instanceof Array] *)
Definition isArray (v : JsValue) : bool :=
  match v with VArray _ => true | _ => false end.

(** [v.length === 0] for an array *)
Definition isEmptyArray (v : JsValue) : bool :=
  match v with VArray [] => true | _ => false end.

Definition instanceofDate (v : JsValue) : bool :=
  match v with VDate _ => true | _ => false end.

Definition instanceofFunction (v : JsValue) : bool :=
  match v with VFunction _ => true | _ => false end.

Definition instanceofEntitySchema (v : JsValue) : bool :=
  match v with VEntitySchema _ => true | _ => false end.

(** [v instanceof Object]: everything that is not a primitive. *)
Definition instanceofObject (v : JsValue) : bool :=
  match v with
  | VDate _ | VFunction _ | VEntitySchema _ | VArray _ | VObject _ => true
  | _ => false
  end.

(** Truthiness, as in [if (v)], [v ? a : b] and [a || b]. *)
Definition truthy (v : JsValue) : bool :=
  match v with
  | VUndefined | VNull => false
  | VBool b => b
  | VNumber n => negb (n =? 0)%Z
  | VString EmptyString => false
  | _ => true
  end.

(** [args[i]]: reading past the end of the argument list gives [undefined]. *)
Definition arg (i : nat) (args : list JsValue) : JsValue :=
  nth i args VUndefined.

(** [o[k] = v] on the own properties of an object. *)
Fixpoint setField (k : string) (v : JsValue) (fields : list (string * JsValue))
  : list (string * JsValue) :=
  match fields with
  | [] => [(k, v)]
  | (k', v') :: rest =>
      if String.eqb k k' then (k, v) :: rest else (k', v') :: setField k v rest
  end.

Fixpoint getField (k : string) (fields : list (string * JsValue)) : JsValue :=
  match fields with
  | [] => VUndefined
  | (k', v') :: rest => if String.eqb k k' then v' else getField k rest
  end.

(** The own properties copied by an object spread [{...v}]. *)
Definition ownFields (v : JsValue) : list (string * JsValue) :=
  match v with VObject fields => fields | _ => [] end.

End Js.
Export Js.

(** ** Errors, promises and traces *)

Module Effects.

(** The errors the sources construct, and the errors of collaborators. *)
Inductive JsError : Type :=
| Error (message : string)
| TypeError (message : string)
| QueryRunnerProviderAlreadyReleasedError
| EntityNotFoundError (message : string)
| EntityMetadataNotFoundError (message : string)
| CollaboratorError (code : nat).

(** A synchronous computation or an awaited promise: a value or a throw. *)
Inductive Result (A : Type) : Type :=
| Ok (a : A)
| Err (e : JsError).
Arguments Ok {A} a.
Arguments Err {A} e.

(** What a call of a promise returning method gives its caller: a promise
    that resolves or rejects, or an exception thrown before any promise
    was returned. *)
Inductive Outcome (A : Type) : Type :=
| Resolved (a : A)
| Rejected (e : JsError)
| Thrown (e : JsError).
Arguments Resolved {A} a.
Arguments Rejected {A} e.
Arguments Thrown {A} e.

(** [EntityTarget<Entity>]: a class, an [EntitySchema], a [{type, name}]
    object or an entity name. *)
Inductive EntityTarget : Type :=
| TargetFunction (name : string)
| TargetSchema (name : option string)
| TargetObject (name : string)
| TargetName (name : string).

(** A query runner as the entity manager sees it. *)
Record QueryRunner : Type := {
  runnerId : nat;
  isReleased : bool;
  isTransactionActive : bool;
}.

(** One call of a query builder method. *)
Inductive QbCall : Type :=
| QbUpdate (target : EntityTarget)
| QbSet (partialEntity : JsValue)
| QbDelete
| QbSoftDelete
| QbRestore
| QbFrom (target : EntityTarget)
| QbWhereInIds (ids : JsValue)
| QbWhere (criteria : JsValue)
| QbSetFindOptions (findOptions : JsValue)
| QbAndWhereInIds (ids : JsValue).

(** A query builder: the arguments of [createQueryBuilder] and the calls
    made on it, in order. *)
Record QueryBuilder : Type := {
  qbTarget : option EntityTarget;
  qbAlias : option string;
  qbCalls : list QbCall;
}.

(** The interactions with collaborators, in the order they happen. *)
Inductive Event : Type :=
| EvCreateQueryRunner (mode : string)
| EvStartTransaction (runner : QueryRunner) (isolation : option string)
| EvRunInTransaction (runner : QueryRunner)
| EvCommitTransaction (runner : QueryRunner)
| EvObserverExecute
| EvRollbackTransaction (runner : QueryRunner)
| EvRelease (runner : QueryRunner)
| EvNewEntityPersistExecutor (mode : string) (target entity options : JsValue)
| EvPersistExecute
| EvCreateQueryBuilder (target : option EntityTarget) (alias : option string)
| EvExecute (qb : QueryBuilder)
| EvGetOne (qb : QueryBuilder).

(** A computation inside a method body: the events so far and the value
    or the exception. *)
Definition Comp (A : Type) : Type := (list Event * Result A)%type.

(** A finished call: the events and the outcome. *)
Definition Call (A : Type) : Type := (list Event * Outcome A)%type.

Definition ret {A} (a : A) : Comp A := ([], Ok a).

(** [throw e] *)
Definition throw {A} (e : JsError) : Comp A := ([], Err e).

(** A collaborator call: one event, then its answer ([await] of a rejected
    promise throws). *)
Definition perform {A} (ev : Event) (answer : Result A) : Comp A :=
  ([ev], answer).

Definition bind {A B} (m : Comp A) (k : A -> Comp B) : Comp B :=
  match m with
  | (tr, Ok a) => let '(tr', r) := k a in (tr ++ tr', r)
  | (tr, Err e) => (tr, Err e)
  end.

(** [try { m } catch (err) { handler err }] *)
Definition try_catch {A} (m : Comp A) (handler : JsError -> Comp A) : Comp A :=
  match m with
  | (tr, Ok a) => (tr, Ok a)
  | (tr, Err e) => let '(tr', r) := handler e in (tr ++ tr', r)
  end.

(** [try { m } finally { cleanup }]: an exception of [cleanup] replaces the
    completion of [m]. *)
Definition try_finally {A} (m : Comp A) (cleanup : Comp unit) : Comp A :=
  let '(tr, r) := m in
  match cleanup with
  | (tr', Ok _) => (tr ++ tr', r)
  | (tr', Err e') => (tr ++ tr', Err e')
  end.

(** [return p] for the promise [p] of an awaited collaborator call. *)
Definition returnPromise {A} (p : Comp A) : Call A :=
  match p with
  | (tr, Ok a) => (tr, Resolved a)
  | (tr, Err e) => (tr, Rejected e)
  end.

(** The promise of an [async] function: a throw in the body rejects it. *)
Definition async {A} (body : Comp A) : Call A :=
  match body with
  | (tr, Ok a) => (tr, Resolved a)
  | (tr, Err e) => (tr, Rejected e)
  end.

(** A synchronous [throw] in a method that is not [async]. *)
Definition throws {A} (e : JsError) : Call A := ([], Thrown e).

(** [return Promise.resolve(a)] and [return Promise.reject(e)] *)
Definition promiseResolve {A} (a : A) : Call A := ([], Resolved a).
Definition promiseReject {A} (e : JsError) : Call A := ([], Rejected e).

(** Prefixing a call with the events of the synchronous code before it. *)
Definition after {A} (tr : list Event) (c : Call A) : Call A :=
  (tr ++ fst c, snd c).

Definition trace {A} (c : Call A) : list Event := fst c.
Definition outcome {A} (c : Call A) : Outcome A := snd c.

Declare Scope comp_scope.
Delimit Scope comp_scope with comp.
Notation "'let*' x := m 'in' k" := (bind m (fun x => k))
  (at level 10, x name, m at level 100, k at level 200) : comp_scope.
Notation "m ;; k" := (bind m (fun _ => k))
  (at level 100, k at level 200, right associativity) : comp_scope.

End Effects.
Export Effects.

(** ** The collaborators *)

(** Everything the entity manager calls and this repository slice does not
    define.  Each awaited call may resolve or reject. *)
Record Collaborators : Type := {
  (** [this.connection.driver instanceof MongoDriver] *)
  driverIsMongo : bool;
  (** [this.connection.createQueryRunner(mode)] *)
  createQueryRunner : string -> QueryRunner;
  startTransaction : QueryRunner -> option string -> Result unit;
  commitTransaction : QueryRunner -> Result unit;
  rollbackTransaction : QueryRunner -> Result unit;
  release : QueryRunner -> Result unit;
  (** [new ObserverExecutor(this.connection.observers).execute()] *)
  observerExecute : Result unit;
  (** [new EntityPersistExecutor(...).execute()] *)
  persistExecute : string -> JsValue -> JsValue -> JsValue -> Result unit;
  (** [FindOptionsUtils.isFindOptions] *)
  isFindOptions : JsValue -> bool;
  (** [this.connection.getMetadata(target).name], or the throw of
      [getMetadata] for a target without metadata *)
  getMetadataName : EntityTarget -> Result string;
  (** [this.connection.getMetadata(target).ensureEntityIdMap(id)] *)
  ensureEntityIdMap : EntityTarget -> JsValue -> JsValue;
  (** [qb.execute()] of an update, delete, soft-delete or restore builder *)
  execute : QueryBuilder -> Result JsValue;
  (** [qb.getOne()] *)
  getOne : QueryBuilder -> Result JsValue;
}.

(** The built-in functions [EntityNotFoundError] uses. *)
Record Builtins : Type := {
  (** [JSON.stringify(v, null, 4)]: a string, [undefined] ([None]) or a throw *)
  JSON_stringify : JsValue -> Result (option string);
  (** the string conversion of [v] in a concatenation with a string *)
  toStringValue : JsValue -> string;
}.

(** An entity manager: its connection's collaborators and the query runner
    it was created with, if any. *)
Record Manager : Type := {
  connection : Collaborators;
  queryRunner : option QueryRunner;
}.

(** The first argument of [transaction]: an isolation level or the callback. *)
Inductive TransactionArg (T : Type) : Type :=
| ArgIsolation (level : string)
| ArgCallback (run : QueryRunner -> Result T).
Arguments ArgIsolation {T} level.
Arguments ArgCallback {T} run.

(** ** [EntityNotFoundError] *)

Module EntityNotFound.

Definition dquote : string := String (ascii_of_nat 34) EmptyString.

(** The [targetName] computed by the constructor. *)
Definition targetName (entityClass : EntityTarget) : string :=
  match entityClass with
  | TargetSchema (Some (String _ _ as name)) => name
  | TargetSchema _ => EmptyString
  | TargetFunction name => name
  | TargetObject name => name
  | TargetName name => name
  end.

(** [stringifyCriteria]: [JSON.stringify] and, if that throws, the string
    conversion of the criteria. *)
Definition stringifyCriteria (b : Builtins) (criteria : JsValue) : string :=
  match JSON_stringify b criteria with
  | Ok (Some text) => text
  | Ok None => "undefined"
  | Err _ => toStringValue b criteria
  end.

Definition message (b : Builtins) (entityClass : EntityTarget) (criteria : JsValue)
  : string :=
  "Could not find any entity of type " +:+ dquote +:+ targetName entityClass
    +:+ dquote +:+ " matching: " +:+ stringifyCriteria b criteria.

(** [new EntityNotFoundError(entityClass, criteria)] *)
Definition new (b : Builtins) (entityClass : EntityTarget) (criteria : JsValue)
  : JsError :=
  EntityNotFoundError (message b entityClass criteria).

End EntityNotFound.

(** ** [EntityMetadataNotFoundError] *)

Module EntityMetadataNotFound.

(** The [targetName] computed by the constructor. *)
Definition targetName (target : EntityTarget) : string :=
  match target with
  | TargetSchema (Some (String _ _ as name)) => name
  | TargetSchema _ => EmptyString
  | TargetFunction name => name
  | TargetObject name => name
  | TargetName name => name
  end.

(** [new EntityMetadataNotFoundError(target)] *)
Definition new (target : EntityTarget) : JsError :=
  EntityMetadataNotFoundError
    ("No metadata for " +:+ EntityNotFound.dquote +:+ targetName target
       +:+ EntityNotFound.dquote +:+ " was found.").

End EntityMetadataNotFound.

(** ** The literal entity manager ([createLiteralEntityManager]) *)

Module LiteralEntityManager.

(** The callback of [transaction]: the first argument when it is a function,
    and the second argument otherwise. *)
Definition callbackOf {T : Type} (isolationOrRunInTransaction : TransactionArg T)
    (runInTransactionParam : option (QueryRunner -> Result T))
  : option (QueryRunner -> Result T) :=
  match isolationOrRunInTransaction with
  | ArgCallback run => Some run
  | ArgIsolation _ => runInTransactionParam
  end.

(** [async transaction(isolationOrRunInTransaction, runInTransactionParam?)] *)
Definition transaction {T : Type} (this : Manager)
    (isolationOrRunInTransaction : TransactionArg T)
    (runInTransactionParam : option (QueryRunner -> Result T)) : Call T :=
  let isolation :=
    match isolationOrRunInTransaction with
    | ArgIsolation level => Some level
    | ArgCallback _ => None
    end in
  let runInTransaction :=
    callbackOf isolationOrRunInTransaction runInTransactionParam in
  async (
    match runInTransaction with
    | None =>
        throw (Error "Transaction method requires callback in second paramter if isolation level is supplied.")
    | Some runInTransaction =>
        if driverIsMongo (connection this) then
          throw (Error "Transactions aren't supported by MongoDB.")
        else if match queryRunner this with
                | Some qr => isReleased qr
                | None => false
                end then
          throw QueryRunnerProviderAlreadyReleasedError
        else if match queryRunner this with
                | Some qr => isTransactionActive qr
                | None => false
                end then
          throw (Error "Cannot start transaction because its already started")
        else
          let* queryRunner' :=
            match queryRunner this with
            | Some qr => ret qr
            | None =>
                perform (EvCreateQueryRunner "master")
                        (Ok (createQueryRunner (connection this) "master"))
            end in
          try_finally
            (try_catch
               (match isolation with
                | Some (String _ _ as level) =>
                    perform (EvStartTransaction queryRunner' (Some level))
                            (startTransaction (connection this) queryRunner' (Some level))
                | _ =>
                    perform (EvStartTransaction queryRunner' None)
                            (startTransaction (connection this) queryRunner' None)
                end ;;
                let* result :=
                  perform (EvRunInTransaction queryRunner')
                          (runInTransaction queryRunner') in
                perform (EvCommitTransaction queryRunner')
                        (commitTransaction (connection this) queryRunner') ;;
                perform EvObserverExecute (observerExecute (connection this)) ;;
                ret result)
               (fun err =>
                  try_catch
                    (perform (EvRollbackTransaction queryRunner')
                             (rollbackTransaction (connection this) queryRunner'))
                    (fun rollbackError => ret tt) ;;
                  throw err))
            (match queryRunner this with
             | None =>
                 perform (EvRelease queryRunner')
                         (release (connection this) queryRunner')
             | Some _ => ret tt
             end)
    end)%comp.

(** The parameter normalisation shared by [save], [softRemove] and
    [recover]; [acceptsSchema] is false for [remove], which does not test
    [instanceof EntitySchema]. *)
Definition normalizeTarget (acceptsSchema : bool) (args : list JsValue) : JsValue :=
  let targetOrEntity := arg 0 args in
  if (1 <? length args)%nat
     && (instanceofFunction targetOrEntity
         || (acceptsSchema && instanceofEntitySchema targetOrEntity)
         || isString targetOrEntity)
  then targetOrEntity else VUndefined.

(** [target = target.options.name] for an [EntitySchema] target. *)
Definition schemaName (target : JsValue) : JsValue :=
  match target with
  | VEntitySchema (Some name) => VString name
  | VEntitySchema None => VUndefined
  | _ => target
  end.

(** The common body of [save], [remove], [softRemove] and [recover]. *)
Definition persist (this : Manager) (mode : string) (acceptsSchema : bool)
    (args : list JsValue) : Call JsValue :=
  let target := normalizeTarget acceptsSchema args in
  let entity := if truthy target then arg 1 args else arg 0 args in
  let options := if truthy target then arg 2 args else arg 1 args in
  let target := if acceptsSchema then schemaName target else target in
  if isArray entity && isEmptyArray entity then
    promiseResolve entity
  else
    returnPromise (
      perform (EvNewEntityPersistExecutor mode target entity options) (Ok tt) ;;
      perform EvPersistExecute
              (persistExecute (connection this) mode target entity options) ;;
      ret entity)%comp.

(** [save(targetOrEntity, maybeEntityOrOptions?, maybeOptions?)] *)
Definition save (this : Manager) (args : list JsValue) : Call JsValue :=
  persist this "save" true args.

(** [remove(targetOrEntity, maybeEntityOrOptions?, maybeOptions?)] *)
Definition remove (this : Manager) (args : list JsValue) : Call JsValue :=
  persist this "remove" false args.

(** [softRemove(targetOrEntity, maybeEntityOrOptions?, maybeOptions?)] *)
Definition softRemove (this : Manager) (args : list JsValue) : Call JsValue :=
  persist this "soft-remove" true args.

(** [recover(targetOrEntity, maybeEntityOrOptions?, maybeOptions?)] *)
Definition recover (this : Manager) (args : list JsValue) : Call JsValue :=
  persist this "recover" true args.

(** The test that opens [update], [delete], [softDelete] and [restore]. *)
Definition emptyCriteria (criteria : JsValue) : bool :=
  isUndefined criteria
  || isNull criteria
  || isEmptyString criteria
  || (isArray criteria && isEmptyArray criteria).

(** The test that chooses [whereInIds] over [where]. *)
Definition idCriteria (criteria : JsValue) : bool :=
  isString criteria
  || isNumber criteria
  || instanceofDate criteria
  || isArray criteria.

(** [this.createQueryBuilder()...execute()] *)
Definition executeBuilder (this : Manager) (calls : list QbCall) : Call JsValue :=
  let qb := {| qbTarget := None; qbAlias := None; qbCalls := calls |} in
  returnPromise (
    perform (EvCreateQueryBuilder None None) (Ok tt) ;;
    perform (EvExecute qb) (execute (connection this) qb))%comp.

(** [update(target, criteria, partialEntity)] *)
Definition update (this : Manager) (target : EntityTarget)
    (criteria partialEntity : JsValue) : Call JsValue :=
  if emptyCriteria criteria then
    promiseReject (Error "Empty criteria(s) are not allowed for the update method.")
  else if idCriteria criteria then
    executeBuilder this [QbUpdate target; QbSet partialEntity; QbWhereInIds criteria]
  else
    executeBuilder this [QbUpdate target; QbSet partialEntity; QbWhere criteria].

(** [delete(targetOrEntity, criteria)] *)
Definition delete (this : Manager) (targetOrEntity : EntityTarget)
    (criteria : JsValue) : Call JsValue :=
  if emptyCriteria criteria then
    promiseReject (Error "Empty criteria(s) are not allowed for the delete method.")
  else if idCriteria criteria then
    executeBuilder this [QbDelete; QbFrom targetOrEntity; QbWhereInIds criteria]
  else
    executeBuilder this [QbDelete; QbFrom targetOrEntity; QbWhere criteria].

(** [softDelete(targetOrEntity, criteria)] *)
Definition softDelete (this : Manager) (targetOrEntity : EntityTarget)
    (criteria : JsValue) : Call JsValue :=
  if emptyCriteria criteria then
    promiseReject (Error "Empty criteria(s) are not allowed for the delete method.")
  else if idCriteria criteria then
    executeBuilder this [QbSoftDelete; QbFrom targetOrEntity; QbWhereInIds criteria]
  else
    executeBuilder this [QbSoftDelete; QbFrom targetOrEntity; QbWhere criteria].

(** [restore(targetOrEntity, criteria)] *)
Definition restore (this : Manager) (targetOrEntity : EntityTarget)
    (criteria : JsValue) : Call JsValue :=
  if emptyCriteria criteria then
    promiseReject (Error "Empty criteria(s) are not allowed for the delete method.")
  else if idCriteria criteria then
    executeBuilder this [QbRestore; QbFrom targetOrEntity; QbWhereInIds criteria]
  else
    executeBuilder this [QbRestore; QbFrom targetOrEntity; QbWhere criteria].

(** The [findOptions] chosen from the two arguments of [findOne]. *)
Definition chooseFindOptions (c : Collaborators)
    (idOrOptionsOrConditions maybeOptions : JsValue) : JsValue :=
  if isFindOptions c idOrOptionsOrConditions then idOrOptionsOrConditions
  else if truthy maybeOptions && isFindOptions c maybeOptions then maybeOptions
  else VUndefined.

(** The plain conditions ([options]) of [findOne]. *)
Definition chooseConditions (c : Collaborators)
    (idOrOptionsOrConditions : JsValue) : JsValue :=
  if instanceofObject idOrOptionsOrConditions
     && negb (isFindOptions c idOrOptionsOrConditions)
  then idOrOptionsOrConditions else VUndefined.

(** [{...(findOptions || {}), take: 1}] *)
Definition withTakeOne (findOptions : JsValue) : JsValue :=
  VObject (setField "take" (VNumber 1)
             (ownFields (if truthy findOptions then findOptions else VObject []))).

Definition isId (v : JsValue) : bool :=
  isString v || isNumber v || instanceofDate v.

(** [findOne(entityClass, ...args)]; the method is not [async]. *)
Definition findOne (this : Manager) (entityClass : EntityTarget)
    (args : list JsValue) : Call JsValue :=
  if (2 <? length args)%nat then
    throws (Error "Too many arguments.")
  else
    let idOrOptionsOrConditions := arg 0 args in
    let maybeOptions := arg 1 args in
    if (1 <=? length args)%nat
       && (isUndefined idOrOptionsOrConditions
           || isNull idOrOptionsOrConditions
           || isFalse idOrOptionsOrConditions)
    then promiseResolve VUndefined
    else
      let findOptions :=
        chooseFindOptions (connection this) idOrOptionsOrConditions maybeOptions in
      let options := chooseConditions (connection this) idOrOptionsOrConditions in
      match getMetadataName (connection this) entityClass with
      | Err e => throws e
      | Ok name =>
          let findById := isId idOrOptionsOrConditions in
          let findOptions :=
            if negb findById then withTakeOne findOptions else findOptions in
          let qb := {|
            qbTarget := Some entityClass;
            qbAlias := Some name;
            qbCalls :=
              (if truthy findOptions then [QbSetFindOptions findOptions] else [])
              ++ (if truthy options then [QbWhere options]
                  else if findById then
                    [QbAndWhereInIds
                       (ensureEntityIdMap (connection this) entityClass
                          idOrOptionsOrConditions)]
                  else [])
          |} in
          after [EvCreateQueryBuilder (Some entityClass) (Some name)]
                (returnPromise (perform (EvGetOne qb) (getOne (connection this) qb)))
      end.

(** [.then(value => value === undefined ? reject(not found) : resolve(value))]
    on the promise of [findOne]; a throw of [findOne] rejects the promise of
    the [async] caller. *)
Definition orFail (b : Builtins) (entityClass : EntityTarget) (criteria : JsValue)
    (found : Call JsValue) : Call JsValue :=
  match found with
  | (tr, Resolved VUndefined) =>
      (tr, Rejected (EntityNotFound.new b entityClass criteria))
  | (tr, Resolved value) => (tr, Resolved value)
  | (tr, Rejected e) => (tr, Rejected e)
  | (tr, Thrown e) => (tr, Rejected e)
  end.

(** [async findOneOrFail(entityClass, idOrOptionsOrConditions?, maybeOptions?)] *)
Definition findOneOrFail (b : Builtins) (this : Manager) (entityClass : EntityTarget)
    (idOrOptionsOrConditions maybeOptions : JsValue) : Call JsValue :=
  orFail b entityClass idOrOptionsOrConditions
    (findOne this entityClass [idOrOptionsOrConditions; maybeOptions]).

End LiteralEntityManager.

(** ** The class based [EntityManager] *)

Module EntityManager.

(** [async transaction(...)]: the method body is, statement for statement,
    the body of the literal manager's [transaction]. *)
Definition transaction {T : Type} (this : Manager)
    (isolationOrRunInTransaction : TransactionArg T)
    (runInTransactionParam : option (QueryRunner -> Result T)) : Call T :=
  LiteralEntityManager.transaction this isolationOrRunInTransaction
    runInTransactionParam.

(** [async findOne(entityClass, idOrOptionsOrConditions?, maybeOptions?)];
    arguments after the second are not read. *)
Definition findOne (this : Manager) (entityClass : EntityTarget)
    (args : list JsValue) : Call JsValue :=
  let idOrOptionsOrConditions := arg 0 args in
  let maybeOptions := arg 1 args in
  let findOptions :=
    LiteralEntityManager.chooseFindOptions (connection this)
      idOrOptionsOrConditions maybeOptions in
  let options :=
    LiteralEntityManager.chooseConditions (connection this)
      idOrOptionsOrConditions in
  async (
    match getMetadataName (connection this) entityClass with
    | Err e => throw e
    | Ok name =>
        let qb := {|
          qbTarget := Some entityClass;
          qbAlias := Some name;
          qbCalls :=
            (if truthy findOptions
             then [QbSetFindOptions (LiteralEntityManager.withTakeOne findOptions)]
             else [])
            ++ (if truthy options then [QbWhere options]
                else if LiteralEntityManager.isId idOrOptionsOrConditions then
                  [QbAndWhereInIds
                     (ensureEntityIdMap (connection this) entityClass
                        idOrOptionsOrConditions)]
                else [])
        |} in
        perform (EvCreateQueryBuilder (Some entityClass) (Some name)) (Ok tt) ;;
        perform (EvGetOne qb) (getOne (connection this) qb)
    end)%comp.

(** [async findOneOrFail(entityClass, idOrOptionsOrConditions?, maybeOptions?)] *)
Definition findOneOrFail (b : Builtins) (this : Manager) (entityClass : EntityTarget)
    (idOrOptionsOrConditions maybeOptions : JsValue) : Call JsValue :=
  LiteralEntityManager.orFail b entityClass idOrOptionsOrConditions
    (findOne this entityClass [idOrOptionsOrConditions; maybeOptions]).

End EntityManager.

(** ** The literal tree repository ([createLiteralTreeRepository]) *)

Module LiteralTreeRepository.

(** The primitive values of columns, identifiers and query parameters. *)
Inductive Prim : Type :=
| PUndefined
| PNull
| PBool (b : bool)
| PNum (n : Z)
| PStr (s : string).

#[global] Instance Prim_eq_dec : EqDecision Prim.
Proof. solve_decision. Defined.

Definition Prim_encode (p : Prim) : unit + unit + bool + Z + string :=
  match p with
  | PUndefined => inl (inl (inl (inl tt)))
  | PNull => inl (inl (inl (inr tt)))
  | PBool b => inl (inl (inr b))
  | PNum n => inl (inr n)
  | PStr s => inr s
  end.

Definition Prim_decode (x : unit + unit + bool + Z + string) : Prim :=
  match x with
  | inl (inl (inl (inl _))) => PUndefined
  | inl (inl (inl (inr _))) => PNull
  | inl (inl (inr b)) => PBool b
  | inl (inr n) => PNum n
  | inr s => PStr s
  end.

#[global] Instance Prim_countable : Countable Prim.
Proof.
  apply (inj_countable' Prim_encode Prim_decode).
  intros []; reflexivity.
Defined.

(** An entity object, and a hydrated row of its table: the value of each
    property path.  A property that is not set reads as [undefined]. *)
Abbreviation Entity := (gmap string Prim).

Definition property (name : string) (entity : Entity) : Prim :=
  default PUndefined (entity !! name).

(** [ColumnMetadata], with the fields the tree repository reads. *)
Inductive ColumnMetadata : Type :=
| Column (propertyName propertyPath databaseName : string)
         (givenDatabaseName : option string)
         (referencedColumn : option ColumnMetadata).

Definition propertyName (c : ColumnMetadata) : string :=
  match c with Column n _ _ _ _ => n end.
Definition propertyPath (c : ColumnMetadata) : string :=
  match c with Column _ p _ _ _ => p end.
Definition databaseName (c : ColumnMetadata) : string :=
  match c with Column _ _ d _ _ => d end.
Definition givenDatabaseName (c : ColumnMetadata) : option string :=
  match c with Column _ _ _ g _ => g end.
Definition referencedColumn (c : ColumnMetadata) : option ColumnMetadata :=
  match c with Column _ _ _ _ r => r end.

(** Modelled from the spec: [ColumnMetadata.getEntityValue], which is not in
    this slice of the repository; the identity resolver reads the value the
    entity holds for the column, here under the column's property path. *)
Definition getEntityValue (c : ColumnMetadata) (entity : Entity) : Prim :=
  property (propertyPath c) entity.

Record RelationMetadata : Type := {
  relationPropertyName : string;
  joinColumns : list ColumnMetadata;
}.

(** [closureJunctionTable]: the junction metadata of a closure table. *)
Record ClosureJunction : Type := {
  tableName : string;
  ancestorColumns : list ColumnMetadata;
  descendantColumns : list ColumnMetadata;
}.

Record EntityMetadata : Type := {
  treeType : option string;
  targetName : string;
  primaryColumns : list ColumnMetadata;
  treeParentRelation : option RelationMetadata;
  treeChildrenRelation : option RelationMetadata;
  nestedSetLeftColumn : option ColumnMetadata;
  nestedSetRightColumn : option ColumnMetadata;
  materializedPathColumn : option ColumnMetadata;
  closureJunctionTable : ClosureJunction;
}.

(** What the repository asks of the driver and of the sub-query builder. *)
Record Driver : Type := {
  (** [this.manager.connection.driver.escape] *)
  escape : string -> string;
  (** [driver instanceof AbstractSqliteDriver] *)
  isSqlite : bool;
  (** [subQuery.getQuery()] of the sub-query that selects the stored path of
      the entity *)
  pathSubQuery : EntityMetadata -> Entity -> string;
  (** [driver.prepareHydratedValue(value, column)] *)
  prepareHydratedValue : Prim -> ColumnMetadata -> Prim;
}.

(** *** Query fragments *)

(** A name in a condition: written as it is, or passed through the
    driver's [escape]. *)
Inductive Name : Type :=
| Plain (name : string)
| Escaped (name : string).

(** The alias or column a name stands for: escaping changes how the name is
    written, not what it names. *)
Definition nameOf (n : Name) : string :=
  match n with Plain name | Escaped name => name end.

Definition renderName (d : Driver) (n : Name) : string :=
  match n with
  | Plain name => name
  | Escaped name => escape d name
  end.

(** A column reference [alias.path], kept as its two names. *)
Definition ColumnRef : Type := (Name * Name)%type.

Definition renderColumn (d : Driver) (c : ColumnRef) : string :=
  renderName d (fst c) +:+ "." +:+ renderName d (snd c).

(** The predicates the repository writes. *)
Inductive Atom : Type :=
| Between (x lo hi : ColumnRef)
| EqColumn (a b : ColumnRef)
| EqParameter (a : ColumnRef) (parameter : string).

Definition renderAtom (d : Driver) (a : Atom) : string :=
  match a with
  | Between x lo hi =>
      renderColumn d x +:+ " BETWEEN " +:+ renderColumn d lo +:+ " AND "
        +:+ renderColumn d hi
  | EqColumn a b => renderColumn d a +:+ " = " +:+ renderColumn d b
  | EqParameter a parameter => renderColumn d a +:+ " = :" +:+ parameter
  end.

(** [atoms.map(render).join(" AND ")] *)
Definition renderCondition (d : Driver) (atoms : list Atom) : string :=
  String.concat " AND " (map (renderAtom d) atoms).

(** The [WHERE] clause: a condition, or the text a where-factory returns. *)
Inductive WhereClause : Type :=
| WhereCondition (atoms : list Atom)
| WhereText (text : string).

(** The [SelectQueryBuilder] a tree query is built into. *)
Record SelectQueryBuilder : Type := {
  (** the entity the builder selects from and its alias, if it was created
      with an alias *)
  selectFrom : option (string * string);
  (** [innerJoin(entity, alias, condition)] *)
  innerJoin : option (string * string * list Atom);
  where_ : WhereClause;
  parameters : gmap string Prim;
}.

(** [s.replace(".", "_")]: the first occurrence only. *)
Fixpoint replaceFirstDot (s : string) : string :=
  match s with
  | EmptyString => EmptyString
  | String c rest =>
      if Ascii.eqb c "."%char then String "_"%char rest
      else String c (replaceFirstDot rest)
  end.

(** [column.referencedColumn!]: reading a property of [undefined] throws. *)
Definition referenced (c : ColumnMetadata) : Result ColumnMetadata :=
  match referencedColumn c with
  | Some r => Ok r
  | None => Err (TypeError "Cannot read properties of undefined")
  end.

Definition required {A} (o : option A) : Result A :=
  match o with
  | Some a => Ok a
  | None => Err (TypeError "Cannot read properties of undefined")
  end.

(** [columns.map(f)] for a callback that may throw. *)
Fixpoint mapResult {A B} (f : A -> Result B) (l : list A) : Result (list B) :=
  match l with
  | [] => Ok []
  | a :: rest =>
      match f a with
      | Err e => Err e
      | Ok b =>
          match mapResult f rest with
          | Err e => Err e
          | Ok bs => Ok (b :: bs)
          end
      end
  end.

(** [parameters[name] = value] for each pair, in order. *)
Definition setParameters (pairs : list (string * Prim)) : gmap string Prim :=
  foldl (fun m kv => <[kv.1 := kv.2]> m) ∅ pairs.

Definition bindResult {A B} (m : Result A) (k : A -> Result B) : Result B :=
  match m with
  | Ok a => k a
  | Err e => Err e
  end.

Notation "'let?' x := m 'in' k" := (bindResult m (fun x => k))
  (at level 10, x name, m at level 100, k at level 200).

(** [this.createQueryBuilder(alias)], the repository's method: the manager
    is given [alias || targetName] for the alias and selects from the
    entity under it; when that is empty too, the manager creates a builder
    that selects from nothing. *)
Definition createQueryBuilder (md : EntityMetadata) (alias : string)
  : option (string * string) :=
  match alias, targetName md with
  | String _ _, _ => Some (targetName md, alias)
  | EmptyString, String _ _ => Some (targetName md, targetName md)
  | EmptyString, EmptyString => None
  end.

(** *** [createDescendantsQueryBuilder]

    [metadata] is what [this.getMetadata()] returns, or its throw for a
    target without metadata. *)

(** The nested-set branch: the join condition (named [whereCondition] in the
    source) and the condition on the joined row (named [joinCondition]). *)
Definition nestedSetDescendantsCondition (alias : string)
    (left right : ColumnMetadata) : list Atom :=
  [Between (Plain alias, Plain (propertyPath left))
           (Plain "joined", Plain (propertyPath left))
           (Plain "joined", Plain (propertyPath right))].

Definition nestedSetParameterName (referenced : ColumnMetadata) : string :=
  replaceFirstDot (propertyPath referenced).

Definition nestedSetJoinedAtom (referenced : ColumnMetadata) : Atom :=
  EqParameter (Plain "joined", Plain (propertyPath referenced))
              (nestedSetParameterName referenced).

Definition nestedSetParameter (entity : Entity) (referenced : ColumnMetadata)
  : string * Prim :=
  (nestedSetParameterName referenced, getEntityValue referenced entity).

Definition createDescendantsQueryBuilder (d : Driver)
    (metadata : Result EntityMetadata) (alias closureTableAlias : string)
    (entity : Entity) : Result SelectQueryBuilder :=
  let? md := metadata in
  if decide (treeType md = Some "closure-table") then
    let junction := closureJunctionTable md in
    let? joinReferenced := mapResult referenced (descendantColumns junction) in
    let joinCondition :=
      zip_with (fun column r =>
                  EqColumn (Escaped closureTableAlias, Escaped (propertyPath column))
                           (Escaped alias, Escaped (propertyPath r)))
               (descendantColumns junction) joinReferenced in
    let? whereReferenced := mapResult referenced (ancestorColumns junction) in
    let whereCondition :=
      zip_with (fun column r =>
                  EqParameter (Escaped closureTableAlias,
                               Escaped (propertyPath column))
                              (propertyName r))
               (ancestorColumns junction) whereReferenced in
    Ok {| selectFrom := createQueryBuilder md alias;
          innerJoin := Some (tableName junction, closureTableAlias, joinCondition);
          where_ := WhereCondition whereCondition;
          parameters :=
            setParameters
              (map (fun r => (propertyName r, getEntityValue r entity)) whereReferenced) |}
  else if decide (treeType md = Some "nested-set") then
    let? left := required (nestedSetLeftColumn md) in
    let? right := required (nestedSetRightColumn md) in
    let whereCondition := nestedSetDescendantsCondition alias left right in
    let? relation := required (treeParentRelation md) in
    let? joinReferenced := mapResult referenced (joinColumns relation) in
    let joinCondition := map nestedSetJoinedAtom joinReferenced in
    Ok {| selectFrom := createQueryBuilder md alias;
          innerJoin := Some (targetName md, "joined", whereCondition);
          where_ := WhereCondition joinCondition;
          parameters := setParameters (map (nestedSetParameter entity) joinReferenced) |}
  else if decide (treeType md = Some "materialized-path") then
    let? path := required (materializedPathColumn md) in
    let subQuery := pathSubQuery d md entity in
    Ok {| selectFrom := createQueryBuilder md alias;
          innerJoin := None;
          where_ :=
            WhereText
              (if isSqlite d then
                 alias +:+ "." +:+ propertyPath path +:+ " LIKE " +:+ subQuery +:+ " || '%'"
               else
                 alias +:+ "." +:+ propertyPath path +:+ " LIKE CONCAT(" +:+ subQuery
                   +:+ ", '%')");
          parameters := ∅ |}
  else Err (Error "Supported only in tree entities").

(** *** [createAncestorsQueryBuilder]

    The closure-table branch writes the names as they are: the [escape]
    shortcut is commented out in this method. *)

Definition nestedSetAncestorsCondition (alias : string)
    (left right : ColumnMetadata) : list Atom :=
  [Between (Plain "joined", Plain (propertyPath left))
           (Plain alias, Plain (propertyPath left))
           (Plain alias, Plain (propertyPath right))].

Definition createAncestorsQueryBuilder (d : Driver)
    (metadata : Result EntityMetadata) (alias closureTableAlias : string)
    (entity : Entity) : Result SelectQueryBuilder :=
  let? md := metadata in
  if decide (treeType md = Some "closure-table") then
    let junction := closureJunctionTable md in
    let? joinReferenced := mapResult referenced (ancestorColumns junction) in
    let joinCondition :=
      zip_with (fun column r =>
                  EqColumn (Plain closureTableAlias, Plain (propertyPath column))
                           (Plain alias, Plain (propertyPath r)))
               (ancestorColumns junction) joinReferenced in
    let? whereReferenced := mapResult referenced (descendantColumns junction) in
    let whereCondition :=
      zip_with (fun column r =>
                  EqParameter (Plain closureTableAlias, Plain (propertyPath column))
                              (propertyName r))
               (descendantColumns junction) whereReferenced in
    Ok {| selectFrom := createQueryBuilder md alias;
          innerJoin := Some (tableName junction, closureTableAlias, joinCondition);
          where_ := WhereCondition whereCondition;
          parameters :=
            setParameters
              (map (fun r => (propertyName r, getEntityValue r entity)) whereReferenced) |}
  else if decide (treeType md = Some "nested-set") then
    let? left := required (nestedSetLeftColumn md) in
    let? right := required (nestedSetRightColumn md) in
    let joinCondition := nestedSetAncestorsCondition alias left right in
    let? relation := required (treeParentRelation md) in
    let? whereReferenced := mapResult referenced (joinColumns relation) in
    let whereCondition := map nestedSetJoinedAtom whereReferenced in
    Ok {| selectFrom := createQueryBuilder md alias;
          innerJoin := Some (targetName md, "joined", joinCondition);
          where_ := WhereCondition whereCondition;
          parameters := setParameters (map (nestedSetParameter entity) whereReferenced) |}
  else if decide (treeType md = Some "materialized-path") then
    let? path := required (materializedPathColumn md) in
    let subQuery := pathSubQuery d md entity in
    Ok {| selectFrom := createQueryBuilder md alias;
          innerJoin := None;
          where_ :=
            WhereText
              (if isSqlite d then
                 subQuery +:+ " LIKE " +:+ alias +:+ "." +:+ propertyPath path +:+ " || '%'"
               else
                 subQuery +:+ " LIKE CONCAT(" +:+ alias +:+ "." +:+ propertyPath path
                   +:+ ", '%')");
          parameters := ∅ |}
  else Err (Error "Supported only in tree entities").

(** *** The meaning of the fragments

    The standard reading of the SQL the builder renders: [x BETWEEN lo AND hi]
    is [lo <= x AND x <= hi], a comparison with a missing or non-numeric
    value is not true, an escaped name names what the name itself does, and
    an inner join keeps the pairs of rows that satisfy the join condition.
    A query has rows only when it is well formed: it selects from an entity
    under an alias, the joined alias is not empty and is not the main alias,
    and every column it mentions is a column of one of the two aliases. *)

(** The rows bound to the aliases of a query; the first binding of an alias
    is the one a column reference reads. *)
Definition Bindings : Type := list (string * Entity).

Fixpoint bound (alias : string) (env : Bindings) : option Entity :=
  match env with
  | [] => None
  | (a, row) :: rest => if String.eqb alias a then Some row else bound alias rest
  end.

Definition columnValue (env : Bindings) (c : ColumnRef) : Prim :=
  match bound (nameOf (fst c)) env with
  | Some row => default PNull (row !! nameOf (snd c))
  | None => PNull
  end.

Definition sqlEq (a b : Prim) : bool :=
  match a, b with
  | PNum x, PNum y => (x =? y)%Z
  | PStr x, PStr y => String.eqb x y
  | PBool x, PBool y => Bool.eqb x y
  | _, _ => false
  end.

Definition sqlLe (a b : Prim) : bool :=
  match a, b with
  | PNum x, PNum y => (x <=? y)%Z
  | _, _ => false
  end.

Definition evalAtom (params : gmap string Prim) (env : Bindings) (a : Atom) : bool :=
  match a with
  | Between x lo hi =>
      sqlLe (columnValue env lo) (columnValue env x)
      && sqlLe (columnValue env x) (columnValue env hi)
  | EqColumn a b => sqlEq (columnValue env a) (columnValue env b)
  | EqParameter a parameter =>
      sqlEq (columnValue env a) (default PNull (params !! parameter))
  end.

Definition evalCondition (params : gmap string Prim) (env : Bindings)
    (atoms : list Atom) : bool :=
  forallb (evalAtom params env) atoms.

(** The column references of a predicate. *)
Definition atomColumns (a : Atom) : list ColumnRef :=
  match a with
  | Between x lo hi => [x; lo; hi]
  | EqColumn a b => [a; b]
  | EqParameter a _ => [a]
  end.

(** Every column of the condition is a column of one of the aliases. *)
Definition resolved (aliases : list string) (atoms : list Atom) : bool :=
  forallb (fun a =>
             forallb (fun c => existsb (String.eqb (nameOf (fst c))) aliases)
                     (atomColumns a))
          atoms.

(** The rows a query with an inner join and a condition in its [WHERE]
    selects from its main table, before hydration, one for each joined row
    it pairs with; [None] for the queries whose clauses are text and for
    the queries that are not well formed. *)
Definition selectedRows (db : string -> list Entity) (qb : SelectQueryBuilder)
  : option (list Entity) :=
  match selectFrom qb, innerJoin qb, where_ qb with
  | Some (mainTable, mainAlias),
    Some (joinedTable, joinedAlias, joinCondition),
    WhereCondition whereCondition =>
      if negb (String.eqb joinedAlias EmptyString)
         && negb (String.eqb mainAlias joinedAlias)
         && resolved [mainAlias; joinedAlias] joinCondition
         && resolved [mainAlias; joinedAlias] whereCondition
      then
        Some (row ← db mainTable;
              joined ← db joinedTable;
              let env := [(mainAlias, row); (joinedAlias, joined)] in
              if evalCondition (parameters qb) env joinCondition
                 && evalCondition (parameters qb) env whereCondition
              then [row] else [])
      else None
  | _, _, _ => None
  end.

(** The value a row stores for a column, and [NULL] where it stores none. *)
Definition stored (row : Entity) (c : ColumnMetadata) : Prim :=
  default PNull (row !! propertyPath c).

(** [joined] is a stored row of [entity]: it has the entity's value in each
    of the referenced columns. *)
Definition identifies (referenced : list ColumnMetadata) (entity joined : Entity)
  : Prop :=
  Forall (fun r => sqlEq (stored joined r) (getEntityValue r entity) = true) referenced.

(** [lo <= x <= hi], both bounds included. *)
Definition betweenInclusive (lo x hi : Prim) : Prop :=
  sqlLe lo x = true /\ sqlLe x hi = true.

(** *** Building the nested trees *)

(** [{ id, parentId }] *)
Record RelationMap : Type := {
  id : Prim;
  parentId : Prim;
}.

(** [createRelationMaps(metadata, alias, rawResults)] *)
Definition createRelationMaps (d : Driver) (md : EntityMetadata) (alias : string)
    (rawResults : list Entity) : Result (list RelationMap) :=
  mapResult
    (fun rawResult =>
       let? relation := required (treeParentRelation md) in
       let? joinColumn := required (head (joinColumns relation)) in
       let joinColumnName :=
         match givenDatabaseName joinColumn with
         | Some (String _ _ as given) => given
         | _ => databaseName joinColumn
         end in
       let? primary := required (head (primaryColumns md)) in
       let id := property (alias +:+ "_" +:+ databaseName primary) rawResult in
       let parentId := property (alias +:+ "_" +:+ joinColumnName) rawResult in
       Ok {| id := prepareHydratedValue d id primary;
             parentId := prepareHydratedValue d parentId joinColumn |})
    rawResults.

(** An entity with the entities attached under its tree-children property. *)
Inductive Tree : Type :=
| Node (entity : Entity) (children : list Tree).

Definition rootEntity (t : Tree) : Entity :=
  match t with Node entity _ => entity end.

Definition childTrees (t : Tree) : list Tree :=
  match t with Node _ children => children end.

(** The completion of a recursive build: the built value, a throw, or a
    recursion deeper than the fuel. *)
Inductive Build (A : Type) : Type :=
| Built (a : A)
| Fails (e : JsError)
| OutOfFuel.
Arguments Built {A} a.
Arguments Fails {A} e.
Arguments OutOfFuel {A}.

(** [children.forEach(build)]: the builds in order, up to the first that
    does not complete. *)
Fixpoint forEachBuild {A B} (build : A -> Build B) (l : list A) : Build (list B) :=
  match l with
  | [] => Built []
  | a :: rest =>
      match build a with
      | Built b =>
          match forEachBuild build rest with
          | Built bs => Built (b :: bs)
          | Fails e => Fails e
          | OutOfFuel => OutOfFuel
          end
      | Fails e => Fails e
      | OutOfFuel => OutOfFuel
      end
  end.

(** The entities [buildChildrenEntityTree] assigns to [entity[childProperty]]:
    those whose [id] property is the [id] of a relation map whose [parentId]
    is the value of the first primary column of [entity]. *)
Definition childEntities (primary : ColumnMetadata) (entity : Entity)
    (entities : list Entity) (relationMaps : list RelationMap) : list Entity :=
  let parentEntityId := getEntityValue primary entity in
  let childRelationMaps :=
    filter (fun relationMap => parentId relationMap = parentEntityId) relationMaps in
  let childIds : gset Prim := list_to_set (map id childRelationMaps) in
  filter (fun entity => property "id" entity ∈ childIds) entities.

(** [buildChildrenEntityTree(metadata, entity, entities, relationMaps)] *)
Fixpoint buildChildrenEntityTree (fuel : nat) (md : EntityMetadata) (entity : Entity)
    (entities : list Entity) (relationMaps : list RelationMap) : Build Tree :=
  match fuel with
  | O => OutOfFuel
  | S fuel' =>
      match treeChildrenRelation md, primaryColumns md with
      | Some _, primary :: _ =>
          match forEachBuild
                  (fun childEntity =>
                     buildChildrenEntityTree fuel' md childEntity entities relationMaps)
                  (childEntities primary entity entities relationMaps) with
          | Built children => Built (Node entity children)
          | Fails e => Fails e
          | OutOfFuel => OutOfFuel
          end
      | _, _ => Fails (TypeError "Cannot read properties of undefined")
      end
  end.

(** An entity with the chain of entities attached under its tree-parent
    property. *)
Inductive Chain : Type :=
| Link (entity : Entity) (parent : option Chain).

(** The parent [buildParentEntityTree] finds for [entity], if any. *)
Definition parentEntity (primary : ColumnMetadata) (entity : Entity)
    (entities : list Entity) (relationMaps : list RelationMap) : option Entity :=
  let entityId := getEntityValue primary entity in
  match find (fun relationMap => bool_decide (id relationMap = entityId)) relationMaps with
  | None => None
  | Some parentRelationMap =>
      find (fun entity =>
              bool_decide (property (propertyName primary) entity
                           = parentId parentRelationMap))
           entities
  end.

(** [buildParentEntityTree(metadata, entity, entities, relationMaps)] *)
Fixpoint buildParentEntityTree (fuel : nat) (md : EntityMetadata) (entity : Entity)
    (entities : list Entity) (relationMaps : list RelationMap) : Build Chain :=
  match fuel with
  | O => OutOfFuel
  | S fuel' =>
      match treeParentRelation md, primaryColumns md with
      | Some _, primary :: _ =>
          match parentEntity primary entity entities relationMaps with
          | None => Built (Link entity None)
          | Some parent =>
              match buildParentEntityTree fuel' md parent entities relationMaps with
              | Built chain => Built (Link entity (Some chain))
              | Fails e => Fails e
              | OutOfFuel => OutOfFuel
              end
          end
      | _, _ => Fails (TypeError "Cannot read properties of undefined")
      end
  end.

(** The [then] callback of [findDescendantsTree], given what
    [getRawAndEntities] resolved to. *)
Definition findDescendantsTree (fuel : nat) (d : Driver) (md : EntityMetadata)
    (entity : Entity) (entities raw : list Entity) : Build Tree :=
  match createRelationMaps d md "treeEntity" raw with
  | Err e => Fails e
  | Ok relationMaps => buildChildrenEntityTree fuel md entity entities relationMaps
  end.

End LiteralTreeRepository.

(** ** Sample collaborators *)

Module Samples.

Definition runner (n : nat) (released active : bool) : QueryRunner :=
  {| runnerId := n; isReleased := released; isTransactionActive := active |}.

(** A connection whose collaborators answer as given; every other awaited
    call resolves. *)
Definition connectionWith (rollback releaseAnswer : Result unit) : Collaborators :=
  {| driverIsMongo := false;
     createQueryRunner := fun _ => runner 7 false false;
     startTransaction := fun _ _ => Ok tt;
     commitTransaction := fun _ => Ok tt;
     rollbackTransaction := fun _ => rollback;
     release := fun _ => releaseAnswer;
     observerExecute := Ok tt;
     persistExecute := fun _ _ _ _ => Ok tt;
     isFindOptions := fun _ => false;
     getMetadataName := fun _ => Ok "Post";
     ensureEntityIdMap := fun _ v => v;
     execute := fun _ => Ok VUndefined;
     getOne := fun _ => Ok VUndefined |}.

Definition failingCallback (code : nat) : QueryRunner -> Result nat :=
  fun _ => Err (CollaboratorError code).

(** A manager without a query runner of its own, on a connection whose
    rollback resolves and whose release rejects. *)
Definition managerWithFailingRelease : Manager :=
  {| connection := connectionWith (Ok tt) (Err (CollaboratorError 3));
     queryRunner := None |}.


(** A manager on a runner whose transaction is active. *)
Definition managerOnActiveRunner : Manager :=
  {| connection := connectionWith (Ok tt) (Ok tt);
     queryRunner := Some (runner 1 false true) |}.

(** A manager on a caller-supplied runner, on a connection whose rollback
    rejects. *)
Definition managerOnSuppliedRunner : Manager :=
  {| connection := connectionWith (Err (CollaboratorError 2)) (Ok tt);
     queryRunner := Some (runner 1 false false) |}.

(** The table of the [findOne] tests: two posts. *)
Definition Post : EntityTarget := TargetFunction "Post".

Definition firstPost : JsValue :=
  VObject [("id", VNumber 1); ("title", VString "How to buy a cat");
           ("author", VString "John Doe")].

Definition secondPost : JsValue :=
  VObject [("id", VNumber 2); ("title", VString "How to buy a dog");
           ("author", VString "Jane Doe")].

Definition posts : list JsValue := [firstPost; secondPost].

(** Equality of the numbers and strings the sample conditions hold. *)
Definition sameScalar (a b : JsValue) : bool :=
  match a, b with
  | VNumber x, VNumber y => (x =? y)%Z
  | VString x, VString y => String.eqb x y
  | _, _ => false
  end.

(** A row satisfies plain conditions when it has each of their values. *)
Definition satisfies (row conditions : JsValue) : bool :=
  forallb (fun kv => sameScalar (getField (fst kv) (ownFields row)) (snd kv))
          (ownFields conditions).

Definition satisfiesCall (row : JsValue) (call : QbCall) : bool :=
  match call with
  | QbWhere criteria => satisfies row criteria
  | QbWhereInIds ids | QbAndWhereInIds ids => satisfies row ids
  | QbSetFindOptions findOptions =>
      satisfies row (getField "where" (ownFields findOptions))
  | _ => true
  end.

(** A stand-in for the query builder over the posts: [getOne] resolves with
    the first row that satisfies every call, or with [undefined]. *)
Definition postsGetOne (qb : QueryBuilder) : Result JsValue :=
  Ok (hd VUndefined
        (List.filter (fun row => forallb (satisfiesCall row) (qbCalls qb)) posts)).

Definition hasField (k : string) (v : JsValue) : bool :=
  existsb (fun kv => String.eqb k (fst kv)) (ownFields v).

(** The connection knows one entity, [Post]. *)
Definition postsMetadataName (target : EntityTarget) : Result string :=
  match target with
  | TargetFunction "Post" => Ok "Post"
  | _ => Err (EntityMetadataNotFound.new target)
  end.

Definition postsConnection : Collaborators :=
  {| driverIsMongo := false;
     createQueryRunner := fun _ => runner 7 false false;
     startTransaction := fun _ _ => Ok tt;
     commitTransaction := fun _ => Ok tt;
     rollbackTransaction := fun _ => Ok tt;
     release := fun _ => Ok tt;
     observerExecute := Ok tt;
     persistExecute := fun _ _ _ _ => Ok tt;
     isFindOptions := fun v => hasField "where" v || hasField "take" v;
     getMetadataName := postsMetadataName;
     ensureEntityIdMap := fun _ v => VObject [("id", v)];
     execute := fun _ => Ok VUndefined;
     getOne := postsGetOne |}.

Definition postsManager : Manager :=
  {| connection := postsConnection; queryRunner := None |}.

(** A connection whose [getOne] rejects. *)
Definition brokenConnection : Collaborators :=
  {| driverIsMongo := false;
     createQueryRunner := fun _ => runner 7 false false;
     startTransaction := fun _ _ => Ok tt;
     commitTransaction := fun _ => Ok tt;
     rollbackTransaction := fun _ => Ok tt;
     release := fun _ => Ok tt;
     observerExecute := Ok tt;
     persistExecute := fun _ _ _ _ => Ok tt;
     isFindOptions := fun v => hasField "where" v || hasField "take" v;
     getMetadataName := fun _ => Ok "Post";
     ensureEntityIdMap := fun _ v => VObject [("id", v)];
     execute := fun _ => Ok VUndefined;
     getOne := fun _ => Err (CollaboratorError 5) |}.

Definition brokenManager : Manager :=
  {| connection := brokenConnection; queryRunner := None |}.

(** A stand-in for the built-ins: [JSON.stringify] gives [undefined] for
    [undefined], prints every number as 1 and every other value as an empty
    object. *)
Definition sampleBuiltins : Builtins :=
  {| JSON_stringify :=
       fun v =>
         match v with
         | VUndefined => Ok None
         | VNumber _ => Ok (Some "1")
         | _ => Ok (Some "{}")
         end;
     toStringValue := fun _ => "[object Object]" |}.

End Samples.

(** ** Sample trees *)

Module TreeSamples.

Import LiteralTreeRepository.

Definition plainDriver : Driver :=
  {| escape := fun text => text;
     isSqlite := false;
     pathSubQuery := fun _ _ => "(SELECT mpath)";
     prepareHydratedValue := fun value _ => value |}.

Definition idColumn : ColumnMetadata := Column "id" "id" "id" None None.

Definition keyColumn : ColumnMetadata := Column "key" "key" "key" None None.

Definition leftColumn : ColumnMetadata := Column "nsleft" "nsleft" "nsleft" None None.

Definition rightColumn : ColumnMetadata :=
  Column "nsright" "nsright" "nsright" None None.

(** The join column of the tree-parent relation, which references the
    primary column. *)
Definition parentJoinColumn (primary : ColumnMetadata) : ColumnMetadata :=
  Column "parentCategory" "parentCategory" "parentCategoryId" None (Some primary).

(** A nested-set tree entity whose primary column is [primary]. *)
Definition categoryWith (primary : ColumnMetadata) : EntityMetadata :=
  {| treeType := Some "nested-set";
     targetName := "Category";
     primaryColumns := [primary];
     treeParentRelation :=
       Some {| relationPropertyName := "parentCategory";
               joinColumns := [parentJoinColumn primary] |};
     treeChildrenRelation :=
       Some {| relationPropertyName := "childCategories"; joinColumns := [] |};
     nestedSetLeftColumn := Some leftColumn;
     nestedSetRightColumn := Some rightColumn;
     materializedPathColumn := None;
     closureJunctionTable :=
       {| tableName := "category_closure";
          ancestorColumns := [];
          descendantColumns := [] |} |}.

Definition category : EntityMetadata := categoryWith idColumn.

(** The same entity with a primary column whose property is [key]. *)
Definition keyedCategory : EntityMetadata := categoryWith keyColumn.

(** A root with one child, in nested-set numbering. *)
Definition root : Entity :=
  list_to_map [("id", PNum 1); ("nsleft", PNum 1); ("nsright", PNum 4)].

Definition child : Entity :=
  list_to_map [("id", PNum 2); ("nsleft", PNum 2); ("nsright", PNum 3)].

Definition categories (table : string) : list Entity := [root; child].

(** The same two rows under the property [key]. *)
Definition keyedRoot : Entity :=
  list_to_map [("key", PNum 1); ("nsleft", PNum 1); ("nsright", PNum 4)].

Definition keyedChild : Entity :=
  list_to_map [("key", PNum 2); ("nsleft", PNum 2); ("nsright", PNum 3)].

(** The relation maps of the two rows: the child's parent is the root. *)
Definition relationMaps : list RelationMap :=
  [ {| id := PNum 1; parentId := PNull |};
    {| id := PNum 2; parentId := PNum 1 |} ].

End TreeSamples.

(** ** More of the literal entity manager *)

(** What the remaining methods read from a metadata. *)
Record MetadataView : Type := {
  (** [metadata.target] *)
  metadataTarget : EntityTarget;
  (** [metadata.targetName] *)
  metadataTargetName : string;
  (** [metadata.tablePath] *)
  metadataTablePath : string;
  (** [metadata.findColumnWithPropertyPath(path)]: the [databaseName] of the
      column found, if any *)
  findColumnWithPropertyPath : string -> option string;
}.

(** The collaborators and built-in functions of the remaining methods. *)
Record Environment : Type := {
  (** [this.connection.hasMetadata(target)] *)
  hasMetadata : EntityTarget -> bool;
  (** [this.connection.getMetadata(target)], or its throw *)
  getMetadata : EntityTarget -> Result MetadataView;
  (** [this.connection.driver.escape] *)
  driverEscape : string -> string;
  (** [this.connection.driver instanceof OracleDriver] *)
  driverIsOracle : bool;
  (** [isNaN(Number(value))] *)
  isNaNNumber : JsValue -> bool;
  (** the function value [() => text] *)
  arrow : string -> JsValue;
  (** [a === b] on entity targets *)
  sameTarget : EntityTarget -> EntityTarget -> bool;
  (** [queryRunner.clearTable(tablePath)] *)
  clearTable : QueryRunner -> string -> Result unit;
  (** [qb.getMany()] *)
  getMany : QueryBuilder -> Result JsValue;
  (** [createQueryBuilder().insert().into(target).values(entity).execute()] *)
  executeInsert : EntityTarget -> JsValue -> Result JsValue;
  (** the rejection [Promise.all] settles with: that of the promise that
      rejected first, one of the rejections it is given in list order *)
  firstRejection : JsError -> list JsError -> JsError;
}.

Module ManagerOperations.

(** [s.split(".")] *)
Fixpoint splitDot (s : string) : list string :=
  match s with
  | EmptyString => [EmptyString]
  | String c rest =>
      if Ascii.eqb c "."%char then EmptyString :: splitDot rest
      else
        match splitDot rest with
        | piece :: pieces => String c piece :: pieces
        | [] => [String c EmptyString]
        end
  end.

(** [keys.reduceRight((value, key) => ({[key]: value}), leaf)] *)
Definition nestValues (keys : list string) (leaf : JsValue) : JsValue :=
  fold_right (fun key value => VObject [(key, value)]) leaf keys.

(** [object[k1][k2]...[kn]] *)
Definition readPath (keys : list string) (object : JsValue) : JsValue :=
  fold_left (fun value key => getField key (ownFields value)) keys object.

(** The common body of [increment] ([operator] is [" + "]) and [decrement]
    ([operator] is [" - "]). *)
Definition changeBy (operator : string) (x : Environment) (b : Builtins)
    (this : Manager) (entityClass : EntityTarget) (conditions : JsValue)
    (propertyPath : string) (value : JsValue) : Call JsValue :=
  async (
    match getMetadata x entityClass with
    | Err e => throw e
    | Ok metadata =>
        match findColumnWithPropertyPath metadata propertyPath with
        | None =>
            throw (Error ("Column " +:+ propertyPath +:+ " was not found in "
                            +:+ metadataTargetName metadata +:+ " entity."))
        | Some databaseName =>
            if isNaNNumber x value then
              throw (Error ("Value " +:+ EntityNotFound.dquote
                              +:+ toStringValue b value +:+ EntityNotFound.dquote
                              +:+ " is not a number."))
            else
              let values :=
                nestValues (splitDot propertyPath)
                  (arrow x (driverEscape x databaseName +:+ operator
                              +:+ toStringValue b value)) in
              let qb := {|
                qbTarget := Some entityClass;
                qbAlias := Some "entity";
                qbCalls := [QbUpdate entityClass; QbSet values; QbWhere conditions]
              |} in
              perform (EvCreateQueryBuilder (Some entityClass) (Some "entity")) (Ok tt) ;;
              perform (EvExecute qb) (execute (connection this) qb)
        end
    end)%comp.

(** [async increment(entityClass, conditions, propertyPath, value)] *)
Definition increment (x : Environment) (b : Builtins) (this : Manager)
    (entityClass : EntityTarget) (conditions : JsValue) (propertyPath : string)
    (value : JsValue) : Call JsValue :=
  changeBy " + " x b this entityClass conditions propertyPath value.

(** [async decrement(entityClass, conditions, propertyPath, value)] *)
Definition decrement (x : Environment) (b : Builtins) (this : Manager)
    (entityClass : EntityTarget) (conditions : JsValue) (propertyPath : string)
    (value : JsValue) : Call JsValue :=
  changeBy " - " x b this entityClass conditions propertyPath value.

End ManagerOperations.

(** ** Methods with further collaborators *)

Module Steps.

(** The interactions of the methods below: those of the transaction and
    lookup methods, and three more. *)
Inductive Step : Type :=
| Core (ev : Event)
| ClearTable (runner : QueryRunner) (tablePath : string)
| GetMany (qb : QueryBuilder)
| ExecuteInsert (target : EntityTarget) (values : JsValue).

(** A computation inside a method body, and a finished call. *)
Definition Run (A : Type) : Type := (list Step * Result A)%type.
Definition Done (A : Type) : Type := (list Step * Outcome A)%type.

Definition value {A} (a : A) : Run A := ([], Ok a).

Definition raise {A} (e : JsError) : Run A := ([], Err e).

(** A synchronous call that may throw and is not recorded. *)
Definition lift {A} (r : Result A) : Run A := ([], r).

Definition step {A} (s : Step) (answer : Result A) : Run A := ([s], answer).

Definition andThen {A B} (m : Run A) (k : A -> Run B) : Run B :=
  match m with
  | (tr, Ok a) => (tr ++ fst (k a), snd (k a))
  | (tr, Err e) => (tr, Err e)
  end.

(** [try { m } finally { cleanup }] *)
Definition finally {A} (m : Run A) (cleanup : Run unit) : Run A :=
  match cleanup with
  | (tr', Ok _) => (fst m ++ tr', snd m)
  | (tr', Err e') => (fst m ++ tr', Err e')
  end.

(** The promise of an [async] method. *)
Definition settled {A} (body : Run A) : Done A :=
  match body with
  | (tr, Ok a) => (tr, Resolved a)
  | (tr, Err e) => (tr, Rejected e)
  end.

(** [async clear(entityClass)] *)
Definition clear (x : Environment) (this : Manager) (entityClass : EntityTarget)
  : Done unit :=
  settled (
    andThen (lift (getMetadata x entityClass)) (fun metadata =>
    andThen
      match queryRunner this with
      | Some qr => value qr
      | None =>
          step (Core (EvCreateQueryRunner "master"))
               (Ok (createQueryRunner (connection this) "master"))
      end (fun queryRunner' =>
    finally
      (step (ClearTable queryRunner' (metadataTablePath metadata))
            (clearTable x queryRunner' (metadataTablePath metadata)))
      match queryRunner this with
      | None =>
          step (Core (EvRelease queryRunner'))
               (release (connection this) queryRunner')
      | Some _ => value tt
      end))).

(** [Object.assign(target, source)] on the own properties. *)
Definition objectAssign (target source : list (string * JsValue))
  : list (string * JsValue) :=
  fold_left (fun fields kv => setField (fst kv) (snd kv) fields) source target.

(** The [findOptions] object [findByIds] passes to [setFindOptions]. *)
Definition findByIdsOptions (c : Collaborators) (optionsOrConditions : JsValue)
  : JsValue :=
  if isFindOptions c optionsOrConditions then
    VObject (objectAssign [] (ownFields optionsOrConditions))
  else if truthy optionsOrConditions then
    VObject (objectAssign [] [("where", optionsOrConditions)])
  else VObject [].

(** [async findByIds(entityClass, ids, optionsOrConditions?)] *)
Definition findByIds (x : Environment) (this : Manager) (entityClass : EntityTarget)
    (ids : list JsValue) (optionsOrConditions : JsValue) : Done JsValue :=
  match ids with
  | [] => ([], Resolved (VArray []))
  | _ :: _ =>
      settled (
        andThen (lift (getMetadataName (connection this) entityClass)) (fun name =>
        let qb := {|
          qbTarget := Some entityClass;
          qbAlias := Some name;
          qbCalls :=
            [QbSetFindOptions (findByIdsOptions (connection this) optionsOrConditions);
             QbAndWhereInIds (VArray ids)]
        |} in
        andThen (step (Core (EvCreateQueryBuilder (Some entityClass) (Some name)))
                      (Ok tt)) (fun _ =>
        step (GetMany qb) (getMany x qb))))
  end.

(** The rejections among the outcomes of promises, in list order. *)
Fixpoint rejections {A} (outcomes : list (Outcome A)) : list JsError :=
  match outcomes with
  | [] => []
  | Resolved _ :: rest => rejections rest
  | Rejected e :: rest | Thrown e :: rest => e :: rejections rest
  end.

(** The values the promises resolved with. *)
Fixpoint resolutions {A} (outcomes : list (Outcome A)) : list A :=
  match outcomes with
  | [] => []
  | Resolved a :: rest => a :: resolutions rest
  | _ :: rest => resolutions rest
  end.

(** [await Promise.all(calls)]: the calls were all started, in order; the
    promise resolves with all their values or rejects with the rejection
    that came first. *)
Definition promiseAll {A} (x : Environment) (calls : list (Done A)) : Run (list A) :=
  (concat (map fst calls),
   match rejections (map snd calls) with
   | [] => Ok (resolutions (map snd calls))
   | e :: es => Err (firstRejection x e es)
   end).

(** [results.reduce((merged, result) => Object.assign(merged, result), {})] *)
Definition mergeResults (results : list JsValue) : JsValue :=
  VObject (fold_left (fun merged result => objectAssign merged (ownFields result))
                     results []).

(** [createQueryBuilder().insert().into(target).values(entity).execute()] *)
Definition insertOnce (x : Environment) (target : EntityTarget) (entity : JsValue)
  : Done JsValue :=
  settled (
    andThen (step (Core (EvCreateQueryBuilder None None)) (Ok tt)) (fun _ =>
    step (ExecuteInsert target entity) (executeInsert x target entity))).

(** [async insert(target, entity)] *)
Fixpoint insert (x : Environment) (target : EntityTarget) (entity : JsValue)
  : Done JsValue :=
  match entity with
  | VArray items =>
      if driverIsOracle x then
        settled (
          andThen
            (promiseAll x
               ((fix each (l : list JsValue) : list (Done JsValue) :=
                   match l with
                   | [] => []
                   | item :: rest => insert x target item :: each rest
                   end) items))
            (fun results => value (mergeResults results)))
      else insertOnce x target entity
  | _ => insertOnce x target entity
  end.

End Steps.

(** ** The literal repository ([createLiteralRepository]) *)

Module LiteralRepository.

(** A repository object: the arguments it was created with, a key that
    tells it from the repositories created before it, and whether it was
    made by [createLiteralMongoRepository] (for a MongoDB driver), which is
    not in this slice of the repository: the methods below are those of
    [createLiteralRepository]. *)
Record Repository : Type := {
  repositoryKey : nat;
  givenTarget : EntityTarget;
  manager : Manager;
  repositoryQueryRunner : option QueryRunner;
  isMongoRepository : bool;
}.

(** [get target()] *)
Definition target (x : Environment) (r : Repository) : Result EntityTarget :=
  if hasMetadata x (givenTarget r) then
    match getMetadata x (givenTarget r) with
    | Ok metadata => Ok (metadataTarget metadata)
    | Err e => Err e
    end
  else Ok (givenTarget r).

(** An entity target as the value the manager's [save] inspects; of a
    [{type, name}] object only the name is kept. *)
Definition targetValue (t : EntityTarget) : JsValue :=
  match t with
  | TargetFunction name => VFunction name
  | TargetSchema name => VEntitySchema name
  | TargetObject name => VObject [("name", VString name)]
  | TargetName name => VString name
  end.

(** [this.manager.method(this.getMetadata().target, ...)]: the metadata is
    resolved before the manager is called. *)
Definition withMetadataTarget {A} (x : Environment) (r : Repository)
    (method : Manager -> EntityTarget -> Call A) : Call A :=
  match getMetadata x (givenTarget r) with
  | Err e => throws e
  | Ok metadata => method (manager r) (metadataTarget metadata)
  end.

(** [findOne(...args)] *)
Definition findOne (x : Environment) (r : Repository) (args : list JsValue)
  : Call JsValue :=
  withMetadataTarget x r (fun manager target =>
    LiteralEntityManager.findOne manager target args).

(** [findOneOrFail(optionsOrConditions?, maybeOptions?)] *)
Definition findOneOrFail (x : Environment) (b : Builtins) (r : Repository)
    (optionsOrConditions maybeOptions : JsValue) : Call JsValue :=
  withMetadataTarget x r (fun manager target =>
    LiteralEntityManager.findOneOrFail b manager target optionsOrConditions
      maybeOptions).

(** [update(criteria, partialEntity)] *)
Definition update (x : Environment) (r : Repository)
    (criteria partialEntity : JsValue) : Call JsValue :=
  withMetadataTarget x r (fun manager target =>
    LiteralEntityManager.update manager target criteria partialEntity).

(** [delete(criteria)] *)
Definition delete (x : Environment) (r : Repository) (criteria : JsValue)
  : Call JsValue :=
  withMetadataTarget x r (fun manager target =>
    LiteralEntityManager.delete manager target criteria).

(** [save(entityOrEntities, options?)] *)
Definition save (x : Environment) (r : Repository)
    (entityOrEntities options : JsValue) : Call JsValue :=
  withMetadataTarget x r (fun manager target =>
    LiteralEntityManager.save manager [targetValue target; entityOrEntities; options]).

(** [remove(entityOrEntities, options?)] *)
Definition remove (x : Environment) (r : Repository)
    (entityOrEntities options : JsValue) : Call JsValue :=
  withMetadataTarget x r (fun manager target =>
    LiteralEntityManager.remove manager [targetValue target; entityOrEntities; options]).

(** [repositories.find(repository => repository.target === target)] *)
Fixpoint findRepository (x : Environment) (repositories : list Repository)
    (wanted : EntityTarget) : Result (option Repository) :=
  match repositories with
  | [] => Ok None
  | r :: rest =>
      match target x r with
      | Err e => Err e
      | Ok t =>
          if sameTarget x t wanted then Ok (Some r)
          else findRepository x rest wanted
      end
  end.

(** The manager's [getRepository(target)], on the list of repositories the
    manager has created so far: the repository returned and the list
    afterwards. *)
Definition getRepository (x : Environment) (this : Manager)
    (repositories : list Repository) (wanted : EntityTarget)
  : Result (Repository * list Repository) :=
  match findRepository x repositories wanted with
  | Err e => Err e
  | Ok (Some repository) => Ok (repository, repositories)
  | Ok None =>
      let newRepository := {|
        repositoryKey := length repositories;
        givenTarget := wanted;
        manager := this;
        repositoryQueryRunner := queryRunner this;
        isMongoRepository := driverIsMongo (connection this)
      |} in
      Ok (newRepository, repositories ++ [newRepository])
  end.

End LiteralRepository.

(** ** The steps of a transaction *)

Module TransactionSteps.

(** The runner [transaction] works on: [this.queryRunner ||
    this.connection.createQueryRunner("master")]. *)
Definition usedRunner (this : Manager) : QueryRunner :=
  match queryRunner this with
  | Some own => own
  | None => createQueryRunner (connection this) "master"
  end.

(** The argument of [startTransaction]: the isolation level, if the first
    argument is one and is not the empty string. *)
Definition startedIsolation {T : Type} (first : TransactionArg T) : option string :=
  match first with
  | ArgIsolation (String _ _ as level) => Some level
  | _ => None
  end.

End TransactionSteps.

(** ** The arguments of the persistence methods *)

Module ManagerArguments.

(** The [entity] that [save], [remove], [softRemove] and [recover] work on
    after normalising their parameters: the second argument when the first
    is taken as the target, and the first argument otherwise. *)
Definition entityOperand (acceptsSchema : bool) (args : list JsValue) : JsValue :=
  if truthy (LiteralEntityManager.normalizeTarget acceptsSchema args)
  then arg 1 args else arg 0 args.

(** The test that opens [findOne]: an argument was passed and it is
    [undefined], [null] or [false]. *)
Definition absentCriteria (args : list JsValue) : bool :=
  (1 <=? length args)%nat
  && (isUndefined (arg 0 args) || isNull (arg 0 args) || isFalse (arg 0 args)).

End ManagerArguments.

(** ** A sample environment *)

Module EnvironmentSamples.

(** The metadata of [Post]: a column [likes] and an embedded column
    [counters.likes]. *)
Definition postMetadata : MetadataView :=
  {| metadataTarget := Samples.Post;
     metadataTargetName := "Post";
     metadataTablePath := "post";
     findColumnWithPropertyPath :=
       fun path =>
         if String.eqb path "likes" then Some "likes"
         else if String.eqb path "counters.likes" then Some "countersLikes"
         else None |}.

Definition sameTargets (a b : EntityTarget) : bool :=
  match a, b with
  | TargetFunction x, TargetFunction y => String.eqb x y
  | TargetName x, TargetName y => String.eqb x y
  | _, _ => false
  end.

(** [Post] is registered, as a class and under the name [post]; the driver
    is Oracle's; every awaited call resolves. *)
Definition environment : Environment :=
  {| hasMetadata :=
       fun target =>
         sameTargets target Samples.Post || sameTargets target (TargetName "post");
     getMetadata :=
       fun target =>
         if sameTargets target Samples.Post || sameTargets target (TargetName "post")
         then Ok postMetadata
         else Err (EntityMetadataNotFound.new target);
     driverEscape := fun name => "`" +:+ name +:+ "`";
     driverIsOracle := true;
     isNaNNumber := fun v => negb (isNumber v);
     arrow := fun text => VFunction text;
     sameTarget := sameTargets;
     clearTable := fun _ _ => Ok tt;
     getMany := fun _ => Ok (VArray []);
     executeInsert := fun _ entity => Ok (VObject [("identifiers", VArray [entity])]);
     firstRejection := fun e _ => e |}.

(** The repository the manager of the posts creates for [target] as its
    repository number [key]. *)
Definition repositoryOf (key : nat) (target : EntityTarget)
  : LiteralRepository.Repository :=
  {| LiteralRepository.repositoryKey := key;
     LiteralRepository.givenTarget := target;
     LiteralRepository.manager := Samples.postsManager;
     LiteralRepository.repositoryQueryRunner := None;
     LiteralRepository.isMongoRepository := false |}.

(** A stand-in for the built-ins that prints strings as they are and the
    number 2. *)
Definition builtins : Builtins :=
  {| JSON_stringify := fun _ => Ok (Some "{}");
     toStringValue :=
       fun v =>
         match v with
         | VString s => s
         | VNumber 2 => "2"
         | _ => "[object Object]"
         end |}.

End EnvironmentSamples.

(** ** The ancestors tree, and reading the built trees *)

Module TreeShapes.

Import LiteralTreeRepository.

(** The entities of a parent chain, from the entity upwards. *)
Fixpoint chainEntities (c : Chain) : list Entity :=
  match c with
  | Link entity None => [entity]
  | Link entity (Some parent) => entity :: chainEntities parent
  end.

(** The [then] callback of [findAncestorsTree], given what
    [getRawAndEntities] resolved to. *)
Definition findAncestorsTree (fuel : nat) (d : Driver) (md : EntityMetadata)
    (entity : Entity) (entities raw : list Entity) : Build Chain :=
  match createRelationMaps d md "treeEntity" raw with
  | Err e => Fails e
  | Ok relationMaps => buildParentEntityTree fuel md entity entities relationMaps
  end.

(** Every node of a built tree has attached under it, in this order, the
    entities [children] gives for the entity of the node. *)
Inductive AttachedThroughout (children : Entity -> list Entity) : Tree -> Prop :=
| attached_node (entity : Entity) (subtrees : list Tree) :
    map rootEntity subtrees = children entity ->
    Forall (AttachedThroughout children) subtrees ->
    AttachedThroughout children (Node entity subtrees).

(** A junction row links a row of the entity table on the given columns
    when it holds, in each of them, the value the row stores in the column
    it references. *)
Definition linksRow (columns referencedColumns : list ColumnMetadata)
    (link row : Entity) : Prop :=
  Forall2 (fun column r => sqlEq (stored link column) (stored row r) = true)
          columns referencedColumns.

(** A junction row links an entity on the given columns when it holds, in
    each of them, the value the entity has for the column it references. *)
Definition linksEntity (columns referencedColumns : list ColumnMetadata)
    (link entity : Entity) : Prop :=
  Forall2 (fun column r => sqlEq (stored link column) (getEntityValue r entity) = true)
          columns referencedColumns.

End TreeShapes.

(** ** A sample closure table *)

Module ClosureSamples.

Import LiteralTreeRepository.

Definition ancestorColumn : ColumnMetadata :=
  Column "id_ancestor" "id_ancestor" "id_ancestor" None (Some TreeSamples.idColumn).

Definition descendantColumn : ColumnMetadata :=
  Column "id_descendant" "id_descendant" "id_descendant" None
         (Some TreeSamples.idColumn).

(** A closure-table tree entity. *)
Definition category : EntityMetadata :=
  {| treeType := Some "closure-table";
     targetName := "Category";
     primaryColumns := [TreeSamples.idColumn];
     treeParentRelation :=
       Some {| relationPropertyName := "parentCategory";
               joinColumns := [TreeSamples.parentJoinColumn TreeSamples.idColumn] |};
     treeChildrenRelation :=
       Some {| relationPropertyName := "childCategories"; joinColumns := [] |};
     nestedSetLeftColumn := None;
     nestedSetRightColumn := None;
     materializedPathColumn := None;
     closureJunctionTable :=
       {| tableName := "category_closure";
          ancestorColumns := [ancestorColumn];
          descendantColumns := [descendantColumn] |} |}.

Definition link (ancestor descendant : Z) : Entity :=
  list_to_map [("id_ancestor", PNum ancestor); ("id_descendant", PNum descendant)].

(** The root and its child, and the closure of the relation between them. *)
Definition tables (table : string) : list Entity :=
  if String.eqb table "category_closure"
  then [link 1 1; link 1 2; link 2 2]
  else [TreeSamples.root; TreeSamples.child].

(** A driver that writes names between double quotes. *)
Definition quotingDriver : Driver :=
  {| escape := fun name => EntityNotFound.dquote +:+ name +:+ EntityNotFound.dquote;
     isSqlite := false;
     pathSubQuery := fun _ _ => "(SELECT mpath)";
     prepareHydratedValue := fun value _ => value |}.

(** The same entity without a tree. *)
Definition plain : EntityMetadata :=
  {| treeType := None;
     targetName := "Category";
     primaryColumns := [TreeSamples.idColumn];
     treeParentRelation := None;
     treeChildrenRelation := None;
     nestedSetLeftColumn := None;
     nestedSetRightColumn := None;
     materializedPathColumn := None;
     closureJunctionTable :=
       {| tableName := "category_closure";
          ancestorColumns := [];
          descendantColumns := [] |} |}.

(** The raw rows of the root and its child under the alias [treeEntity]. *)
Definition rawRows : list Entity :=
  [ list_to_map [("treeEntity_id", PNum 1); ("treeEntity_parentCategoryId", PNull)];
    list_to_map [("treeEntity_id", PNum 2); ("treeEntity_parentCategoryId", PNum 1)] ].

(** A measure that goes down from an entity without id to the root and from
    the root to its child. *)
Definition depth (entity : Entity) : nat :=
  match property "id" entity with
  | PNull => 2
  | PNum 1 => 1
  | _ => 0
  end.

(** A measure that goes up from the child to the root. *)
Definition rank (entity : Entity) : nat :=
  match property "id" entity with
  | PNum 2 => 1
  | _ => 0
  end.

(** A row that is its own parent. *)
Definition loop : Entity := list_to_map [("id", PNum 5)].

Definition loopMaps : list RelationMap := [ {| id := PNum 5; parentId := PNum 5 |} ].

End ClosureSamples.

(** * Theorems *)

(** ** Transactions *)

Section Transaction.

Context {T : Type}.

(** Case analysis on the answers of the collaborators the goal mentions. *)
Ltac answer :=
  match goal with
  | |- context [driverIsMongo ?c] => destruct (driverIsMongo c) eqn:?
  | |- context [queryRunner ?m] => destruct (queryRunner m) as [? |] eqn:?
  | |- context [isReleased ?q] => destruct (isReleased q) eqn:?
  | |- context [isTransactionActive ?q] => destruct (isTransactionActive q) eqn:?
  | |- context [startTransaction ?c ?q ?i] =>
      destruct (startTransaction c q i) as [[] |] eqn:?
  | |- context [commitTransaction ?c ?q] =>
      destruct (commitTransaction c q) as [[] |] eqn:?
  | |- context [rollbackTransaction ?c ?q] =>
      destruct (rollbackTransaction c q) as [[] |] eqn:?
  | |- context [release ?c ?q] => destruct (release c q) as [[] |] eqn:?
  | |- context [observerExecute ?c] => destruct (observerExecute c) as [[] |] eqn:?
  end.

Ltac answer_callback run :=
  match goal with
  | |- context [run ?q] => destruct (run q) eqn:?
  end.

(** Membership of an event in a trace that has been computed. *)
Ltac in_trace :=
  repeat match goal with
         | H : _ \/ _ |- _ => destruct H
         | H : False |- _ => destruct H
         | H : @eq Event _ _ |- _ => first [ discriminate H | injection H as <- ]
         end.

Ltac step :=
  progress cbn [async bind try_finally try_catch perform throw ret trace outcome
                fst snd app].

Ltac run_transaction_with run :=
  unfold EntityManager.transaction, LiteralEntityManager.transaction,
    LiteralEntityManager.callbackOf;
  repeat first [ answer | answer_callback run | step ].

Ltac run_transaction :=
  unfold EntityManager.transaction, LiteralEntityManager.transaction,
    LiteralEntityManager.callbackOf;
  repeat first [ answer | step ].

(** The class method is the literal method. *)
Lemma class_transaction_is_literal (this : Manager) (first : TransactionArg T)
    (second : option (QueryRunner -> Result T)) :
  EntityManager.transaction this first second
  = LiteralEntityManager.transaction this first second.
Proof. reflexivity. Qed.

(** When the callback has run and failed, the transaction was rolled back,
    and the promise rejects with the callback's error or, if the method
    releases a runner it created and that fails, with the error of the
    release. *)
Lemma callback_failure_unwinds (this : Manager) (first : TransactionArg T)
    (second : option (QueryRunner -> Result T))
    (run : QueryRunner -> Result T) (qr : QueryRunner) (e : JsError) :
  LiteralEntityManager.callbackOf first second = Some run ->
  In (EvRunInTransaction qr) (trace (LiteralEntityManager.transaction this first second)) ->
  run qr = Err e ->
  In (EvRollbackTransaction qr)
     (trace (LiteralEntityManager.transaction this first second))
  /\ match queryRunner this, release (connection this) qr with
     | None, Err releaseError =>
         outcome (LiteralEntityManager.transaction this first second)
         = Rejected releaseError
     | _, _ =>
         outcome (LiteralEntityManager.transaction this first second) = Rejected e
     end.
Proof.
  unfold LiteralEntityManager.callbackOf.
  destruct first as [level | run0]; intros Hcb; subst;
    [ | injection Hcb as -> ].
  all: try destruct level.
  all: intros Hran Hfail; revert Hran.
  all: run_transaction_with run.
  all: intros Hran; cbn in Hran; in_trace.
  all: try congruence.
  all: repeat match goal with
         | H : ?x = _ |- context [?x] => rewrite H
         end.
  all: split; [ cbn; tauto | congruence ].
Qed.

(** C3, as amended.  When the callback of [transaction] has run and failed
    with [e], the transaction was rolled back on the runner the callback ran
    on and, provided that releasing a runner the method created itself does
    not fail, the promise rejects with [e]: whatever the rollback answers,
    its error is never the one surfaced.  The class method and the literal
    method agree. *)
Theorem transaction_rethrows_callback_error (this : Manager)
    (first : TransactionArg T) (second : option (QueryRunner -> Result T))
    (run : QueryRunner -> Result T) (qr : QueryRunner) (e : JsError) :
  LiteralEntityManager.callbackOf first second = Some run ->
  In (EvRunInTransaction qr) (trace (LiteralEntityManager.transaction this first second)) ->
  run qr = Err e ->
  (queryRunner this = None -> release (connection this) qr = Ok tt) ->
  In (EvRollbackTransaction qr)
     (trace (LiteralEntityManager.transaction this first second))
  /\ outcome (LiteralEntityManager.transaction this first second) = Rejected e
  /\ EntityManager.transaction this first second
     = LiteralEntityManager.transaction this first second.
Proof.
  intros Hcb Hran Hfail Hrelease.
  destruct (callback_failure_unwinds this first second run qr e Hcb Hran Hfail)
    as [Hrolled Hout].
  split; [ exact Hrolled | split; [ | reflexivity ] ].
  destruct (queryRunner this) as [own |]; [ exact Hout | ].
  rewrite Hrelease in Hout by reflexivity. exact Hout.
Qed.


(** C8.  With a caller-supplied query runner, [transaction] never releases
    a runner, and if that runner already has an active transaction it
    neither commits nor rolls back (nor starts) anything; whenever
    [transaction] does release a runner, the manager had none and the
    runner released is the one the method created. *)
Theorem transaction_leaves_supplied_runner (this : Manager)
    (first : TransactionArg T) (second : option (QueryRunner -> Result T)) :
  (forall own, queryRunner this = Some own ->
     (forall r, ~ In (EvRelease r)
                    (trace (LiteralEntityManager.transaction this first second)))
     /\ (isTransactionActive own = true ->
         trace (LiteralEntityManager.transaction this first second) = []))
  /\ (forall r,
        In (EvRelease r) (trace (LiteralEntityManager.transaction this first second)) ->
        queryRunner this = None
        /\ r = createQueryRunner (connection this) "master"
        /\ In (EvCreateQueryRunner "master")
              (trace (LiteralEntityManager.transaction this first second)))
  /\ EntityManager.transaction this first second
     = LiteralEntityManager.transaction this first second.
Proof.
  split; [ | split; [ | reflexivity ] ].
  - intros own Hown. split.
    + intros r.
      destruct first as [level | run]; [ destruct second as [run |] | ].
      all: try destruct level.
      all: try (run_transaction_with run; cbn; intros Hin; in_trace; congruence).
      all: run_transaction; cbn; intros Hin; in_trace; congruence.
    + intros Hactive.
      unfold LiteralEntityManager.transaction, LiteralEntityManager.callbackOf.
      rewrite Hown, Hactive.
      destruct first as [level | run]; [ destruct second as [run |] | ].
      all: destruct (driverIsMongo (connection this)), (isReleased own);
        reflexivity.
  - intros r.
    destruct first as [level | run]; [ destruct second as [run |] | ].
    all: try destruct level.
    all: try (run_transaction_with run; cbn; intros Hin; in_trace;
              repeat split; try congruence; tauto).
    all: run_transaction; cbn; intros Hin; in_trace;
      repeat split; try congruence; tauto.
Qed.

End Transaction.

(** The witness of [transaction_rethrows_callback_error]: a callback that
    fails on a caller-supplied runner whose rollback fails too. *)
Lemma transaction_rethrows_callback_error_witness :
  In (EvRollbackTransaction (Samples.runner 1 false false))
     (trace (LiteralEntityManager.transaction Samples.managerOnSuppliedRunner
               (ArgCallback (Samples.failingCallback 1)) None))
  /\ outcome (LiteralEntityManager.transaction Samples.managerOnSuppliedRunner
                (ArgCallback (Samples.failingCallback 1)) None)
     = Rejected (CollaboratorError 1)
  /\ EntityManager.transaction Samples.managerOnSuppliedRunner
       (ArgCallback (Samples.failingCallback 1)) None
     = LiteralEntityManager.transaction Samples.managerOnSuppliedRunner
         (ArgCallback (Samples.failingCallback 1)) None.
Proof.
  apply (transaction_rethrows_callback_error Samples.managerOnSuppliedRunner
           (ArgCallback (Samples.failingCallback 1)) None
           (Samples.failingCallback 1) (Samples.runner 1 false false)
           (CollaboratorError 1)).
  - reflexivity.
  - cbn. tauto.
  - reflexivity.
  - cbn. discriminate.
Defined.

(** The counterexample to C3 as stated: the callback fails with error 1,
    the rollback resolves, the release of the runner the method created
    rejects with error 3, and error 3 is what the caller gets. *)
Lemma release_failure_replaces_callback_error :
  Samples.failingCallback 1 (Samples.runner 7 false false) = Err (CollaboratorError 1)
  /\ LiteralEntityManager.transaction Samples.managerWithFailingRelease
       (ArgCallback (Samples.failingCallback 1)) None
     = ([EvCreateQueryRunner "master";
         EvStartTransaction (Samples.runner 7 false false) None;
         EvRunInTransaction (Samples.runner 7 false false);
         EvRollbackTransaction (Samples.runner 7 false false);
         EvRelease (Samples.runner 7 false false)],
        Rejected (CollaboratorError 3)).
Proof. split; reflexivity. Qed.


(** The witness of [transaction_leaves_supplied_runner]: on a supplied
    runner with an active transaction nothing happens on the runner. *)
Lemma transaction_leaves_supplied_runner_witness :
  trace (LiteralEntityManager.transaction Samples.managerOnActiveRunner
           (ArgCallback (Samples.failingCallback 1)) None) = [].
Proof.
  destruct (transaction_leaves_supplied_runner Samples.managerOnActiveRunner
              (ArgCallback (Samples.failingCallback 1)) None) as [Hsupplied _].
  destruct (Hsupplied (Samples.runner 1 false true) eq_refl) as [_ Hactive].
  apply Hactive. reflexivity.
Defined.


(** ** Bulk operations and lookups *)

(** The scenario of the [findOne] tests on the literal manager. *)
Example findOne_by_title :
  outcome (LiteralEntityManager.findOne Samples.postsManager Samples.Post
             [VObject [("title", VString "How to buy a dog")]])
  = Resolved Samples.secondPost
  /\ outcome (LiteralEntityManager.findOne Samples.postsManager Samples.Post
                [VObject [("title", VString "How to buy a pig")]])
     = Resolved VUndefined
  /\ outcome (LiteralEntityManager.findOne Samples.postsManager Samples.Post
                [VNumber 1; VObject [("where", VObject [("title", VString "How to buy a dog")])]])
     = Resolved VUndefined
  /\ outcome (LiteralEntityManager.findOne Samples.postsManager Samples.Post [])
     = Resolved Samples.firstPost.
Proof. repeat split; reflexivity. Qed.

(** C2.  [update], [delete], [softDelete] and [restore] reject a criteria
    that is [undefined], [null], the empty string or an empty array, and do
    so without creating a query builder or executing anything. *)
Theorem empty_criteria_rejected (this : Manager) (target : EntityTarget)
    (criteria partialEntity : JsValue) :
  criteria = VUndefined \/ criteria = VNull
  \/ criteria = VString EmptyString \/ criteria = VArray [] ->
  LiteralEntityManager.update this target criteria partialEntity
  = ([], Rejected (Error "Empty criteria(s) are not allowed for the update method."))
  /\ LiteralEntityManager.delete this target criteria
     = ([], Rejected (Error "Empty criteria(s) are not allowed for the delete method."))
  /\ LiteralEntityManager.softDelete this target criteria
     = ([], Rejected (Error "Empty criteria(s) are not allowed for the delete method."))
  /\ LiteralEntityManager.restore this target criteria
     = ([], Rejected (Error "Empty criteria(s) are not allowed for the delete method.")).
Proof.
  intros [-> | [-> | [-> | ->]]]; repeat split; reflexivity.
Qed.

Lemma empty_criteria_rejected_witness :
  LiteralEntityManager.update Samples.postsManager Samples.Post
    (VString EmptyString) (VObject [("title", VString "x")])
  = ([], Rejected (Error "Empty criteria(s) are not allowed for the update method."))
  /\ LiteralEntityManager.delete Samples.postsManager Samples.Post (VString EmptyString)
     = ([], Rejected (Error "Empty criteria(s) are not allowed for the delete method."))
  /\ LiteralEntityManager.softDelete Samples.postsManager Samples.Post
       (VString EmptyString)
     = ([], Rejected (Error "Empty criteria(s) are not allowed for the delete method."))
  /\ LiteralEntityManager.restore Samples.postsManager Samples.Post
       (VString EmptyString)
     = ([], Rejected (Error "Empty criteria(s) are not allowed for the delete method.")).
Proof.
  apply (empty_criteria_rejected Samples.postsManager Samples.Post
           (VString EmptyString) (VObject [("title", VString "x")])).
  right. right. left. reflexivity.
Defined.

(** C5.  [findOne] with [undefined] or [null] as the criteria, with or
    without a second argument, resolves with [undefined] and neither creates
    a query builder nor runs a query. *)
Theorem findOne_absent_criteria (this : Manager) (entityClass : EntityTarget)
    (criteria maybeOptions : JsValue) :
  criteria = VUndefined \/ criteria = VNull ->
  LiteralEntityManager.findOne this entityClass [criteria] = ([], Resolved VUndefined)
  /\ LiteralEntityManager.findOne this entityClass [criteria; maybeOptions]
     = ([], Resolved VUndefined).
Proof.
  intros [-> | ->]; split; reflexivity.
Qed.

Lemma findOne_absent_criteria_witness :
  LiteralEntityManager.findOne Samples.postsManager Samples.Post [VUndefined]
  = ([], Resolved VUndefined)
  /\ LiteralEntityManager.findOne Samples.postsManager Samples.Post
       [VUndefined; VObject [("where", VObject [("id", VNumber 1)])]]
     = ([], Resolved VUndefined).
Proof.
  apply (findOne_absent_criteria Samples.postsManager Samples.Post VUndefined
           (VObject [("where", VObject [("id", VNumber 1)])])).
  left. reflexivity.
Defined.





(** What [findOneOrFail] makes of each completion of [findOne]. *)
Lemma orFail_outcome (b : Builtins) (entityClass : EntityTarget) (criteria : JsValue)
    (found : Call JsValue) :
  trace (LiteralEntityManager.orFail b entityClass criteria found) = trace found
  /\ (forall value,
        outcome (LiteralEntityManager.orFail b entityClass criteria found)
        = Resolved value
        <-> outcome found = Resolved value /\ value <> VUndefined)
  /\ (outcome found = Resolved VUndefined ->
      outcome (LiteralEntityManager.orFail b entityClass criteria found)
      = Rejected (EntityNotFoundError
                    ("Could not find any entity of type " +:+ EntityNotFound.dquote
                       +:+ EntityNotFound.targetName entityClass
                       +:+ EntityNotFound.dquote +:+ " matching: "
                       +:+ EntityNotFound.stringifyCriteria b criteria)))
  /\ (forall e,
        outcome found = Rejected e \/ outcome found = Thrown e ->
        outcome (LiteralEntityManager.orFail b entityClass criteria found)
        = Rejected e).
Proof.
  destruct found as [tr [value | e | e]]; [ destruct value | | ]; cbn.
  all: repeat split; try congruence; try tauto.
  all: try (intros [H1 H2]; congruence).
  all: try (intros e' [H | H]; congruence).
  all: intros e' [H | H]; injection H as ->; reflexivity.
Qed.

(** C7, as amended.  [findOneOrFail] makes the same calls as [findOne] with
    the same two arguments; it resolves with a value exactly when [findOne]
    resolves with that value and the value is not [undefined]; when [findOne]
    resolves with [undefined] it rejects with an [EntityNotFoundError] whose
    message holds the name of the entity type and the stringified criteria;
    and when [findOne] itself rejects or throws, it rejects with that same
    error. *)
Theorem findOneOrFail_converts_absence (b : Builtins) (this : Manager)
    (entityClass : EntityTarget) (criteria maybeOptions : JsValue) :
  trace (LiteralEntityManager.findOneOrFail b this entityClass criteria maybeOptions)
  = trace (LiteralEntityManager.findOne this entityClass [criteria; maybeOptions])
  /\ (forall value,
        outcome (LiteralEntityManager.findOneOrFail b this entityClass criteria
                   maybeOptions) = Resolved value
        <-> outcome (LiteralEntityManager.findOne this entityClass
                       [criteria; maybeOptions]) = Resolved value
            /\ value <> VUndefined)
  /\ (outcome (LiteralEntityManager.findOne this entityClass [criteria; maybeOptions])
      = Resolved VUndefined ->
      outcome (LiteralEntityManager.findOneOrFail b this entityClass criteria
                 maybeOptions)
      = Rejected (EntityNotFoundError
                    ("Could not find any entity of type " +:+ EntityNotFound.dquote
                       +:+ EntityNotFound.targetName entityClass
                       +:+ EntityNotFound.dquote +:+ " matching: "
                       +:+ EntityNotFound.stringifyCriteria b criteria)))
  /\ (forall e,
        outcome (LiteralEntityManager.findOne this entityClass [criteria; maybeOptions])
        = Rejected e
        \/ outcome (LiteralEntityManager.findOne this entityClass
                      [criteria; maybeOptions]) = Thrown e ->
        outcome (LiteralEntityManager.findOneOrFail b this entityClass criteria
                   maybeOptions) = Rejected e).
Proof.
  apply orFail_outcome.
Qed.

(** The witness of [findOneOrFail_converts_absence]: no post has the title
    asked for. *)
Lemma findOneOrFail_converts_absence_witness :
  outcome (LiteralEntityManager.findOneOrFail Samples.sampleBuiltins
             Samples.postsManager Samples.Post
             (VObject [("title", VString "How to buy a pig")]) VUndefined)
  = Rejected (EntityNotFoundError
                ("Could not find any entity of type " +:+ EntityNotFound.dquote
                   +:+ "Post" +:+ EntityNotFound.dquote +:+ " matching: {}")).
Proof.
  destruct (findOneOrFail_converts_absence Samples.sampleBuiltins
              Samples.postsManager Samples.Post
              (VObject [("title", VString "How to buy a pig")]) VUndefined)
    as (_ & _ & Habsent & _).
  apply Habsent. reflexivity.
Defined.

(** The counterexample to C7 as stated: for an entity class without
    metadata, and for a query that rejects, [findOne] does not resolve with
    an entity and [findOneOrFail] rejects with the error of [findOne], which
    is not a not-found error. *)
Lemma findOneOrFail_passes_other_errors :
  outcome (LiteralEntityManager.findOne Samples.postsManager (TargetName "Ghost")
             [VNumber 1; VUndefined])
  = Thrown (EntityMetadataNotFoundError
              ("No metadata for " +:+ EntityNotFound.dquote +:+ "Ghost"
                 +:+ EntityNotFound.dquote +:+ " was found."))
  /\ outcome (LiteralEntityManager.findOneOrFail Samples.sampleBuiltins
                Samples.postsManager (TargetName "Ghost") (VNumber 1) VUndefined)
     = Rejected (EntityMetadataNotFoundError
                   ("No metadata for " +:+ EntityNotFound.dquote +:+ "Ghost"
                      +:+ EntityNotFound.dquote +:+ " was found."))
  /\ outcome (LiteralEntityManager.findOne Samples.brokenManager Samples.Post
                [VNumber 1; VUndefined])
     = Rejected (CollaboratorError 5)
  /\ outcome (LiteralEntityManager.findOneOrFail Samples.sampleBuiltins
                Samples.brokenManager Samples.Post (VNumber 1) VUndefined)
     = Rejected (CollaboratorError 5).
Proof. repeat split; reflexivity. Qed.

(** A lookup without criteria: [findOne] called with no argument runs its
    query and finds the first post, while [findOneOrFail], whose omitted
    arguments reach [findOne] as two [undefined] values, rejects. *)
Example findOneOrFail_without_criteria :
  outcome (LiteralEntityManager.findOne Samples.postsManager Samples.Post [])
  = Resolved Samples.firstPost
  /\ LiteralEntityManager.findOneOrFail Samples.sampleBuiltins Samples.postsManager
       Samples.Post VUndefined VUndefined
     = ([], Rejected (EntityNotFoundError
                        ("Could not find any entity of type " +:+ EntityNotFound.dquote
                           +:+ "Post" +:+ EntityNotFound.dquote
                           +:+ " matching: undefined"))).
Proof. split; reflexivity. Qed.

(** C9 fails on the code.  With [undefined] as the criteria the literal
    manager resolves with [undefined] without a query, while the class
    based manager runs an unrestricted query and resolves with the first
    row; with plain conditions the literal manager limits the query to one
    row and the class based manager does not. *)
Theorem class_findOne_differs_from_literal :
  LiteralEntityManager.findOne Samples.postsManager Samples.Post [VUndefined]
  = ([], Resolved VUndefined)
  /\ EntityManager.findOne Samples.postsManager Samples.Post [VUndefined]
     = ([EvCreateQueryBuilder (Some Samples.Post) (Some "Post");
         EvGetOne {| qbTarget := Some Samples.Post; qbAlias := Some "Post";
                     qbCalls := [] |}],
        Resolved Samples.firstPost)
  /\ trace (LiteralEntityManager.findOne Samples.postsManager Samples.Post
              [VObject [("title", VString "How to buy a dog")]])
     = [EvCreateQueryBuilder (Some Samples.Post) (Some "Post");
        EvGetOne {| qbTarget := Some Samples.Post; qbAlias := Some "Post";
                    qbCalls :=
                      [QbSetFindOptions (VObject [("take", VNumber 1)]);
                       QbWhere (VObject [("title", VString "How to buy a dog")])] |}]
  /\ trace (EntityManager.findOne Samples.postsManager Samples.Post
              [VObject [("title", VString "How to buy a dog")]])
     = [EvCreateQueryBuilder (Some Samples.Post) (Some "Post");
        EvGetOne {| qbTarget := Some Samples.Post; qbAlias := Some "Post";
                    qbCalls :=
                      [QbWhere (VObject [("title", VString "How to buy a dog")])] |}].
Proof. repeat split; reflexivity. Qed.

(** ** Tree queries *)

Section TreeQueries.

Import LiteralTreeRepository.

(** Concatenation of strings is associative. *)
Lemma string_app_assoc (a b c : string) : (a +:+ b) +:+ c = a +:+ (b +:+ c).
Proof.
  induction a as [| ch a IH]; [ reflexivity | ].
  change (String ch ((a +:+ b) +:+ c) = String ch (a +:+ (b +:+ c))).
  f_equal. exact IH.
Qed.

(** The parameters object after the assignments: a key that is assigned
    once holds the value assigned to it. *)
Lemma setParameters_lookup_aux (pairs : list (string * Prim)) (m : gmap string Prim) (k : string) :
  (k ∉ pairs.*1 -> foldl (fun m kv => <[kv.1 := kv.2]> m) m pairs !! k = m !! k)
  /\ (forall v, NoDup pairs.*1 -> (k, v) ∈ pairs ->
        foldl (fun m kv => <[kv.1 := kv.2]> m) m pairs !! k = Some v).
Proof.
  revert m. induction pairs as [| [k' v'] pairs IH]; intros m; cbn.
  - split; [ reflexivity | intros v _ Hin; inversion Hin ].
  - split.
    + intros Hnot. rewrite not_elem_of_cons in Hnot. destruct Hnot as [Hne Hnot].
      destruct (IH (<[k':=v']> m)) as [IH1 _]. rewrite IH1 by exact Hnot.
      apply lookup_insert_ne. congruence.
    + intros v Hnd Hin. apply NoDup_cons in Hnd as [Hfresh Hnd].
      apply elem_of_cons in Hin as [Heq | Hin].
      * injection Heq as -> ->.
        destruct (IH (<[k':=v']> m)) as [IH1 _]. rewrite IH1 by exact Hfresh.
        apply lookup_insert_eq.
      * destruct (IH (<[k':=v']> m)) as [_ IH2]. apply IH2; assumption.
Qed.

Lemma setParameters_lookup (pairs : list (string * Prim)) (k : string) (v : Prim) :
  NoDup pairs.*1 -> (k, v) ∈ pairs -> setParameters pairs !! k = Some v.
Proof.
  intros Hnd Hin. unfold setParameters.
  destruct (setParameters_lookup_aux pairs ∅ k) as [_ H]. apply H; assumption.
Qed.

Lemma bound_main (alias : string) (row joined : Entity) :
  bound alias [(alias, row); ("joined", joined)] = Some row.
Proof. cbn [bound]. rewrite String.eqb_refl. reflexivity. Qed.

Lemma bound_joined (alias : string) (row joined : Entity) :
  alias <> "joined" ->
  bound "joined" [(alias, row); ("joined", joined)] = Some joined.
Proof.
  intros Hne. cbn [bound].
  destruct (String.eqb_spec "joined" alias) as [Heq | _]; [ congruence | reflexivity ].
Qed.

(** The condition on the joined row holds exactly for the stored rows of
    the entity. *)
Lemma joined_atoms_identify (entity : Entity) (referenced : list ColumnMetadata)
    (alias : string) (row joined : Entity) :
  alias <> "joined" ->
  NoDup (map nestedSetParameterName referenced) ->
  evalCondition (setParameters (map (nestedSetParameter entity) referenced))
    [(alias, row); ("joined", joined)] (map nestedSetJoinedAtom referenced) = true
  <-> identifies referenced entity joined.
Proof.
  intros Hne Hnd. unfold evalCondition, identifies.
  rewrite forallb_forall, Forall_forall.
  assert (Hkeys : (map (nestedSetParameter entity) referenced).*1
                  = map nestedSetParameterName referenced).
  { clear. induction referenced as [| r rest IH]; [ reflexivity | ].
    cbn. f_equal. exact IH. }
  assert (Hvalue : forall r, r ∈ referenced ->
            evalAtom (setParameters (map (nestedSetParameter entity) referenced))
              [(alias, row); ("joined", joined)] (nestedSetJoinedAtom r)
            = sqlEq (stored joined r) (getEntityValue r entity)).
  { intros r Hr. unfold evalAtom, nestedSetJoinedAtom, columnValue.
    cbn [fst snd nameOf]. rewrite bound_joined by exact Hne.
    rewrite (setParameters_lookup _ (nestedSetParameterName r) (getEntityValue r entity)).
    - reflexivity.
    - rewrite Hkeys. exact Hnd.
    - apply list_elem_of_In, in_map_iff. exists r. split; [ reflexivity | ].
      apply list_elem_of_In. exact Hr. }
  split.
  - intros H r Hr. rewrite <- Hvalue by exact Hr.
    apply H, in_map_iff. exists r. split; [ reflexivity | apply list_elem_of_In, Hr ].
  - intros H atom Hatom. apply in_map_iff in Hatom as (r & <- & Hr).
    apply list_elem_of_In in Hr. rewrite Hvalue by exact Hr. apply H, Hr.
Qed.

(** The rows an inner join keeps. *)
Lemma selected_pairs (table joinedTable : list Entity) (test : Entity -> Entity -> bool)
    (row : Entity) :
  row ∈ (r ← table; j ← joinedTable; if test r j then [r] else [])
  <-> row ∈ table /\ exists joined, joined ∈ joinedTable /\ test row joined = true.
Proof.
  rewrite list_elem_of_bind. split.
  - intros (r & Hin & Hr). apply list_elem_of_bind in Hin as (j & Hin & Hj).
    destruct (test r j) eqn:Htest; [ | inversion Hin ].
    apply list_elem_of_singleton in Hin as ->. eauto.
  - intros (Hr & j & Hj & Htest). exists row. split; [ | exact Hr ].
    apply list_elem_of_bind. exists j. split; [ | exact Hj ].
    rewrite Htest. apply list_elem_of_singleton. reflexivity.
Qed.

(** With an alias the repository's builder selects from the entity under
    that alias. *)
Lemma createQueryBuilder_alias (md : EntityMetadata) (alias : string) :
  alias <> EmptyString -> createQueryBuilder md alias = Some (targetName md, alias).
Proof. destruct alias; [ congruence | reflexivity ]. Qed.

Lemma existsb_first (a b : string) : existsb (String.eqb a) [a; b] = true.
Proof. cbn. rewrite String.eqb_refl. reflexivity. Qed.

Lemma existsb_second (a b : string) : existsb (String.eqb b) [a; b] = true.
Proof. cbn. rewrite String.eqb_refl, orb_true_r. reflexivity. Qed.

(** The conditions of the nested-set queries mention the alias and
    [joined] only. *)
Lemma nested_set_conditions_resolved (alias : string) (left right : ColumnMetadata)
    (referencedColumns : list ColumnMetadata) :
  resolved [alias; "joined"] (nestedSetDescendantsCondition alias left right) = true
  /\ resolved [alias; "joined"] (nestedSetAncestorsCondition alias left right) = true
  /\ resolved [alias; "joined"] (map nestedSetJoinedAtom referencedColumns) = true.
Proof.
  unfold resolved, nestedSetDescendantsCondition, nestedSetAncestorsCondition.
  cbn [forallb atomColumns nameOf fst].
  rewrite !existsb_first, !existsb_second. repeat apply conj; try reflexivity.
  induction referencedColumns as [| r rest IH]; [ reflexivity | ].
  cbn [map forallb nestedSetJoinedAtom atomColumns nameOf fst].
  rewrite existsb_second, IH. reflexivity.
Qed.

(** C1, as amended.  For nested-set metadata, a primary alias that is not
    empty and is not [joined], and join columns of the tree-parent relation
    whose referenced columns give distinct parameter names, the descendants
    query selects exactly the rows whose left boundary lies between the left
    and right boundaries of a stored row of the entity, both bounds
    included, and the ancestors query selects exactly the rows between whose
    left and right boundaries the left boundary of such a stored row lies,
    both bounds included; in particular a stored row of the entity whose
    left boundary does not exceed its right boundary is selected as its own
    descendant and as its own ancestor. *)
Theorem nested_set_queries_select_inclusive_range (d : Driver) (md : EntityMetadata)
    (left right : ColumnMetadata) (relation : RelationMetadata)
    (referencedColumns : list ColumnMetadata)
    (alias closureTableAlias : string) (entity : Entity) (db : string -> list Entity) :
  treeType md = Some "nested-set" ->
  nestedSetLeftColumn md = Some left ->
  nestedSetRightColumn md = Some right ->
  treeParentRelation md = Some relation ->
  mapResult referenced (joinColumns relation) = Ok referencedColumns ->
  NoDup (map nestedSetParameterName referencedColumns) ->
  alias <> EmptyString ->
  alias <> "joined" ->
  exists descendants ancestors,
    (let? qb := createDescendantsQueryBuilder d (Ok md) alias closureTableAlias entity in
     Ok (selectedRows db qb)) = Ok (Some descendants)
    /\ (let? qb := createAncestorsQueryBuilder d (Ok md) alias closureTableAlias entity in
        Ok (selectedRows db qb)) = Ok (Some ancestors)
    /\ (forall row,
          row ∈ descendants
          <-> row ∈ db (targetName md)
              /\ exists joined,
                   joined ∈ db (targetName md)
                   /\ identifies referencedColumns entity joined
                   /\ betweenInclusive (stored joined left) (stored row left)
                        (stored joined right))
    /\ (forall row,
          row ∈ ancestors
          <-> row ∈ db (targetName md)
              /\ exists joined,
                   joined ∈ db (targetName md)
                   /\ identifies referencedColumns entity joined
                   /\ betweenInclusive (stored row left) (stored joined left)
                        (stored row right))
    /\ (forall self,
          self ∈ db (targetName md) ->
          identifies referencedColumns entity self ->
          sqlLe (stored self left) (stored self right) = true ->
          self ∈ descendants /\ self ∈ ancestors).
Proof.
  intros Htype Hleft Hright Hrelation Hreferenced Hnd Hnamed Halias.
  unfold createDescendantsQueryBuilder, createAncestorsQueryBuilder.
  cbn [bindResult].
  rewrite Htype, Hleft, Hright, Hrelation.
  destruct (decide (Some "nested-set" = Some "closure-table")) as [Habs |]; [ discriminate Habs | ].
  destruct (decide (Some "nested-set" = Some "nested-set")) as [_ | Habs]; [ | congruence ].
  cbn [required bindResult]. rewrite Hreferenced. cbn [bindResult].
  unfold selectedRows. cbn [selectFrom innerJoin where_ parameters].
  rewrite (createQueryBuilder_alias md alias Hnamed).
  destruct (nested_set_conditions_resolved alias left right referencedColumns)
    as (-> & -> & ->).
  assert (Hdistinct : String.eqb alias "joined" = false).
  { apply String.eqb_neq. exact Halias. }
  rewrite Hdistinct. cbn [String.eqb Ascii.eqb Bool.eqb negb andb].
  eexists. eexists. split; [ reflexivity | split; [ reflexivity | ] ].
  assert (Hdesc : forall row joined,
            evalCondition (setParameters (map (nestedSetParameter entity) referencedColumns))
              [(alias, row); ("joined", joined)]
              (nestedSetDescendantsCondition alias left right) = true
            <-> betweenInclusive (stored joined left) (stored row left) (stored joined right)).
  { intros row joined. unfold evalCondition, nestedSetDescendantsCondition, betweenInclusive.
    cbn [forallb evalAtom]. unfold columnValue, stored. cbn [fst snd nameOf].
    rewrite bound_main, (bound_joined _ _ _ Halias).
    rewrite andb_true_r, andb_true_iff. reflexivity. }
  assert (Hanc : forall row joined,
            evalCondition (setParameters (map (nestedSetParameter entity) referencedColumns))
              [(alias, row); ("joined", joined)]
              (nestedSetAncestorsCondition alias left right) = true
            <-> betweenInclusive (stored row left) (stored joined left) (stored row right)).
  { intros row joined. unfold evalCondition, nestedSetAncestorsCondition, betweenInclusive.
    cbn [forallb evalAtom]. unfold columnValue, stored. cbn [fst snd nameOf].
    rewrite bound_main, (bound_joined _ _ _ Halias).
    rewrite andb_true_r, andb_true_iff. reflexivity. }
  assert (Hrows : forall row,
            (row ∈ (r ← db (targetName md); j ← db (targetName md);
                    if evalCondition (setParameters (map (nestedSetParameter entity) referencedColumns))
                         [(alias, r); ("joined", j)] (nestedSetDescendantsCondition alias left right)
                       && evalCondition (setParameters (map (nestedSetParameter entity) referencedColumns))
                            [(alias, r); ("joined", j)] (map nestedSetJoinedAtom referencedColumns)
                    then [r] else [])
             <-> row ∈ db (targetName md)
                 /\ exists joined, joined ∈ db (targetName md)
                      /\ identifies referencedColumns entity joined
                      /\ betweenInclusive (stored joined left) (stored row left) (stored joined right))
            /\ (row ∈ (r ← db (targetName md); j ← db (targetName md);
                    if evalCondition (setParameters (map (nestedSetParameter entity) referencedColumns))
                         [(alias, r); ("joined", j)] (nestedSetAncestorsCondition alias left right)
                       && evalCondition (setParameters (map (nestedSetParameter entity) referencedColumns))
                            [(alias, r); ("joined", j)] (map nestedSetJoinedAtom referencedColumns)
                    then [r] else [])
             <-> row ∈ db (targetName md)
                 /\ exists joined, joined ∈ db (targetName md)
                      /\ identifies referencedColumns entity joined
                      /\ betweenInclusive (stored row left) (stored joined left) (stored row right))).
  { intros row. split.
    - rewrite (selected_pairs _ _ (fun r j => _ && _)). apply and_iff_compat_l.
      split; intros (joined & Hin & H); exists joined; (split; [ exact Hin | ]).
      + apply andb_true_iff in H as [H1 H2].
        split; [ apply (joined_atoms_identify entity _ alias row); assumption | apply Hdesc, H1 ].
      + destruct H as [H1 H2]. apply andb_true_iff.
        split; [ apply Hdesc, H2 | apply joined_atoms_identify; assumption ].
    - rewrite (selected_pairs _ _ (fun r j => _ && _)). apply and_iff_compat_l.
      split; intros (joined & Hin & H); exists joined; (split; [ exact Hin | ]).
      + apply andb_true_iff in H as [H1 H2].
        split; [ apply (joined_atoms_identify entity _ alias row); assumption | apply Hanc, H1 ].
      + destruct H as [H1 H2]. apply andb_true_iff.
        split; [ apply Hanc, H2 | apply joined_atoms_identify; assumption ]. }
  split; [ intros row; apply Hrows | ].
  split; [ intros row; apply Hrows | ].
  intros self Hself Hid Hle.
  assert (Hrefl : sqlLe (stored self left) (stored self left) = true).
  { destruct (stored self left), (stored self right); try discriminate Hle.
    cbn. apply Z.leb_refl. }
  split; apply Hrows; (split; [ exact Hself | ]); exists self; repeat split; assumption.
Qed.


(** The text of the nested-set conditions is the text the source
    concatenates. *)
Lemma nested_set_conditions_text (d : Driver) (alias : string)
    (left right : ColumnMetadata) :
  renderCondition d (nestedSetDescendantsCondition alias left right)
  = alias +:+ "." +:+ propertyPath left +:+ " BETWEEN "
      +:+ "joined." +:+ propertyPath left +:+ " AND joined." +:+ propertyPath right
  /\ renderCondition d (nestedSetAncestorsCondition alias left right)
     = "joined." +:+ propertyPath left +:+ " BETWEEN "
         +:+ alias +:+ "." +:+ propertyPath left +:+ " AND "
         +:+ alias +:+ "." +:+ propertyPath right
  /\ renderAtom d (nestedSetJoinedAtom left)
     = "joined." +:+ propertyPath left +:+ " = :"
         +:+ replaceFirstDot (propertyPath left).
Proof.
  unfold renderCondition, nestedSetDescendantsCondition, nestedSetAncestorsCondition,
    nestedSetJoinedAtom, nestedSetParameterName, renderAtom, renderColumn.
  cbn [map String.concat fst snd renderName].
  split; [ | split ]; rewrite ?string_app_assoc; reflexivity.
Qed.

(** On numbers the inclusive range is the usual one. *)
Lemma betweenInclusive_numbers (lo x hi : Z) :
  betweenInclusive (PNum lo) (PNum x) (PNum hi) <-> (lo <= x <= hi)%Z.
Proof.
  unfold betweenInclusive. cbn. rewrite !Z.leb_le. reflexivity.
Qed.

(** The witness of [nested_set_queries_select_inclusive_range]: the sample
    category tree, queried for its root. *)
Lemma nested_set_queries_select_inclusive_range_witness :
  exists descendants ancestors,
    (let? qb := createDescendantsQueryBuilder TreeSamples.plainDriver
                  (Ok TreeSamples.category) "treeEntity" "treeClosure"
                  TreeSamples.root in
     Ok (selectedRows TreeSamples.categories qb)) = Ok (Some descendants)
    /\ (let? qb := createAncestorsQueryBuilder TreeSamples.plainDriver
                     (Ok TreeSamples.category) "treeEntity" "treeClosure"
                     TreeSamples.root in
        Ok (selectedRows TreeSamples.categories qb)) = Ok (Some ancestors)
    /\ TreeSamples.root ∈ descendants
    /\ TreeSamples.root ∈ ancestors.
Proof.
  destruct (nested_set_queries_select_inclusive_range TreeSamples.plainDriver
              TreeSamples.category TreeSamples.leftColumn TreeSamples.rightColumn
              {| relationPropertyName := "parentCategory";
                 joinColumns := [TreeSamples.parentJoinColumn TreeSamples.idColumn] |}
              [TreeSamples.idColumn] "treeEntity" "treeClosure" TreeSamples.root
              TreeSamples.categories)
    as (descendants & ancestors & Hd & Ha & _ & _ & Hself).
  - reflexivity.
  - reflexivity.
  - reflexivity.
  - reflexivity.
  - reflexivity.
  - apply NoDup_cons. split; [ apply not_elem_of_nil | apply NoDup_nil_2 ].
  - discriminate.
  - discriminate.
  - exists descendants, ancestors.
    split; [ exact Hd | split; [ exact Ha | ] ].
    apply (Hself TreeSamples.root).
    + apply elem_of_cons. left. reflexivity.
    + apply Forall_cons. split; [ reflexivity | apply Forall_nil_2 ].
    + reflexivity.
Defined.

(** The counterexample to C1 as stated: the descendants query for the root
    of the sample tree selects the root itself, whose left boundary, 1, is
    the root's own left boundary and so not strictly above it. *)
Lemma nested_set_descendants_include_the_entity :
  (let? qb := createDescendantsQueryBuilder TreeSamples.plainDriver
                (Ok TreeSamples.category) "treeEntity" "treeClosure"
                TreeSamples.root in
   Ok (selectedRows TreeSamples.categories qb))
  = Ok (Some [TreeSamples.root; TreeSamples.child])
  /\ stored TreeSamples.root TreeSamples.leftColumn = PNum 1
  /\ stored TreeSamples.root TreeSamples.rightColumn = PNum 4
  /\ (1 <? 1)%Z = false.
Proof. repeat apply conj; vm_compute; reflexivity. Qed.

(** ** Tree materialization *)

(** The entities attached under a node are the fetched entities whose [id]
    property is the [id] of a relation map whose [parentId] is the node's
    primary-key value. *)
Lemma childEntities_spec (primary : ColumnMetadata) (entity : Entity)
    (entities : list Entity) (relationMaps : list RelationMap) (e : Entity) :
  e ∈ childEntities primary entity entities relationMaps
  <-> e ∈ entities
      /\ exists relationMap,
           relationMap ∈ relationMaps
           /\ parentId relationMap = getEntityValue primary entity
           /\ id relationMap = property "id" e.
Proof.
  unfold childEntities. rewrite list_elem_of_filter, elem_of_list_to_set.
  rewrite list_elem_of_In, in_map_iff. split.
  - intros [(relationMap & Hid & Hin) He]. split; [ exact He | ].
    apply list_elem_of_In, list_elem_of_filter in Hin as [Hparent Hin]. eauto.
  - intros (He & relationMap & Hin & Hparent & Hid). split; [ | exact He ].
    exists relationMap. split; [ exact Hid | ].
    apply list_elem_of_In, list_elem_of_filter. split; assumption.
Qed.

(** No entity is attached twice under a node when the fetched entities are
    distinct. *)
Lemma childEntities_NoDup (primary : ColumnMetadata) (entity : Entity)
    (entities : list Entity) (relationMaps : list RelationMap) :
  NoDup entities -> NoDup (childEntities primary entity entities relationMaps).
Proof. intros Hnd. unfold childEntities. apply NoDup_filter, Hnd. Qed.

(** The builds of the children complete exactly when each of them does. *)
Lemma forEachBuild_Built {A B : Type} (build : A -> Build B) (l : list A)
    (built : list B) :
  forEachBuild build l = Built built
  <-> Forall2 (fun a b => build a = Built b) l built.
Proof.
  revert built. induction l as [| a rest IH]; intros built; cbn.
  - split.
    + intros H. injection H as <-. constructor.
    + intros H. inversion H. reflexivity.
  - destruct (build a) as [b | e |] eqn:Hbuild.
    + destruct (forEachBuild build rest) as [bs | e |] eqn:Hrest.
      * split.
        -- intros H. injection H as <-. constructor; [ exact Hbuild | ].
           apply IH. reflexivity.
        -- intros H. inversion H as [| ? b' ? bs' Hb Hbs]; subst.
           apply IH in Hbs. congruence.
      * split; [ discriminate | ].
        intros H. inversion H as [| ? b' ? bs' Hb Hbs]; subst.
        apply IH in Hbs. discriminate Hbs.
      * split; [ discriminate | ].
        intros H. inversion H as [| ? b' ? bs' Hb Hbs]; subst.
        apply IH in Hbs. discriminate Hbs.
    + split; [ discriminate | ].
      intros H. inversion H as [| ? b' ? bs' Hb Hbs]; subst. congruence.
    + split; [ discriminate | ].
      intros H. inversion H as [| ? b' ? bs' Hb Hbs]; subst. congruence.
Qed.

(** A completed build keeps the entity at the root, attaches under it the
    entities of [childEntities], in their order among the fetched entities,
    and each attached entity is in turn the root of its own build. *)
Lemma buildChildrenEntityTree_Built (fuel : nat) (md : EntityMetadata)
    (entity : Entity) (entities : list Entity) (relationMaps : list RelationMap)
    (tree : Tree) :
  buildChildrenEntityTree (S fuel) md entity entities relationMaps = Built tree ->
  exists primary others,
    primaryColumns md = primary :: others
    /\ rootEntity tree = entity
    /\ Forall2 (fun childEntity childTree =>
                  buildChildrenEntityTree fuel md childEntity entities relationMaps
                  = Built childTree)
               (childEntities primary entity entities relationMaps)
               (childTrees tree).
Proof.
  cbn [buildChildrenEntityTree].
  destruct (treeChildrenRelation md) as [relation |]; [ | discriminate ].
  destruct (primaryColumns md) as [| primary others]; [ discriminate | ].
  destruct (forEachBuild _ _) as [children | e |] eqn:Hchildren; try discriminate.
  intros H. injection H as <-. exists primary, others.
  split; [ reflexivity | split; [ reflexivity | ] ].
  apply forEachBuild_Built in Hchildren. exact Hchildren.
Qed.

(** The builds of the children complete when each of them does. *)
Lemma forEachBuild_completes {A B : Type} (build : A -> Build B) (l : list A) :
  (forall a, a ∈ l -> exists b, build a = Built b) ->
  exists built, forEachBuild build l = Built built.
Proof.
  induction l as [| a rest IH]; intros Hall; cbn.
  - eexists. reflexivity.
  - destruct (Hall a) as [b Hb]; [ apply elem_of_cons; left; reflexivity | ].
    destruct IH as [bs Hbs].
    { intros a' Hin. apply Hall, elem_of_cons. right. exact Hin. }
    rewrite Hb, Hbs. eexists. reflexivity.
Qed.

(** The recursion ends, with fuel to spare, when the attaching relation
    goes down: with a measure that decreases from every node to each entity
    attached under it, any fuel above the measure of the root builds the
    tree. *)
Lemma buildChildrenEntityTree_completes (md : EntityMetadata)
    (relation : RelationMetadata) (primary : ColumnMetadata)
    (others : list ColumnMetadata) (entities : list Entity)
    (relationMaps : list RelationMap) (depth : Entity -> nat) :
  treeChildrenRelation md = Some relation ->
  primaryColumns md = primary :: others ->
  (forall parent childEntity,
     childEntity ∈ childEntities primary parent entities relationMaps ->
     (depth childEntity < depth parent)%nat) ->
  forall fuel entity,
    (depth entity < fuel)%nat ->
    exists tree,
      buildChildrenEntityTree fuel md entity entities relationMaps = Built tree.
Proof.
  intros Hrelation Hprimary Hdepth fuel.
  induction fuel as [| fuel IH]; intros entity Hfuel; [ lia | ].
  cbn [buildChildrenEntityTree]. rewrite Hrelation, Hprimary.
  destruct (forEachBuild_completes
              (fun childEntity =>
                 buildChildrenEntityTree fuel md childEntity entities relationMaps)
              (childEntities primary entity entities relationMaps)) as [children Hchildren].
  - intros childEntity Hin. apply IH.
    specialize (Hdepth entity childEntity Hin). lia.
  - rewrite Hchildren. eexists. reflexivity.
Qed.

(** When the property of the primary column is [id], the entities attached
    under a node are those whose relation-map parent is the node. *)
Lemma childEntities_by_identity (primary : ColumnMetadata) (entity : Entity)
    (entities : list Entity) (relationMaps : list RelationMap) (e : Entity) :
  propertyPath primary = "id" ->
  e ∈ childEntities primary entity entities relationMaps
  <-> e ∈ entities
      /\ exists relationMap,
           relationMap ∈ relationMaps
           /\ parentId relationMap = getEntityValue primary entity
           /\ id relationMap = getEntityValue primary e.
Proof.
  intros Hid. rewrite childEntities_spec. unfold getEntityValue. rewrite Hid.
  reflexivity.
Qed.

(** C6 fails on the code.  With a primary column whose property is [key],
    the child, whose relation map names the root as its parent, is not
    attached under the root, because the children are filtered on their
    [id] property; with the property [id] it is attached, and the parent
    tree, built on the property of the primary column, finds the parent in
    both cases. *)
Theorem children_lost_when_primary_property_is_not_id :
  buildChildrenEntityTree 3 TreeSamples.keyedCategory TreeSamples.keyedRoot
    [TreeSamples.keyedRoot; TreeSamples.keyedChild] TreeSamples.relationMaps
  = Built (Node TreeSamples.keyedRoot [])
  /\ buildChildrenEntityTree 3 TreeSamples.category TreeSamples.root
       [TreeSamples.root; TreeSamples.child] TreeSamples.relationMaps
     = Built (Node TreeSamples.root [Node TreeSamples.child []])
  /\ buildParentEntityTree 3 TreeSamples.keyedCategory TreeSamples.keyedChild
       [TreeSamples.keyedRoot; TreeSamples.keyedChild] TreeSamples.relationMaps
     = Built (Link TreeSamples.keyedChild (Some (Link TreeSamples.keyedRoot None))).
Proof. repeat apply conj; vm_compute; reflexivity. Qed.

End TreeQueries.

(** ** The life cycle of a transaction *)

Section TransactionLifeCycle.

Context {T : Type}.

Import TransactionSteps.

Ltac settle :=
  match goal with
  | |- context [driverIsMongo ?c] => destruct (driverIsMongo c) eqn:?
  | |- context [queryRunner ?m] => destruct (queryRunner m) as [? |] eqn:?
  | |- context [isReleased ?q] => destruct (isReleased q) eqn:?
  | |- context [isTransactionActive ?q] => destruct (isTransactionActive q) eqn:?
  | |- context [startTransaction ?c ?q ?i] =>
      destruct (startTransaction c q i) as [[] |] eqn:?
  | |- context [commitTransaction ?c ?q] =>
      destruct (commitTransaction c q) as [[] |] eqn:?
  | |- context [rollbackTransaction ?c ?q] =>
      destruct (rollbackTransaction c q) as [[] |] eqn:?
  | |- context [release ?c ?q] => destruct (release c q) as [[] |] eqn:?
  | |- context [observerExecute ?c] => destruct (observerExecute c) as [[] |] eqn:?
  end.

Ltac settle_callback run :=
  match goal with
  | |- context [run ?q] => destruct (run q) eqn:?
  end.

Ltac events :=
  repeat match goal with
         | H : _ \/ _ |- _ => destruct H
         | H : False |- _ => destruct H
         | H : @eq Event _ _ |- _ => first [ discriminate H | injection H as <- ]
         end.

Ltac advance :=
  progress cbn [async bind try_finally try_catch perform throw ret trace outcome
                fst snd app].

Ltac all_answers run :=
  unfold LiteralEntityManager.transaction, LiteralEntityManager.callbackOf,
    usedRunner, startedIsolation;
  repeat first [ settle | settle_callback run | advance ].

(** X1.  The promise of [transaction] resolves, and then with the value of
    the callback, exactly when a callback was given, the driver is not
    MongoDB, the manager's runner (if it has one) is neither released nor in
    a transaction, and starting the transaction, the callback, the commit,
    the observers and the release of a runner the method created all
    succeeded. *)
Theorem transaction_resolves_iff_every_step_succeeds (this : Manager)
    (first : TransactionArg T) (second : option (QueryRunner -> Result T)) (v : T) :
  outcome (LiteralEntityManager.transaction this first second) = Resolved v
  <-> exists run,
        LiteralEntityManager.callbackOf first second = Some run
        /\ driverIsMongo (connection this) = false
        /\ (forall own, queryRunner this = Some own ->
              isReleased own = false /\ isTransactionActive own = false)
        /\ startTransaction (connection this) (usedRunner this) (startedIsolation first)
           = Ok tt
        /\ run (usedRunner this) = Ok v
        /\ commitTransaction (connection this) (usedRunner this) = Ok tt
        /\ observerExecute (connection this) = Ok tt
        /\ (queryRunner this = None ->
            release (connection this) (usedRunner this) = Ok tt).
Proof.
  split.
  - match goal with |- _ -> ?G => remember G as Conclusion eqn:HConclusion end.
    destruct first as [level | run]; [ destruct second as [run |] | ].
    all: try destruct level.
    all: try (all_answers run; intros H; try discriminate H; injection H as ->;
              subst Conclusion; exists run; unfold usedRunner, startedIsolation;
              repeat match goal with
                     | Heq : ?x = _ |- context [?x] => rewrite Heq
                     end;
              repeat apply conj; intros;
              first [ reflexivity | discriminate | assumption
                    | match goal with
                      | Hown : Some _ = Some _ |- _ =>
                          injection Hown as <-; split; assumption
                      end ]).
    all: all_answers second; intros H; discriminate H.
  - intros (run & Hcb & Hmongo & Hown & Hstart & Hrun & Hcommit & Hobs & Hrel).
    revert Hcb Hstart Hrun Hcommit Hrel.
    unfold LiteralEntityManager.transaction, LiteralEntityManager.callbackOf,
      usedRunner, startedIsolation.
    rewrite Hmongo, Hobs.
    destruct (queryRunner this) as [own |] eqn:Hqr.
    + destruct (Hown own eq_refl) as [-> ->].
      destruct first as [level | run']; [ destruct level | ].
      all: intros Hcb Hstart Hrun Hcommit _; try injection Hcb as ->; try rewrite Hcb.
      all: cbn; rewrite Hstart; cbn; rewrite Hrun; cbn; rewrite Hcommit;
        reflexivity.
    + destruct first as [level | run']; [ destruct level | ].
      all: intros Hcb Hstart Hrun Hcommit Hrel; try injection Hcb as ->; try rewrite Hcb.
      all: specialize (Hrel eq_refl).
      all: cbn; rewrite Hstart; cbn; rewrite Hrun; cbn; rewrite Hcommit; cbn;
        rewrite Hrel; reflexivity.
Qed.

(** X2.  A manager without a runner of its own creates one for the
    transaction and, whatever starting the transaction, the callback, the
    commit, the observers and the rollback answer, releases that runner as
    the last thing it does, and only once. *)
Theorem transaction_releases_created_runner_last (this : Manager)
    (first : TransactionArg T) (second : option (QueryRunner -> Result T))
    (run : QueryRunner -> Result T) :
  queryRunner this = None ->
  LiteralEntityManager.callbackOf first second = Some run ->
  driverIsMongo (connection this) = false ->
  exists middle,
    trace (LiteralEntityManager.transaction this first second)
    = EvCreateQueryRunner "master" :: middle ++ [EvRelease (usedRunner this)]
    /\ head middle
       = Some (EvStartTransaction (usedRunner this) (startedIsolation first))
    /\ (forall r, ~ In (EvRelease r) middle)
    /\ (forall mode, ~ In (EvCreateQueryRunner mode) middle).
Proof.
  intros Hqr Hcb Hmongo.
  exists (removelast (tl (trace (LiteralEntityManager.transaction this first second)))).
  remember (LiteralEntityManager.transaction this first second) as call eqn:Hcall.
  revert Hcb Hcall. unfold usedRunner, startedIsolation. rewrite Hqr.
  unfold LiteralEntityManager.transaction, LiteralEntityManager.callbackOf.
  rewrite Hqr, Hmongo.
  destruct first as [level | run']; [ destruct level | ].
  all: intros Hcb; try injection Hcb as ->; try rewrite Hcb.
  all: repeat first [ settle | settle_callback run | advance ].
  all: intros ->; cbn.
  all: repeat apply conj; try reflexivity; intros; intros Hin; cbn in Hin; events.
Qed.

(** X3.  Once the guards of [transaction] are passed, the transaction is
    rolled back exactly when starting it, the callback, the commit or the
    observers failed: also when it could not be started, and also after a
    commit that succeeded; the rollback is on the runner in use. *)
Theorem transaction_rolls_back_iff_a_step_fails (this : Manager)
    (first : TransactionArg T) (second : option (QueryRunner -> Result T))
    (run : QueryRunner -> Result T) (r : QueryRunner) :
  LiteralEntityManager.callbackOf first second = Some run ->
  driverIsMongo (connection this) = false ->
  (forall own, queryRunner this = Some own ->
     isReleased own = false /\ isTransactionActive own = false) ->
  In (EvRollbackTransaction r)
     (trace (LiteralEntityManager.transaction this first second))
  <-> r = usedRunner this
      /\ (startTransaction (connection this) (usedRunner this) (startedIsolation first)
          <> Ok tt
          \/ (forall v, run (usedRunner this) <> Ok v)
          \/ commitTransaction (connection this) (usedRunner this) <> Ok tt
          \/ observerExecute (connection this) <> Ok tt).
Proof.
  intros Hcb Hmongo Hown.
  match goal with |- _ <-> ?R => remember R as Failed eqn:HFailed end.
  remember (LiteralEntityManager.transaction this first second) as call eqn:Hcall.
  revert Hcb Hcall.
  unfold LiteralEntityManager.transaction, LiteralEntityManager.callbackOf.
  rewrite Hmongo.
  destruct (queryRunner this) as [own |] eqn:Hqr;
    [ destruct (Hown own eq_refl) as [-> ->] | ].
  all: destruct first as [level | run']; [ destruct level | ].
  all: intros Hcb; try injection Hcb as ->; try rewrite Hcb.
  all: repeat first [ settle | settle_callback run | advance ].
  all: intros ->; subst Failed; unfold usedRunner, startedIsolation; rewrite Hqr.
  all: repeat match goal with
              | Heq : ?x = _ |- context [?x] => rewrite Heq
              end.
  all: cbn.
  all: split;
    [ intros Hin; events; (split; [ reflexivity | ]);
      first [ left; congruence
            | right; left; intros v'; congruence
            | right; right; left; congruence
            | right; right; right; congruence ]
    | intros [-> Hfails];
      first [ tauto
            | destruct Hfails as [Hf | [Hf | [Hf | Hf]]];
              first [ congruence | exfalso; exact (Hf _ eq_refl) ] ] ].
Qed.

End TransactionLifeCycle.

(** The witness of [transaction_releases_created_runner_last]: a callback
    that fails, on a manager that creates its runner and cannot release it. *)
Lemma transaction_releases_created_runner_last_witness :
  exists middle,
    trace (LiteralEntityManager.transaction Samples.managerWithFailingRelease
             (ArgCallback (Samples.failingCallback 1)) None)
    = EvCreateQueryRunner "master"
      :: middle
         ++ [EvRelease (TransactionSteps.usedRunner Samples.managerWithFailingRelease)]
    /\ head middle
       = Some (EvStartTransaction
                 (TransactionSteps.usedRunner Samples.managerWithFailingRelease) None)
    /\ (forall r, ~ In (EvRelease r) middle)
    /\ (forall mode, ~ In (EvCreateQueryRunner mode) middle).
Proof.
  exact (transaction_releases_created_runner_last
           Samples.managerWithFailingRelease
           (ArgCallback (Samples.failingCallback 1)) None
           (Samples.failingCallback 1) eq_refl eq_refl eq_refl).
Defined.

(** The witness of [transaction_rolls_back_iff_a_step_fails]: a callback
    that fails on a caller-supplied runner. *)
Lemma transaction_rolls_back_iff_a_step_fails_witness :
  In (EvRollbackTransaction (Samples.runner 1 false false))
     (trace (LiteralEntityManager.transaction Samples.managerOnSuppliedRunner
               (ArgCallback (Samples.failingCallback 1)) None)).
Proof.
  apply (transaction_rolls_back_iff_a_step_fails
           Samples.managerOnSuppliedRunner
           (ArgCallback (Samples.failingCallback 1)) None
           (Samples.failingCallback 1) (Samples.runner 1 false false)).
  - reflexivity.
  - reflexivity.
  - intros own Hown. injection Hown as <-. split; reflexivity.
  - split; [ reflexivity | ]. right. left. intros v. discriminate.
Defined.

(** ** Bulk operations by criteria *)

(** The criteria [update], [delete], [softDelete] and [restore] refuse are
    [undefined], [null], the empty string and the empty array, and no
    others. *)
Lemma emptyCriteria_values (criteria : JsValue) :
  LiteralEntityManager.emptyCriteria criteria = true
  <-> criteria = VUndefined \/ criteria = VNull
      \/ criteria = VString EmptyString \/ criteria = VArray [].
Proof.
  destruct criteria as [| | b | n | s | t | f | n | items | fields];
    try destruct s; try destruct items; cbn; intuition congruence.
Qed.

(** X4.  [update], [delete], [softDelete] and [restore] leave the query
    builder alone exactly when the criteria are [undefined], [null], the
    empty string or the empty array: every other criteria, an object
    without properties included, reaches a query. *)
Theorem bulk_operations_skip_the_query_iff_criteria_empty (this : Manager)
    (target : EntityTarget) (criteria partialEntity : JsValue) :
  (LiteralEntityManager.emptyCriteria criteria = true
   <-> criteria = VUndefined \/ criteria = VNull
       \/ criteria = VString EmptyString \/ criteria = VArray [])
  /\ (trace (LiteralEntityManager.update this target criteria partialEntity) = []
      <-> LiteralEntityManager.emptyCriteria criteria = true)
  /\ (trace (LiteralEntityManager.delete this target criteria) = []
      <-> LiteralEntityManager.emptyCriteria criteria = true)
  /\ (trace (LiteralEntityManager.softDelete this target criteria) = []
      <-> LiteralEntityManager.emptyCriteria criteria = true)
  /\ (trace (LiteralEntityManager.restore this target criteria) = []
      <-> LiteralEntityManager.emptyCriteria criteria = true).
Proof.
  split; [ apply emptyCriteria_values | ].
  unfold LiteralEntityManager.update, LiteralEntityManager.delete,
    LiteralEntityManager.softDelete, LiteralEntityManager.restore,
    LiteralEntityManager.executeBuilder.
  destruct (LiteralEntityManager.emptyCriteria criteria);
    destruct (LiteralEntityManager.idCriteria criteria).
  all: repeat match goal with
         | |- context [execute ?c ?qb] => destruct (execute c qb)
         end.
  all: cbn; repeat apply conj; intros; first [ reflexivity | discriminate ].
Qed.

(** The outcome of the promise an awaited collaborator call is returned as. *)
Lemma executeBuilder_runs_one_query (this : Manager) (calls : list QbCall) :
  trace (LiteralEntityManager.executeBuilder this calls)
  = [EvCreateQueryBuilder None None;
     EvExecute {| qbTarget := None; qbAlias := None; qbCalls := calls |}]
  /\ outcome (LiteralEntityManager.executeBuilder this calls)
     = match execute (connection this)
               {| qbTarget := None; qbAlias := None; qbCalls := calls |} with
       | Ok result => Resolved result
       | Err e => Rejected e
       end.
Proof.
  unfold LiteralEntityManager.executeBuilder.
  destruct (execute _ _); split; reflexivity.
Qed.

(** X5.  With criteria that are not empty, each of [update], [delete],
    [softDelete] and [restore] creates one query builder without arguments
    and executes one query, whose outcome is the outcome of the promise;
    the rows are chosen with [whereInIds] when the criteria are a string, a
    number, a [Date] or an array, and with [where] otherwise. *)
Theorem bulk_operations_run_one_query (this : Manager) (target : EntityTarget)
    (criteria partialEntity : JsValue) :
  LiteralEntityManager.emptyCriteria criteria = false ->
  exists choice,
    choice = match criteria with
             | VString _ | VNumber _ | VDate _ | VArray _ => QbWhereInIds criteria
             | _ => QbWhere criteria
             end
    /\ (forall (call : Call JsValue) (calls : list QbCall),
          (call = LiteralEntityManager.update this target criteria partialEntity
           /\ calls = [QbUpdate target; QbSet partialEntity; choice])
          \/ (call = LiteralEntityManager.delete this target criteria
              /\ calls = [QbDelete; QbFrom target; choice])
          \/ (call = LiteralEntityManager.softDelete this target criteria
              /\ calls = [QbSoftDelete; QbFrom target; choice])
          \/ (call = LiteralEntityManager.restore this target criteria
              /\ calls = [QbRestore; QbFrom target; choice]) ->
          trace call
          = [EvCreateQueryBuilder None None;
             EvExecute {| qbTarget := None; qbAlias := None; qbCalls := calls |}]
          /\ outcome call
             = match execute (connection this)
                       {| qbTarget := None; qbAlias := None; qbCalls := calls |} with
               | Ok result => Resolved result
               | Err e => Rejected e
               end).
Proof.
  intros Hcriteria. eexists. split; [ reflexivity | ].
  intros call calls Hcall.
  assert (Hsame : call = LiteralEntityManager.executeBuilder this calls).
  { unfold LiteralEntityManager.update, LiteralEntityManager.delete,
      LiteralEntityManager.softDelete, LiteralEntityManager.restore in Hcall.
    rewrite Hcriteria in Hcall.
    destruct Hcall as [[-> ->] | [[-> ->] | [[-> ->] | [-> ->]]]];
      destruct criteria; reflexivity. }
  rewrite Hsame. apply executeBuilder_runs_one_query.
Qed.

(** The witness of [bulk_operations_run_one_query]: an object without
    properties as criteria. *)
Lemma bulk_operations_run_one_query_witness :
  exists choice,
    choice = QbWhere (VObject [])
    /\ (forall (call : Call JsValue) (calls : list QbCall),
          (call = LiteralEntityManager.update Samples.postsManager Samples.Post
                    (VObject []) Samples.firstPost
           /\ calls = [QbUpdate Samples.Post; QbSet Samples.firstPost; choice])
          \/ (call = LiteralEntityManager.delete Samples.postsManager Samples.Post
                       (VObject [])
              /\ calls = [QbDelete; QbFrom Samples.Post; choice])
          \/ (call = LiteralEntityManager.softDelete Samples.postsManager Samples.Post
                       (VObject [])
              /\ calls = [QbSoftDelete; QbFrom Samples.Post; choice])
          \/ (call = LiteralEntityManager.restore Samples.postsManager Samples.Post
                       (VObject [])
              /\ calls = [QbRestore; QbFrom Samples.Post; choice]) ->
          trace call
          = [EvCreateQueryBuilder None None;
             EvExecute {| qbTarget := None; qbAlias := None; qbCalls := calls |}]
          /\ outcome call
             = match execute (connection Samples.postsManager)
                       {| qbTarget := None; qbAlias := None; qbCalls := calls |} with
               | Ok result => Resolved result
               | Err e => Rejected e
               end).
Proof.
  exact (bulk_operations_run_one_query Samples.postsManager Samples.Post
           (VObject []) Samples.firstPost eq_refl).
Defined.

(** ** Lookups *)

Section Lookups.

Import ManagerArguments.

(** [absentCriteria] by values. *)
Lemma absentCriteria_values (args : list JsValue) :
  absentCriteria args = true
  <-> exists first rest,
        args = first :: rest
        /\ (first = VUndefined \/ first = VNull \/ first = VBool false).
Proof.
  unfold absentCriteria. destruct args as [| first rest]; cbn.
  - split; [ discriminate | intros (f & r & H & _); discriminate H ].
  - split.
    + intros H. exists first, rest. split; [ reflexivity | ].
      destruct first as [| | [] | | | | | | |]; cbn in H; try discriminate H; auto.
    + intros (f & r & Heq & H). injection Heq as <- <-.
      destruct H as [-> | [-> | ->]]; reflexivity.
Qed.

(** X6.  The literal manager's [findOne] throws before it returns a promise
    in two cases only: with more than two arguments after the entity class,
    and when the connection has no metadata for the entity class and the
    criteria are not [undefined], [null] or [false]; the class based
    [findOne], an [async] method, never does: it rejects instead. *)
Theorem findOne_throws_synchronously_iff (this : Manager) (entityClass : EntityTarget)
    (args : list JsValue) (e : JsError) :
  (outcome (LiteralEntityManager.findOne this entityClass args) = Thrown e
   <-> ((2 < length args)%nat /\ e = Error "Too many arguments.")
       \/ ((length args <= 2)%nat
           /\ absentCriteria args = false
           /\ getMetadataName (connection this) entityClass = Err e))
  /\ outcome (EntityManager.findOne this entityClass args) <> Thrown e
  /\ (getMetadataName (connection this) entityClass = Err e ->
      EntityManager.findOne this entityClass args = ([], Rejected e)).
Proof.
  split; [ | split ].
  - unfold LiteralEntityManager.findOne. fold (absentCriteria args).
    destruct (2 <? length args)%nat eqn:Hmany.
    + apply Nat.ltb_lt in Hmany. cbn. split.
      * intros H. injection H as <-. left. split; [ exact Hmany | reflexivity ].
      * intros [[_ ->] | [Hfew _]]; [ reflexivity | lia ].
    + apply Nat.ltb_ge in Hmany.
      destruct (absentCriteria args) eqn:Habsent.
      * cbn. split; [ discriminate | ].
        intros [[Hlen _] | (_ & H & _)]; [ lia | discriminate H ].
      * destruct (getMetadataName (connection this) entityClass) as [name | e'].
        -- split.
           ++ unfold after, returnPromise, perform, outcome.
              destruct (getOne _ _); cbn; discriminate.
           ++ intros [[Hlen _] | (_ & _ & H)]; [ lia | discriminate H ].
        -- cbn. split.
           ++ intros H. injection H as <-. right. auto.
           ++ intros [[Hlen _] | (_ & _ & H)]; [ lia | injection H as <-; reflexivity ].
  - unfold EntityManager.findOne.
    destruct (getMetadataName (connection this) entityClass) as [name | e'].
    + cbn. destruct (getOne _ _); cbn; discriminate.
    + cbn. discriminate.
  - intros Hmeta. unfold EntityManager.findOne. rewrite Hmeta. reflexivity.
Qed.

(** Assigning one property of an object leaves the others as they were. *)
Lemma getField_setField (k k' : string) (v : JsValue) (fields : list (string * JsValue)) :
  getField k' (setField k v fields) = if String.eqb k' k then v else getField k' fields.
Proof.
  induction fields as [| [k0 v0] rest IH]; cbn.
  - destruct (String.eqb k' k); reflexivity.
  - destruct (String.eqb_spec k k0) as [-> | Hne]; cbn.
    + destruct (String.eqb k' k0); reflexivity.
    + rewrite IH. destruct (String.eqb_spec k' k0) as [-> | Hne'].
      * destruct (String.eqb_spec k0 k) as [-> | _]; [ congruence | reflexivity ].
      * reflexivity.
Qed.

(** X7.  A lookup that is not by id (the first argument is not a string, a
    number or a [Date]) always sets find options on the query, with [take]
    equal to 1 and every other option as the caller's find options have it:
    also when no argument or no find options were passed. *)
Theorem findOne_limits_lookups_that_are_not_by_id (this : Manager)
    (entityClass : EntityTarget) (args : list JsValue) (name : string) :
  (length args <= 2)%nat ->
  absentCriteria args = false ->
  LiteralEntityManager.isId (arg 0 args) = false ->
  getMetadataName (connection this) entityClass = Ok name ->
  exists findOptions rest,
    let qb := {| qbTarget := Some entityClass;
                 qbAlias := Some name;
                 qbCalls := QbSetFindOptions findOptions :: rest |} in
    LiteralEntityManager.findOne this entityClass args
    = ([EvCreateQueryBuilder (Some entityClass) (Some name); EvGetOne qb],
       match getOne (connection this) qb with
       | Ok found => Resolved found
       | Err e => Rejected e
       end)
    /\ getField "take" (ownFields findOptions) = VNumber 1
    /\ (forall option, option <> "take" ->
          getField option (ownFields findOptions)
          = getField option
              (ownFields (LiteralEntityManager.chooseFindOptions (connection this)
                            (arg 0 args) (arg 1 args))))
    /\ (rest = [] \/ rest = [QbWhere (arg 0 args)]).
Proof.
  intros Hlen Habsent Hid Hmeta.
  exists (LiteralEntityManager.withTakeOne
            (LiteralEntityManager.chooseFindOptions (connection this)
               (arg 0 args) (arg 1 args))).
  exists (if truthy (LiteralEntityManager.chooseConditions (connection this) (arg 0 args))
          then [QbWhere (LiteralEntityManager.chooseConditions (connection this)
                           (arg 0 args))]
          else []).
  cbn zeta. split; [ | split; [ | split ] ].
  - unfold LiteralEntityManager.findOne. fold (absentCriteria args).
    apply Nat.ltb_ge in Hlen. rewrite Hlen, Habsent, Hmeta, Hid.
    cbn [negb]. unfold LiteralEntityManager.withTakeOne at 1. cbn [truthy app].
    unfold after, returnPromise, perform. destruct (getOne _ _); reflexivity.
  - unfold LiteralEntityManager.withTakeOne. cbn [ownFields].
    rewrite getField_setField. reflexivity.
  - intros option Hoption. unfold LiteralEntityManager.withTakeOne. cbn [ownFields].
    rewrite getField_setField.
    destruct (String.eqb_spec option "take") as [-> | _]; [ congruence | ].
    destruct (truthy _) eqn:Htruthy; [ reflexivity | ].
    destruct (LiteralEntityManager.chooseFindOptions _ _ _); try reflexivity.
    discriminate Htruthy.
  - unfold LiteralEntityManager.chooseConditions.
    destruct (instanceofObject (arg 0 args) && negb (isFindOptions _ _)) eqn:Hobject.
    + apply andb_prop in Hobject as [Hobject _].
      destruct (arg 0 args); try discriminate Hobject; cbn; auto.
    + cbn. auto.
Qed.

(** The witness of [findOne_limits_lookups_that_are_not_by_id]: a lookup by
    plain conditions. *)
Lemma findOne_limits_lookups_that_are_not_by_id_witness :
  exists findOptions rest,
    LiteralEntityManager.findOne Samples.postsManager Samples.Post
      [VObject [("title", VString "How to buy a dog")]]
    = ([EvCreateQueryBuilder (Some Samples.Post) (Some "Post");
        EvGetOne {| qbTarget := Some Samples.Post;
                    qbAlias := Some "Post";
                    qbCalls := QbSetFindOptions findOptions :: rest |}],
       match getOne (connection Samples.postsManager)
               {| qbTarget := Some Samples.Post;
                  qbAlias := Some "Post";
                  qbCalls := QbSetFindOptions findOptions :: rest |} with
       | Ok found => Resolved found
       | Err e => Rejected e
       end)
    /\ getField "take" (ownFields findOptions) = VNumber 1.
Proof.
  destruct (findOne_limits_lookups_that_are_not_by_id Samples.postsManager
              Samples.Post [VObject [("title", VString "How to buy a dog")]] "Post")
    as (findOptions & rest & Hcall & Htake & _).
  - cbn. lia.
  - reflexivity.
  - reflexivity.
  - reflexivity.
  - exists findOptions, rest. split; [ exact Hcall | exact Htake ].
Defined.

(** X8.  A lookup by a string or a number, with or without a second
    argument, selects by [andWhereInIds] on the id map of the entity; the
    find options chosen from the two arguments are passed on as they are,
    without a [take].  A [Date], which [findOne] counts as an id too, is an
    object: unless [isFindOptions] accepts it, it goes to [where] as plain
    conditions and the id map is not built. *)
Theorem findOne_by_id_selects_in_ids (this : Manager) (entityClass : EntityTarget)
    (id : JsValue) (others : list JsValue) (name : string) :
  (length others <= 1)%nat ->
  LiteralEntityManager.isId id = true ->
  getMetadataName (connection this) entityClass = Ok name ->
  exists selection,
    let findOptions :=
      LiteralEntityManager.chooseFindOptions (connection this) id (arg 0 others) in
    let qb := {| qbTarget := Some entityClass;
                 qbAlias := Some name;
                 qbCalls := (if truthy findOptions
                             then [QbSetFindOptions findOptions] else [])
                            ++ [selection] |} in
    LiteralEntityManager.findOne this entityClass (id :: others)
    = ([EvCreateQueryBuilder (Some entityClass) (Some name); EvGetOne qb],
       match getOne (connection this) qb with
       | Ok found => Resolved found
       | Err e => Rejected e
       end)
    /\ selection
       = match id with
         | VDate _ =>
             if isFindOptions (connection this) id
             then QbAndWhereInIds (ensureEntityIdMap (connection this) entityClass id)
             else QbWhere id
         | _ => QbAndWhereInIds (ensureEntityIdMap (connection this) entityClass id)
         end.
Proof.
  intros Hlen Hid Hmeta. eexists. cbn zeta. split; [ | reflexivity ].
  unfold LiteralEntityManager.findOne.
  assert (Hargs : (2 <? length (id :: others))%nat = false).
  { apply Nat.ltb_ge. cbn. lia. }
  rewrite Hargs. change (arg 0 (id :: others)) with id.
  change (arg 1 (id :: others)) with (arg 0 others).
  rewrite Hmeta, Hid. cbn [negb].
  assert (Hguard : (1 <=? length (id :: others))%nat
                   && (isUndefined id || isNull id || isFalse id) = false).
  { destruct id; try discriminate Hid; reflexivity. }
  rewrite Hguard.
  unfold after, returnPromise, perform, LiteralEntityManager.chooseConditions.
  destruct id; try discriminate Hid; cbn [instanceofObject andb truthy fst snd app].
  - destruct (getOne _ _); reflexivity.
  - destruct (getOne _ _); reflexivity.
  - destruct (isFindOptions (connection this) (VDate time)); cbn [negb truthy];
      destruct (getOne _ _); reflexivity.
Qed.

(** The witness of [findOne_by_id_selects_in_ids]: a lookup by a number. *)
Lemma findOne_by_id_selects_in_ids_witness :
  exists selection,
    LiteralEntityManager.findOne Samples.postsManager Samples.Post [VNumber 2]
    = ([EvCreateQueryBuilder (Some Samples.Post) (Some "Post");
        EvGetOne {| qbTarget := Some Samples.Post;
                    qbAlias := Some "Post";
                    qbCalls := [selection] |}],
       Resolved Samples.secondPost)
    /\ selection = QbAndWhereInIds (VObject [("id", VNumber 2)]).
Proof.
  destruct (findOne_by_id_selects_in_ids Samples.postsManager Samples.Post
              (VNumber 2) [] "Post") as (selection & Hcall & Hselection).
  - cbn. lia.
  - reflexivity.
  - reflexivity.
  - exists selection. cbn in Hselection. subst selection.
    split; [ exact Hcall | reflexivity ].
Defined.

(** X9.  Where the two managers agree: on at most two arguments whose first
    is not [undefined], [null] or [false], for an entity class with
    metadata, the class based [findOne] and the literal one make the same
    calls and give the same promise when find options were passed for a
    lookup that is not by id, and when none were passed for a lookup by
    id. *)
Theorem class_findOne_agrees_with_literal (this : Manager) (entityClass : EntityTarget)
    (args : list JsValue) (name : string) :
  (length args <= 2)%nat ->
  absentCriteria args = false ->
  getMetadataName (connection this) entityClass = Ok name ->
  truthy (LiteralEntityManager.chooseFindOptions (connection this)
            (arg 0 args) (arg 1 args))
  = negb (LiteralEntityManager.isId (arg 0 args)) ->
  EntityManager.findOne this entityClass args
  = LiteralEntityManager.findOne this entityClass args.
Proof.
  intros Hlen Habsent Hmeta Hoptions.
  unfold EntityManager.findOne, LiteralEntityManager.findOne.
  fold (absentCriteria args).
  apply Nat.ltb_ge in Hlen. rewrite Hlen, Habsent, Hmeta.
  destruct (LiteralEntityManager.isId (arg 0 args)); cbn [negb] in *.
  - rewrite Hoptions. cbn. destruct (getOne _ _); reflexivity.
  - rewrite Hoptions. unfold LiteralEntityManager.withTakeOne at 3.
    cbn [truthy]. cbn. destruct (getOne _ _); reflexivity.
Qed.

(** The witness of [class_findOne_agrees_with_literal]: a lookup by id
    without find options. *)
Lemma class_findOne_agrees_with_literal_witness :
  EntityManager.findOne Samples.postsManager Samples.Post [VNumber 2]
  = LiteralEntityManager.findOne Samples.postsManager Samples.Post [VNumber 2].
Proof.
  apply (class_findOne_agrees_with_literal Samples.postsManager Samples.Post
           [VNumber 2] "Post").
  - cbn. lia.
  - reflexivity.
  - reflexivity.
  - reflexivity.
Defined.

(** ** Persistence *)

(** What [save], [remove], [softRemove] and [recover] do with their entity. *)
Lemma persist_outcome (this : Manager) (mode : string) (acceptsSchema : bool)
    (args : list JsValue) :
  (trace (LiteralEntityManager.persist this mode acceptsSchema args) = []
   <-> entityOperand acceptsSchema args = VArray [])
  /\ (entityOperand acceptsSchema args <> VArray [] ->
      exists target options,
        trace (LiteralEntityManager.persist this mode acceptsSchema args)
        = [EvNewEntityPersistExecutor mode target
             (entityOperand acceptsSchema args) options;
           EvPersistExecute]
        /\ outcome (LiteralEntityManager.persist this mode acceptsSchema args)
           = match persistExecute (connection this) mode target
                     (entityOperand acceptsSchema args) options with
             | Ok _ => Resolved (entityOperand acceptsSchema args)
             | Err e => Rejected e
             end).
Proof.
  unfold LiteralEntityManager.persist. fold (entityOperand acceptsSchema args).
  assert (Hempty : isArray (entityOperand acceptsSchema args)
                   && isEmptyArray (entityOperand acceptsSchema args) = true
                   <-> entityOperand acceptsSchema args = VArray []).
  { destruct (entityOperand acceptsSchema args) as [| | | | | | | | [| item items] |];
      cbn; split; congruence. }
  destruct (isArray (entityOperand acceptsSchema args)
            && isEmptyArray (entityOperand acceptsSchema args)) eqn:Htest.
  - split; [ split; [ intros _; apply Hempty; reflexivity | reflexivity ] | ].
    intros Hne. destruct Hne. apply Hempty. reflexivity.
  - split.
    + split.
      * unfold returnPromise, perform, bind, ret, trace. cbn.
        destruct (persistExecute _ _ _ _ _) as [[] |]; cbn; discriminate.
      * intros H. apply Hempty in H. discriminate H.
    + intros _.
      exists (if acceptsSchema
              then LiteralEntityManager.schemaName
                     (LiteralEntityManager.normalizeTarget acceptsSchema args)
              else LiteralEntityManager.normalizeTarget acceptsSchema args).
      exists (if truthy (LiteralEntityManager.normalizeTarget acceptsSchema args)
              then arg 2 args else arg 1 args).
      unfold returnPromise, perform, bind, ret, trace, outcome. cbn.
      destruct (persistExecute _ _ _ _ _) as [[] |]; cbn; split; reflexivity.
Qed.

(** X10.  [save], [remove], [softRemove] and [recover] skip the persist
    executor exactly when their entity operand is the empty array; in every
    other case they create one executor for that operand and execute it
    once, and the promise resolves with the very operand, or rejects with
    the executor's error. *)
Theorem persistence_skips_the_executor_only_for_an_empty_array (this : Manager)
    (args : list JsValue) :
  forall (method : Manager -> list JsValue -> Call JsValue) (mode : string)
         (acceptsSchema : bool),
    (method = LiteralEntityManager.save /\ mode = "save" /\ acceptsSchema = true)
    \/ (method = LiteralEntityManager.remove /\ mode = "remove"
        /\ acceptsSchema = false)
    \/ (method = LiteralEntityManager.softRemove /\ mode = "soft-remove"
        /\ acceptsSchema = true)
    \/ (method = LiteralEntityManager.recover /\ mode = "recover"
        /\ acceptsSchema = true) ->
    (trace (method this args) = [] <-> entityOperand acceptsSchema args = VArray [])
    /\ (entityOperand acceptsSchema args <> VArray [] ->
        exists target options,
          trace (method this args)
          = [EvNewEntityPersistExecutor mode target
               (entityOperand acceptsSchema args) options;
             EvPersistExecute]
          /\ outcome (method this args)
             = match persistExecute (connection this) mode target
                       (entityOperand acceptsSchema args) options with
               | Ok _ => Resolved (entityOperand acceptsSchema args)
               | Err e => Rejected e
               end).
Proof.
  intros method mode acceptsSchema
    [(-> & -> & ->) | [(-> & -> & ->) | [(-> & -> & ->) | (-> & -> & ->)]]];
    apply persist_outcome.
Qed.

(** The witness of [persistence_skips_the_executor_only_for_an_empty_array]:
    [remove] of an empty array after an entity name. *)
Lemma persistence_skips_the_executor_only_for_an_empty_array_witness :
  trace (LiteralEntityManager.remove Samples.postsManager
           [VString "post"; VArray []; VUndefined]) = [].
Proof.
  destruct (persistence_skips_the_executor_only_for_an_empty_array
              Samples.postsManager [VString "post"; VArray []; VUndefined]
              LiteralEntityManager.remove "remove" false) as [[_ Hskip] _].
  - right. left. repeat split.
  - apply Hskip. reflexivity.
Defined.

End Lookups.

(** ** [increment] and [decrement] *)

Section Counters.

Import ManagerOperations.

Variables (x : Environment) (b : Builtins) (this : Manager).
Variables (entityClass : EntityTarget) (conditions : JsValue).
Variables (propertyPath : string) (value : JsValue).

(** X11.  [increment] and [decrement] make no query exactly when the
    entity class has no metadata, the property path names no column, or the
    value is not a number, and in each of these cases the promise rejects:
    with the error of [getMetadata], with the missing-column error, or with
    the not-a-number error; the column is checked first, so a missing column
    is the error reported also when the value is not a number either, and
    [decrement] rejects as [increment] does. *)
Theorem counters_reject_before_any_query :
  (trace (increment x b this entityClass conditions propertyPath value) = []
   <-> (exists e, getMetadata x entityClass = Err e)
       \/ (exists metadata,
             getMetadata x entityClass = Ok metadata
             /\ (findColumnWithPropertyPath metadata propertyPath = None
                 \/ isNaNNumber x value = true)))
  /\ (trace (decrement x b this entityClass conditions propertyPath value) = []
      <-> trace (increment x b this entityClass conditions propertyPath value) = [])
  /\ (forall metadata,
        getMetadata x entityClass = Ok metadata ->
        findColumnWithPropertyPath metadata propertyPath = None ->
        increment x b this entityClass conditions propertyPath value
        = ([], Rejected (Error ("Column " +:+ propertyPath +:+ " was not found in "
                                  +:+ metadataTargetName metadata +:+ " entity.")))
        /\ decrement x b this entityClass conditions propertyPath value
           = increment x b this entityClass conditions propertyPath value)
  /\ (forall metadata databaseName,
        getMetadata x entityClass = Ok metadata ->
        findColumnWithPropertyPath metadata propertyPath = Some databaseName ->
        isNaNNumber x value = true ->
        increment x b this entityClass conditions propertyPath value
        = ([], Rejected (Error ("Value " +:+ EntityNotFound.dquote
                                  +:+ toStringValue b value +:+ EntityNotFound.dquote
                                  +:+ " is not a number.")))
        /\ decrement x b this entityClass conditions propertyPath value
           = increment x b this entityClass conditions propertyPath value)
  /\ (forall e,
        getMetadata x entityClass = Err e ->
        increment x b this entityClass conditions propertyPath value
        = ([], Rejected e)
        /\ decrement x b this entityClass conditions propertyPath value
           = increment x b this entityClass conditions propertyPath value).
Proof.
  unfold increment, decrement, changeBy.
  destruct (getMetadata x entityClass) as [metadata | e] eqn:Hmeta;
    [ destruct (findColumnWithPropertyPath metadata propertyPath)
        as [databaseName |] eqn:Hcolumn;
      [ destruct (isNaNNumber x value) eqn:Hnan | ] | ].
  all: cbn;
    repeat match goal with
           | |- context [execute ?c ?q] => destruct (execute c q)
           end;
    cbn.
  all: split; [ | split; [ | split; [ | split ] ] ].
  all: try (split; intros H; first [ reflexivity | discriminate H ]).
  all: try (intros m Hm; first [ discriminate Hm | injection Hm as <- ];
            intros; first [ congruence | split; reflexivity ]).
  all: try (intros m d Hm; first [ discriminate Hm | injection Hm as <- ];
            intros; first [ congruence | split; reflexivity ]).
  all: split;
    [ intros H; first [ discriminate H
                      | left; eexists; reflexivity
                      | right; eexists; split; [ reflexivity | auto ] ]
    | intros [[noMetadata He] | (m & Hm & [Hnone | Hbad])];
      first [ reflexivity | congruence ] ].
Qed.

(** Reading back, key by key, the object nested under the keys. *)
Lemma readPath_nestValues (keys : list string) (leaf : JsValue) :
  readPath keys (nestValues keys leaf) = leaf.
Proof.
  unfold readPath. induction keys as [| key keys IH]; [ reflexivity | ].
  cbn [nestValues fold_right fold_left ownFields getField].
  rewrite String.eqb_refl. exact IH.
Qed.

Lemma splitDot_not_empty (s : string) : splitDot s <> [].
Proof.
  destruct s as [| c rest]; cbn; [ discriminate | ].
  destruct (Ascii.eqb c "."); [ discriminate | ].
  destruct (splitDot rest); discriminate.
Qed.

(** The segments of a path, joined by dots, are the path. *)
Lemma splitDot_join (s : string) : String.concat "." (splitDot s) = s.
Proof.
  induction s as [| c rest IH]; [ reflexivity | ].
  cbn [splitDot]. destruct (Ascii.eqb_spec c ".") as [-> | Hc].
  - pose proof (splitDot_not_empty rest) as Hne.
    destruct (splitDot rest) as [| piece pieces]; [ congruence | ].
    rewrite <- IH. reflexivity.
  - pose proof (splitDot_not_empty rest) as Hne.
    destruct (splitDot rest) as [| piece pieces]; [ congruence | ].
    destruct pieces as [| piece' pieces].
    + cbn in *. congruence.
    + cbn [String.concat] in *. rewrite <- IH. reflexivity.
Qed.

(** X12.  With a column at the property path and a numeric value,
    [increment] creates one query builder on the entity class under the
    alias [entity] and executes one update, whose outcome is the outcome of
    the promise; the object it sets holds, under the segments of the
    property path (which joined by dots give the path back), a function of
    the escaped database name of the column, [" + "] and the value;
    [decrement] is the same with [" - "]. *)
Theorem counters_update_the_column_at_its_path (metadata : MetadataView)
    (databaseName : string) :
  getMetadata x entityClass = Ok metadata ->
  findColumnWithPropertyPath metadata propertyPath = Some databaseName ->
  isNaNNumber x value = false ->
  forall (method : Environment -> Builtins -> Manager -> EntityTarget -> JsValue ->
                   string -> JsValue -> Call JsValue)
         (operator : string),
    (method = increment /\ operator = " + ")
    \/ (method = decrement /\ operator = " - ") ->
    exists values,
      let qb := {| qbTarget := Some entityClass;
                   qbAlias := Some "entity";
                   qbCalls := [QbUpdate entityClass; QbSet values; QbWhere conditions] |} in
      method x b this entityClass conditions propertyPath value
      = ([EvCreateQueryBuilder (Some entityClass) (Some "entity"); EvExecute qb],
         match execute (connection this) qb with
         | Ok result => Resolved result
         | Err e => Rejected e
         end)
      /\ readPath (splitDot propertyPath) values
         = arrow x (driverEscape x databaseName +:+ operator +:+ toStringValue b value)
      /\ String.concat "." (splitDot propertyPath) = propertyPath.
Proof.
  intros Hmeta Hcolumn Hnan method operator Hmethod.
  exists (nestValues (splitDot propertyPath)
            (arrow x (driverEscape x databaseName +:+ operator
                        +:+ toStringValue b value))).
  cbn zeta. split; [ | split ].
  - destruct Hmethod as [[-> ->] | [-> ->]].
    all: unfold increment, decrement, changeBy; rewrite Hmeta, Hcolumn, Hnan.
    all: cbn; destruct (execute _ _); reflexivity.
  - apply readPath_nestValues.
  - apply splitDot_join.
Qed.

End Counters.

(** The witness of [counters_update_the_column_at_its_path]: the column of
    an embedded property. *)
Lemma counters_update_the_column_at_its_path_witness :
  exists values,
    ManagerOperations.decrement EnvironmentSamples.environment EnvironmentSamples.builtins
      Samples.postsManager Samples.Post (VObject [("id", VNumber 1)])
      "counters.likes" (VNumber 2)
    = ([EvCreateQueryBuilder (Some Samples.Post) (Some "entity");
        EvExecute {| qbTarget := Some Samples.Post;
                     qbAlias := Some "entity";
                     qbCalls := [QbUpdate Samples.Post; QbSet values;
                                 QbWhere (VObject [("id", VNumber 1)])] |}],
       Resolved VUndefined)
    /\ ManagerOperations.readPath ["counters"; "likes"] values
       = VFunction "`countersLikes` - 2".
Proof.
  destruct (counters_update_the_column_at_its_path
              EnvironmentSamples.environment EnvironmentSamples.builtins
              Samples.postsManager Samples.Post (VObject [("id", VNumber 1)])
              "counters.likes" (VNumber 2) EnvironmentSamples.postMetadata
              "countersLikes" eq_refl eq_refl eq_refl
              ManagerOperations.decrement " - " (or_intror (conj eq_refl eq_refl)))
    as (values & Hcall & Hvalues & _).
  exists values. split; [ exact Hcall | exact Hvalues ].
Defined.

(** ** [clear], [findByIds] and [insert] *)

Section MoreOperations.

Import Steps.

Variables (x : Environment) (this : Manager).

(** X13.  [clear] resolves the metadata before it takes a query runner: for
    an entity class without metadata it rejects and no runner is created.
    On the manager's own runner it clears the table and releases nothing.
    Without one it creates a runner, clears the table on it and releases it
    whether or not the clearing failed; an error of the release is the one
    the promise rejects with, also when the clearing failed. *)
Theorem clear_releases_only_the_runner_it_created (entityClass : EntityTarget) :
  (forall e, getMetadata x entityClass = Err e ->
     clear x this entityClass = ([], Rejected e))
  /\ (forall metadata own,
        getMetadata x entityClass = Ok metadata ->
        queryRunner this = Some own ->
        clear x this entityClass
        = ([ClearTable own (metadataTablePath metadata)],
           match clearTable x own (metadataTablePath metadata) with
           | Ok _ => Resolved tt
           | Err e => Rejected e
           end))
  /\ (forall metadata,
        getMetadata x entityClass = Ok metadata ->
        queryRunner this = None ->
        fst (clear x this entityClass)
        = [Core (EvCreateQueryRunner "master");
           ClearTable (createQueryRunner (connection this) "master")
             (metadataTablePath metadata);
           Core (EvRelease (createQueryRunner (connection this) "master"))]
        /\ snd (clear x this entityClass)
           = match release (connection this)
                     (createQueryRunner (connection this) "master"),
                   clearTable x (createQueryRunner (connection this) "master")
                     (metadataTablePath metadata) with
             | Err e, _ => Rejected e
             | Ok _, Err e => Rejected e
             | Ok _, Ok _ => Resolved tt
             end).
Proof.
  unfold clear. repeat apply conj.
  - intros e ->. reflexivity.
  - intros metadata own -> ->. cbn.
    destruct (clearTable _ _ _) as [[] |]; reflexivity.
  - intros metadata -> ->. cbn.
    destruct (clearTable _ _ _) as [[] |], (release _ _) as [[] |]; split; reflexivity.
Qed.

(** What [Object.assign] leaves under a key: the value of the source, if
    the source has the key, and the value of the target otherwise. *)
Lemma getField_objectAssign (k : string) (source target : list (string * JsValue)) :
  NoDup (map fst source) ->
  getField k (objectAssign target source)
  = if existsb (fun kv => String.eqb k (fst kv)) source
    then getField k source else getField k target.
Proof.
  unfold objectAssign. revert target.
  induction source as [| [k0 v0] rest IH]; intros target Hnd; [ reflexivity | ].
  cbn [fold_left fst snd existsb getField map] in *.
  apply NoDup_cons in Hnd as [Hfresh Hnd].
  rewrite IH by exact Hnd. rewrite getField_setField.
  destruct (String.eqb_spec k k0) as [-> | Hne]; cbn [orb].
  - assert (Hrest : existsb (fun kv => String.eqb k0 (fst kv)) rest = false).
    { apply not_true_is_false. intros Hin. apply existsb_exists in Hin as ([k1 v1] & Hin & Heq).
      apply String.eqb_eq in Heq. cbn in Heq. subst k1.
      apply Hfresh, list_elem_of_In, in_map_iff. exists (k0, v1). auto. }
    rewrite Hrest. reflexivity.
  - reflexivity.
Qed.

(** X14.  [findByIds] answers an empty list of ids with an empty array
    without resolving the metadata or creating a query builder.  For ids it
    makes one query, on a builder aliased by the metadata name, that sets
    find options and then selects by [andWhereInIds] on the ids; the find
    options are a copy of the third argument when it is find options, hold
    it under [where] when it is truthy, and are an empty object otherwise:
    no [take] is added. *)
Theorem findByIds_queries_unless_no_ids (entityClass : EntityTarget)
    (ids : list JsValue) (optionsOrConditions : JsValue) :
  (ids = [] ->
   findByIds x this entityClass ids optionsOrConditions = ([], Resolved (VArray [])))
  /\ (forall e,
        ids <> [] ->
        getMetadataName (connection this) entityClass = Err e ->
        findByIds x this entityClass ids optionsOrConditions = ([], Rejected e))
  /\ (forall name,
        ids <> [] ->
        getMetadataName (connection this) entityClass = Ok name ->
        exists findOptions,
          let qb := {| qbTarget := Some entityClass;
                       qbAlias := Some name;
                       qbCalls := [QbSetFindOptions findOptions;
                                   QbAndWhereInIds (VArray ids)] |} in
          findByIds x this entityClass ids optionsOrConditions
          = ([Core (EvCreateQueryBuilder (Some entityClass) (Some name)); GetMany qb],
             match getMany x qb with
             | Ok found => Resolved found
             | Err e => Rejected e
             end)
          /\ (isFindOptions (connection this) optionsOrConditions = false ->
              findOptions = if truthy optionsOrConditions
                            then VObject [("where", optionsOrConditions)]
                            else VObject [])
          /\ (isFindOptions (connection this) optionsOrConditions = true ->
              NoDup (map fst (ownFields optionsOrConditions)) ->
              forall option,
                getField option (ownFields findOptions)
                = getField option (ownFields optionsOrConditions))).
Proof.
  repeat apply conj.
  - intros ->. reflexivity.
  - intros e Hids Hmeta. destruct ids as [| id rest]; [ congruence | ].
    unfold findByIds. rewrite Hmeta. reflexivity.
  - intros name Hids Hmeta. destruct ids as [| id rest]; [ congruence | ].
    exists (findByIdsOptions (connection this) optionsOrConditions).
    cbn zeta. repeat apply conj.
    + unfold findByIds. rewrite Hmeta. cbn.
      destruct (getMany _ _); reflexivity.
    + intros Hfind. unfold findByIdsOptions. rewrite Hfind.
      destruct (truthy optionsOrConditions); reflexivity.
    + intros Hfind Hnd option. unfold findByIdsOptions. rewrite Hfind.
      cbn [ownFields]. rewrite getField_objectAssign by exact Hnd.
      destruct (existsb _ _) eqn:Hhas; [ reflexivity | ].
      cbn [getField]. symmetry.
      induction (ownFields optionsOrConditions) as [| [k0 v0] fields IH];
        [ reflexivity | ].
      cbn in Hhas |- *. apply orb_false_elim in Hhas as [Hk Hrest].
      rewrite Hk. apply IH.
      * inversion Hnd. assumption.
      * exact Hrest.
Qed.

(** An entity that is not an array is inserted by one query. *)
Lemma insert_one (target : EntityTarget) (entity : JsValue) :
  isArray entity = false ->
  insert x target entity
  = ([Core (EvCreateQueryBuilder None None); ExecuteInsert target entity],
     match executeInsert x target entity with
     | Ok result => Resolved result
     | Err e => Rejected e
     end).
Proof.
  intros Hentity. destruct entity; try discriminate Hentity.
  all: cbn; destruct (executeInsert _ _ _); reflexivity.
Qed.

(** On Oracle an array is inserted element by element. *)
Lemma insert_array_on_oracle (target : EntityTarget) (items : list JsValue) :
  driverIsOracle x = true ->
  insert x target (VArray items)
  = settled (andThen (promiseAll x (map (insert x target) items))
               (fun results => value (mergeResults results))).
Proof.
  intros Horacle. cbn [insert]. rewrite Horacle. reflexivity.
Qed.

Lemma inserts_of_entities (target : EntityTarget) (items : list JsValue) :
  Forall (fun item => isArray item = false) items ->
  concat (map fst (map (insert x target) items))
  = flat_map (fun item => [Core (EvCreateQueryBuilder None None);
                           ExecuteInsert target item]) items
  /\ (forall results,
        Forall2 (fun item result => executeInsert x target item = Ok result)
                items results ->
        rejections (map snd (map (insert x target) items)) = []
        /\ resolutions (map snd (map (insert x target) items)) = results)
  /\ (forall item e,
        In item items -> executeInsert x target item = Err e ->
        rejections (map snd (map (insert x target) items)) <> []).
Proof.
  induction 1 as [| item rest Hitem Hrest (IHtrace & IHok & IHerr)].
  - repeat apply conj.
    + reflexivity.
    + intros results Hall. inversion Hall. split; reflexivity.
    + intros item e [].
  - cbn [map concat flat_map]. rewrite (insert_one target item Hitem).
    cbn [fst snd]. repeat apply conj.
    + rewrite IHtrace. reflexivity.
    + intros results Hall.
      inversion Hall as [| ? result ? others Hresult Hothers]; subst.
      rewrite Hresult. cbn [rejections resolutions].
      destruct (IHok others Hothers) as [-> ->]. split; reflexivity.
    + intros item' e [<- | Hin] Herr.
      * rewrite Herr. cbn. discriminate.
      * destruct (executeInsert x target item); cbn [rejections];
          [ exact (IHerr item' e Hin Herr) | discriminate ].
Qed.

(** X15.  On an Oracle driver [insert] splits an array of entities: it makes
    one insert query for each entity, in the order of the array, all of them
    before it looks at any result, and none for an empty array; when every
    insert resolves, the promise resolves with the results merged into one
    object, and when one fails it rejects. *)
Theorem insert_on_oracle_inserts_one_by_one (target : EntityTarget)
    (items : list JsValue) :
  driverIsOracle x = true ->
  Forall (fun item => isArray item = false) items ->
  fst (insert x target (VArray items))
  = flat_map (fun item => [Core (EvCreateQueryBuilder None None);
                           ExecuteInsert target item]) items
  /\ (forall results,
        Forall2 (fun item result => executeInsert x target item = Ok result)
                items results ->
        snd (insert x target (VArray items)) = Resolved (mergeResults results))
  /\ (forall item e,
        In item items -> executeInsert x target item = Err e ->
        exists rejection, snd (insert x target (VArray items)) = Rejected rejection).
Proof.
  intros Horacle Hitems.
  destruct (inserts_of_entities target items Hitems) as (Htrace & Hok & Herr).
  rewrite (insert_array_on_oracle target items Horacle).
  unfold promiseAll, andThen, settled, value. repeat apply conj.
  - destruct (rejections _); cbn [fst]; rewrite ?app_nil_r; exact Htrace.
  - intros results Hall. destruct (Hok results Hall) as [-> ->]. reflexivity.
  - intros item e Hin Hfails. specialize (Herr item e Hin Hfails).
    destruct (rejections _) as [| first rest]; [ congruence | ].
    eexists. reflexivity.
Qed.

(** X16.  The merged result of an array insert on Oracle has, under every
    key of the result of the last insert, the value of that last result:
    what the earlier inserts returned under the same keys is overwritten. *)
Theorem insert_on_oracle_keeps_the_last_result (target : EntityTarget)
    (items : list JsValue) (last : JsValue) (results : list JsValue)
    (result : JsValue) :
  driverIsOracle x = true ->
  Forall (fun item => isArray item = false) (items ++ [last]) ->
  Forall2 (fun item r => executeInsert x target item = Ok r) items results ->
  executeInsert x target last = Ok result ->
  NoDup (map fst (ownFields result)) ->
  exists merged,
    snd (insert x target (VArray (items ++ [last]))) = Resolved (VObject merged)
    /\ forall key v, In (key, v) (ownFields result) -> getField key merged = v.
Proof.
  intros Horacle Hitems Hresults Hlast Hnd.
  destruct (inserts_of_entities target (items ++ [last]) Hitems) as (_ & Hok & _).
  rewrite (insert_array_on_oracle target (items ++ [last]) Horacle).
  unfold promiseAll, andThen, settled, value.
  destruct (Hok (results ++ [result])) as [-> ->].
  - apply Forall2_app; [ exact Hresults | ].
    constructor; [ exact Hlast | constructor ].
  - cbn [snd]. unfold mergeResults. rewrite fold_left_app. cbn [fold_left].
    eexists. split; [ reflexivity | ].
    intros key v Hin. rewrite getField_objectAssign by exact Hnd.
    assert (Hhas : existsb (fun kv => String.eqb key (fst kv)) (ownFields result)
                   = true).
    { apply existsb_exists. exists (key, v). split; [ exact Hin | ].
      apply String.eqb_refl. }
    rewrite Hhas. clear Hhas.
    induction (ownFields result) as [| [k0 v0] fields IH]; [ destruct Hin | ].
    cbn [getField]. cbn [map fst] in Hnd. apply NoDup_cons in Hnd as [Hfresh Hnd].
    destruct Hin as [Heq | Hin].
    + injection Heq as -> ->. rewrite String.eqb_refl. reflexivity.
    + destruct (String.eqb_spec key k0) as [-> | _]; [ | exact (IH Hnd Hin) ].
      destruct Hfresh. apply list_elem_of_In, in_map_iff. exists (k0, v). auto.
Qed.

End MoreOperations.

(** The witness of [insert_on_oracle_inserts_one_by_one]: the two posts. *)
Lemma insert_on_oracle_inserts_one_by_one_witness :
  fst (Steps.insert EnvironmentSamples.environment Samples.Post
         (VArray Samples.posts))
  = [Steps.Core (EvCreateQueryBuilder None None);
     Steps.ExecuteInsert Samples.Post Samples.firstPost;
     Steps.Core (EvCreateQueryBuilder None None);
     Steps.ExecuteInsert Samples.Post Samples.secondPost]
  /\ snd (Steps.insert EnvironmentSamples.environment Samples.Post
            (VArray Samples.posts))
     = Resolved (VObject [("identifiers", VArray [Samples.secondPost])]).
Proof.
  destruct (insert_on_oracle_inserts_one_by_one EnvironmentSamples.environment
              Samples.Post Samples.posts eq_refl) as (Htrace & Hok & _).
  - repeat constructor.
  - split; [ exact Htrace | ].
    apply (Hok [VObject [("identifiers", VArray [Samples.firstPost])];
                VObject [("identifiers", VArray [Samples.secondPost])]]).
    repeat constructor.
Defined.

(** The witness of [insert_on_oracle_keeps_the_last_result]: the
    identifiers of the first post are not in the merged result. *)
Lemma insert_on_oracle_keeps_the_last_result_witness :
  exists merged,
    snd (Steps.insert EnvironmentSamples.environment Samples.Post
           (VArray ([Samples.firstPost] ++ [Samples.secondPost])))
    = Resolved (VObject merged)
    /\ forall key v,
         In (key, v) [("identifiers", VArray [Samples.secondPost])] ->
         getField key merged = v.
Proof.
  apply (insert_on_oracle_keeps_the_last_result EnvironmentSamples.environment
           Samples.Post [Samples.firstPost] Samples.secondPost
           [VObject [("identifiers", VArray [Samples.firstPost])]]
           (VObject [("identifiers", VArray [Samples.secondPost])])).
  - reflexivity.
  - repeat constructor.
  - repeat constructor.
  - reflexivity.
  - apply NoDup_singleton.
Defined.

(** ** Repositories *)

Section Repositories.

Import LiteralRepository.

Variables (x : Environment) (b : Builtins).

(** X17.  A repository of an entity without metadata throws from every
    method before the manager is called, and before a promise is returned:
    also for the calls the manager answers without looking at the metadata,
    [findOne(undefined)], [save([])] and an [update] or [delete] with empty
    criteria, and also from [findOneOrFail], which on the manager is an
    [async] method. *)
Theorem repository_without_metadata_throws (r : Repository) (e : JsError) :
  getMetadata x (givenTarget r) = Err e ->
  (forall args, findOne x r args = ([], Thrown e))
  /\ (forall criteria options, findOneOrFail x b r criteria options = ([], Thrown e))
  /\ (forall criteria partialEntity, update x r criteria partialEntity = ([], Thrown e))
  /\ (forall criteria, delete x r criteria = ([], Thrown e))
  /\ (forall entities options, save x r entities options = ([], Thrown e))
  /\ (forall entities options, remove x r entities options = ([], Thrown e))
  /\ LiteralEntityManager.findOne (manager r) (givenTarget r) [VUndefined]
     = ([], Resolved VUndefined)
  /\ LiteralEntityManager.save (manager r) [VArray []] = ([], Resolved (VArray [])).
Proof.
  intros Hmeta.
  unfold findOne, findOneOrFail, update, delete, save, remove, withMetadataTarget.
  rewrite Hmeta. repeat apply conj; reflexivity.
Qed.

(** X18.  With metadata whose target is a class or a name that is not
    empty, [save] and [remove] of a repository hand their first argument to
    the persist executor as the entity, whatever it is, and the promise
    resolves with it: a class or a string in the place of the entity is not
    taken for a target, as it is on the manager. *)
Theorem repository_persists_its_argument_as_the_entity (r : Repository)
    (metadata : MetadataView) (entities options : JsValue) :
  getMetadata x (givenTarget r) = Ok metadata ->
  truthy (targetValue (metadataTarget metadata)) = true ->
  instanceofFunction (targetValue (metadataTarget metadata))
  || isString (targetValue (metadataTarget metadata)) = true ->
  forall (method : Environment -> Repository -> JsValue -> JsValue -> Call JsValue)
         (mode : string),
    (method = save /\ mode = "save") \/ (method = remove /\ mode = "remove") ->
    (entities = VArray [] -> method x r entities options = ([], Resolved entities))
    /\ (entities <> VArray [] ->
        method x r entities options
        = ([EvNewEntityPersistExecutor mode (targetValue (metadataTarget metadata))
              entities options;
            EvPersistExecute],
           match persistExecute (connection (manager r)) mode
                   (targetValue (metadataTarget metadata)) entities options with
           | Ok _ => Resolved entities
           | Err e => Rejected e
           end)).
Proof.
  intros Hmeta Htruthy Htarget method mode Hmethod.
  assert (Hpersist :
            forall acceptsSchema,
              method = (fun x r entities options =>
                          withMetadataTarget x r (fun manager target =>
                            LiteralEntityManager.persist manager mode acceptsSchema
                              [targetValue target; entities; options])) ->
              (entities = VArray [] -> method x r entities options = ([], Resolved entities))
              /\ (entities <> VArray [] ->
                  method x r entities options
                  = ([EvNewEntityPersistExecutor mode
                        (targetValue (metadataTarget metadata)) entities options;
                      EvPersistExecute],
                     match persistExecute (connection (manager r)) mode
                             (targetValue (metadataTarget metadata)) entities options with
                     | Ok _ => Resolved entities
                     | Err e => Rejected e
                     end))).
  { intros acceptsSchema ->. unfold withMetadataTarget. rewrite Hmeta.
    unfold LiteralEntityManager.persist, LiteralEntityManager.normalizeTarget.
    change (arg 0 [?a; ?b; ?c]) with a. cbn [arg nth length Nat.ltb Nat.leb andb].
    assert (Hrecognised :
              instanceofFunction (targetValue (metadataTarget metadata))
              || acceptsSchema
                 && instanceofEntitySchema (targetValue (metadataTarget metadata))
              || isString (targetValue (metadataTarget metadata)) = true).
    { destruct (instanceofFunction _), (isString _), acceptsSchema,
        (instanceofEntitySchema _); try reflexivity; discriminate Htarget. }
    rewrite Hrecognised, Htruthy.
    assert (Hname : (if acceptsSchema
                     then LiteralEntityManager.schemaName
                            (targetValue (metadataTarget metadata))
                     else targetValue (metadataTarget metadata))
                    = targetValue (metadataTarget metadata)).
    { destruct acceptsSchema; [ | reflexivity ].
      destruct (metadataTarget metadata); try reflexivity; discriminate Htarget. }
    rewrite Hname. split.
    - intros ->. reflexivity.
    - intros Hne.
      destruct entities as [| | | | | | | | [| item items] |]; try congruence.
      all: cbn; destruct (persistExecute _ _ _ _ _) as [[] |]; reflexivity. }
  destruct Hmethod as [[-> ->] | [-> ->]].
  - apply (Hpersist true). reflexivity.
  - apply (Hpersist false). reflexivity.
Qed.

(** What [find] returns: the first repository whose [target] is the wanted
    one. *)
Lemma findRepository_found (repositories : list Repository) (wanted : EntityTarget)
    (r : Repository) :
  findRepository x repositories wanted = Ok (Some r) ->
  exists t, target x r = Ok t /\ sameTarget x t wanted = true.
Proof.
  induction repositories as [| r0 rest IH]; cbn; [ discriminate | ].
  destruct (target x r0) as [t0 | e] eqn:Htarget; [ | discriminate ].
  destruct (sameTarget x t0 wanted) eqn:Hsame.
  - intros H. injection H as <-. eauto.
  - exact IH.
Qed.

(** Looking through a list in which nothing was found, and one more. *)
Lemma findRepository_snoc (repositories : list Repository) (wanted : EntityTarget)
    (r : Repository) :
  findRepository x repositories wanted = Ok None ->
  findRepository x (repositories ++ [r]) wanted
  = match target x r with
    | Err e => Err e
    | Ok t => if sameTarget x t wanted then Ok (Some r) else Ok None
    end.
Proof.
  induction repositories as [| r0 rest IH]; cbn; [ reflexivity | ].
  destruct (target x r0) as [t0 | e]; [ | discriminate ].
  destruct (sameTarget x t0 wanted); [ discriminate | exact IH ].
Qed.

Variable this : Manager.

(** X19.  [getRepository] keeps what it returns: when the repository it
    returned for a target has that target as its own [target], asking again
    returns the same repository and creates nothing. *)
Theorem getRepository_reuses_the_repository_of_a_target
    (repositories repositories' : list Repository) (wanted t : EntityTarget)
    (r : Repository) :
  driverIsMongo (connection this) = false ->
  Forall (fun created => isMongoRepository created = false) repositories ->
  getRepository x this repositories wanted = Ok (r, repositories') ->
  target x r = Ok t ->
  sameTarget x t wanted = true ->
  getRepository x this repositories' wanted = Ok (r, repositories').
Proof.
  intros _ _ Hfirst Htarget Hsame. revert Hfirst. unfold getRepository.
  destruct (findRepository x repositories wanted) as [[found |] | e] eqn:Hfind.
  - intros H. injection H as <- <-. rewrite Hfind. reflexivity.
  - intros H. injection H as <- <-.
    rewrite (findRepository_snoc _ _ _ Hfind), Htarget, Hsame. reflexivity.
  - discriminate.
Qed.

(** X20.  When the repository [getRepository] returned for a target has
    another [target] of its own (the metadata of an entity asked for by name
    has the class as its target), that repository was created by the call,
    and asking again for the same target does not find it: every such call
    creates one more repository and the list grows. *)
Theorem getRepository_creates_again_when_the_target_resolves_elsewhere
    (repositories repositories' : list Repository) (wanted t : EntityTarget)
    (r : Repository) :
  driverIsMongo (connection this) = false ->
  Forall (fun created => isMongoRepository created = false) repositories ->
  getRepository x this repositories wanted = Ok (r, repositories') ->
  target x r = Ok t ->
  sameTarget x t wanted = false ->
  repositories' = repositories ++ [r]
  /\ exists again,
       getRepository x this repositories' wanted = Ok (again, repositories' ++ [again])
       /\ givenTarget again = wanted
       /\ repositoryKey again = S (repositoryKey r).
Proof.
  intros _ _ Hfirst Htarget Hsame. revert Hfirst. unfold getRepository.
  destruct (findRepository x repositories wanted) as [[found |] | e] eqn:Hfind.
  - intros H. injection H as <- <-.
    destruct (findRepository_found _ _ _ Hfind) as (t' & Ht' & Hsame').
    congruence.
  - intros H. injection H as <- <-. split; [ reflexivity | ].
    rewrite (findRepository_snoc _ _ _ Hfind), Htarget, Hsame.
    eexists. split; [ reflexivity | ]. split; [ reflexivity | ].
    cbn. rewrite length_app. cbn. lia.
  - discriminate.
Qed.

End Repositories.

(** The witness of [repository_without_metadata_throws]: a repository of a
    class the connection does not know. *)
Lemma repository_without_metadata_throws_witness :
  LiteralRepository.findOne EnvironmentSamples.environment
    (EnvironmentSamples.repositoryOf 0 (TargetFunction "Comment")) [VUndefined]
  = ([], Thrown (EntityMetadataNotFound.new (TargetFunction "Comment"))).
Proof.
  apply (repository_without_metadata_throws EnvironmentSamples.environment
           EnvironmentSamples.builtins
           (EnvironmentSamples.repositoryOf 0 (TargetFunction "Comment"))
           (EntityMetadataNotFound.new (TargetFunction "Comment")) eq_refl).
Defined.

(** The witness of [repository_persists_its_argument_as_the_entity]: a
    string in the place of the entity. *)
Lemma repository_persists_its_argument_as_the_entity_witness :
  LiteralRepository.save EnvironmentSamples.environment
    (EnvironmentSamples.repositoryOf 0 Samples.Post) (VString "draft") VUndefined
  = ([EvNewEntityPersistExecutor "save" (VFunction "Post") (VString "draft") VUndefined;
      EvPersistExecute],
     Resolved (VString "draft")).
Proof.
  apply (repository_persists_its_argument_as_the_entity
           EnvironmentSamples.environment
           (EnvironmentSamples.repositoryOf 0 Samples.Post)
           EnvironmentSamples.postMetadata (VString "draft") VUndefined
           eq_refl eq_refl eq_refl LiteralRepository.save "save"
           (or_introl (conj eq_refl eq_refl))).
  discriminate.
Defined.

(** The witness of [getRepository_reuses_the_repository_of_a_target]: the
    repository of the class. *)
Lemma getRepository_reuses_the_repository_of_a_target_witness :
  LiteralRepository.getRepository EnvironmentSamples.environment Samples.postsManager
    [EnvironmentSamples.repositoryOf 0 Samples.Post] Samples.Post
  = Ok (EnvironmentSamples.repositoryOf 0 Samples.Post,
        [EnvironmentSamples.repositoryOf 0 Samples.Post]).
Proof.
  apply (getRepository_reuses_the_repository_of_a_target
           EnvironmentSamples.environment Samples.postsManager
           [] [EnvironmentSamples.repositoryOf 0 Samples.Post]
           Samples.Post Samples.Post
           (EnvironmentSamples.repositoryOf 0 Samples.Post)).
  - reflexivity.
  - constructor.
  - reflexivity.
  - reflexivity.
  - reflexivity.
Defined.

(** The witness of
    [getRepository_creates_again_when_the_target_resolves_elsewhere]: the
    repository of the entity name. *)
Lemma getRepository_creates_again_when_the_target_resolves_elsewhere_witness :
  [EnvironmentSamples.repositoryOf 0 (TargetName "post")]
  = [] ++ [EnvironmentSamples.repositoryOf 0 (TargetName "post")]
  /\ exists again,
       LiteralRepository.getRepository EnvironmentSamples.environment
         Samples.postsManager
         [EnvironmentSamples.repositoryOf 0 (TargetName "post")] (TargetName "post")
       = Ok (again, [EnvironmentSamples.repositoryOf 0 (TargetName "post")] ++ [again])
       /\ LiteralRepository.givenTarget again = TargetName "post"
       /\ LiteralRepository.repositoryKey again = 1.
Proof.
  apply (getRepository_creates_again_when_the_target_resolves_elsewhere
           EnvironmentSamples.environment Samples.postsManager
           [] [EnvironmentSamples.repositoryOf 0 (TargetName "post")]
           (TargetName "post") Samples.Post
           (EnvironmentSamples.repositoryOf 0 (TargetName "post"))).
  - reflexivity.
  - constructor.
  - reflexivity.
  - reflexivity.
  - reflexivity.
Defined.

(** ** Tree queries by strategy *)

Section TreeStrategies.

Import LiteralTreeRepository TreeShapes.

(** A column without a referenced column is the only thing [map] throws on. *)
Lemma mapResult_referenced (columns : list ColumnMetadata) :
  (exists referencedColumns,
     mapResult referenced columns = Ok referencedColumns
     /\ Forall2 (fun column r => referencedColumn column = Some r)
                columns referencedColumns)
  \/ mapResult referenced columns
     = Err (TypeError "Cannot read properties of undefined").
Proof.
  induction columns as [| column rest IH]; cbn.
  - left. eexists. split; [ reflexivity | constructor ].
  - destruct (referencedColumn column) as [r |] eqn:Hr.
    + assert (Hcolumn : referenced column = Ok r).
      { unfold referenced. rewrite Hr. reflexivity. }
      rewrite Hcolumn. destruct IH as [(rs & -> & Hall) | ->].
      * left. eexists. split; [ reflexivity | constructor; assumption ].
      * right. reflexivity.
    + assert (Hcolumn : referenced column
                        = Err (TypeError "Cannot read properties of undefined")).
      { unfold referenced. rewrite Hr. reflexivity. }
      rewrite Hcolumn. right. reflexivity.
Qed.

(** X21.  The two query builders of the tree repository read the metadata
    first: for a target without metadata they throw what [getMetadata]
    throws.  With metadata they report "Supported only in tree entities"
    exactly when the tree type is none of closure-table, nested-set and
    materialized-path, and every other failure is a [TypeError], that of
    reading a column the metadata does not have. *)
Theorem tree_queries_fail_only_on_missing_metadata (d : Driver)
    (metadata : Result EntityMetadata) (alias closureTableAlias : string)
    (entity : Entity) :
  forall builder,
    builder = createDescendantsQueryBuilder \/ builder = createAncestorsQueryBuilder ->
    (forall e,
       metadata = Err e ->
       builder d metadata alias closureTableAlias entity = Err e)
    /\ (forall md,
          metadata = Ok md ->
          (builder d metadata alias closureTableAlias entity
           = Err (Error "Supported only in tree entities")
           <-> treeType md <> Some "closure-table"
               /\ treeType md <> Some "nested-set"
               /\ treeType md <> Some "materialized-path")
          /\ (forall e,
                builder d metadata alias closureTableAlias entity = Err e ->
                e = Error "Supported only in tree entities"
                \/ exists message, e = TypeError message)).
Proof.
  intros builder Hbuilder. split.
  - intros e ->. destruct Hbuilder as [-> | ->]; reflexivity.
  - intros md ->. destruct Hbuilder as [-> | ->].
    all: unfold createDescendantsQueryBuilder, createAncestorsQueryBuilder.
    all: cbn [bindResult].
    all: destruct (decide (treeType md = Some "closure-table")) as [Hclosure | Hclosure].
    all: try (destruct (mapResult_referenced (descendantColumns (closureJunctionTable md)))
                as [(ds & -> & _) | ->];
              destruct (mapResult_referenced (ancestorColumns (closureJunctionTable md)))
                as [(cs & -> & _) | ->];
              cbn; (split; [ split; [ discriminate | tauto ] | ]);
              intros e He;
              first [ discriminate He
                    | injection He as <-; right; eexists; reflexivity ]).
    all: destruct (decide (treeType md = Some "nested-set")) as [Hnested | Hnested].
    all: try (destruct (nestedSetLeftColumn md), (nestedSetRightColumn md),
                (treeParentRelation md) as [relation |];
              cbn;
              try (destruct (mapResult_referenced (joinColumns relation))
                     as [(rs & -> & _) | ->]; cbn);
              (split; [ split; [ discriminate | tauto ] | ]);
              intros e He;
              first [ discriminate He
                    | injection He as <-; right; eexists; reflexivity ]).
    all: destruct (decide (treeType md = Some "materialized-path")) as [Hpath | Hpath].
    all: try (destruct (materializedPathColumn md); cbn;
              (split; [ split; [ discriminate | tauto ] | ]);
              intros e He;
              first [ discriminate He
                    | injection He as <-; right; eexists; reflexivity ]).
    all: split; [ split; [ auto | reflexivity ] | ].
    all: intros e He; injection He as <-; left; reflexivity.
Qed.

(** The columns [map] went through, with the columns they reference. *)
Lemma mapResult_Ok {A B : Type} (f : A -> Result B) (l : list A) (l' : list B) :
  mapResult f l = Ok l' -> Forall2 (fun a b => f a = Ok b) l l'.
Proof.
  revert l'. induction l as [| a rest IH]; intros l'; cbn.
  - intros H. injection H as <-. constructor.
  - destruct (f a) as [b |] eqn:Hfa; [ | discriminate ].
    destruct (mapResult f rest) as [bs |]; [ | discriminate ].
    intros H. injection H as <-. constructor; [ exact Hfa | apply IH; reflexivity ].
Qed.

Lemma bound_primary (alias closureTableAlias : string) (row link : Entity) :
  bound alias [(alias, row); (closureTableAlias, link)] = Some row.
Proof. cbn [bound]. rewrite String.eqb_refl. reflexivity. Qed.

Lemma bound_closure (alias closureTableAlias : string) (row link : Entity) :
  alias <> closureTableAlias ->
  bound closureTableAlias [(alias, row); (closureTableAlias, link)] = Some link.
Proof.
  intros Hne. cbn [bound].
  destruct (String.eqb_spec closureTableAlias alias) as [Heq | _]; [ congruence | ].
  rewrite String.eqb_refl. reflexivity.
Qed.

(** The text of the closure-table conditions is the text the source
    concatenates: with escaped names in the descendants query, with the
    names as they are in the ancestors query. *)
Lemma closure_conditions_text (d : Driver) (alias closureTableAlias : string)
    (column r : ColumnMetadata) :
  renderAtom d (EqColumn (Escaped closureTableAlias, Escaped (propertyPath column))
                         (Escaped alias, Escaped (propertyPath r)))
  = escape d closureTableAlias +:+ "." +:+ escape d (propertyPath column) +:+ " = "
      +:+ escape d alias +:+ "." +:+ escape d (propertyPath r)
  /\ renderAtom d (EqParameter (Escaped closureTableAlias,
                                Escaped (propertyPath column)) (propertyName r))
     = escape d closureTableAlias +:+ "." +:+ escape d (propertyPath column)
         +:+ " = :" +:+ propertyName r
  /\ renderAtom d (EqColumn (Plain closureTableAlias, Plain (propertyPath column))
                            (Plain alias, Plain (propertyPath r)))
     = closureTableAlias +:+ "." +:+ propertyPath column +:+ " = "
         +:+ alias +:+ "." +:+ propertyPath r
  /\ renderAtom d (EqParameter (Plain closureTableAlias, Plain (propertyPath column))
                               (propertyName r))
     = closureTableAlias +:+ "." +:+ propertyPath column +:+ " = :" +:+ propertyName r.
Proof.
  unfold renderAtom, renderColumn. cbn [fst snd renderName].
  repeat apply conj; rewrite ?string_app_assoc; reflexivity.
Qed.

(** The conditions of a closure-table query mention the alias and the
    closure alias only; [wrap] writes a name escaped or as it is. *)
Lemma closure_conditions_resolved (wrap : string -> Name)
    (alias closureTableAlias : string)
    (columns referencedColumns : list ColumnMetadata) :
  (forall name, nameOf (wrap name) = name) ->
  resolved [alias; closureTableAlias]
    (zip_with (fun column r =>
                 EqColumn (wrap closureTableAlias, wrap (propertyPath column))
                          (wrap alias, wrap (propertyPath r)))
              columns referencedColumns) = true
  /\ resolved [alias; closureTableAlias]
       (zip_with (fun column r =>
                    EqParameter (wrap closureTableAlias, wrap (propertyPath column))
                                (propertyName r))
                 columns referencedColumns) = true.
Proof.
  intros Hwrap. unfold resolved. revert referencedColumns.
  induction columns as [| column rest IH]; intros referencedColumns;
    [ split; reflexivity | ].
  destruct referencedColumns as [| r others]; [ split; reflexivity | ].
  destruct (IH others) as [IHjoin IHwhere].
  cbn [zip_with forallb atomColumns fst].
  rewrite !Hwrap, existsb_first, existsb_second, IHjoin, IHwhere.
  split; reflexivity.
Qed.

(** The join condition of a closure-table query holds for the junction rows
    that link the row, and its where condition for those that link the
    entity. *)
Lemma closure_conditions (wrap : string -> Name) (alias closureTableAlias : string)
    (row link entity : Entity) (parameters : gmap string Prim)
    (columns referencedColumns : list ColumnMetadata) :
  (forall name, nameOf (wrap name) = name) ->
  alias <> closureTableAlias ->
  Forall2 (fun column r => referenced column = Ok r) columns referencedColumns ->
  (evalCondition parameters [(alias, row); (closureTableAlias, link)]
     (zip_with (fun column r =>
                  EqColumn (wrap closureTableAlias, wrap (propertyPath column))
                           (wrap alias, wrap (propertyPath r)))
               columns referencedColumns) = true
   <-> linksRow columns referencedColumns link row)
  /\ ((forall r, r ∈ referencedColumns ->
         parameters !! propertyName r = Some (getEntityValue r entity)) ->
      evalCondition parameters [(alias, row); (closureTableAlias, link)]
        (zip_with (fun column r =>
                     EqParameter (wrap closureTableAlias, wrap (propertyPath column))
                                 (propertyName r))
                  columns referencedColumns) = true
      <-> linksEntity columns referencedColumns link entity).
Proof.
  intros Hwrap Hne Hall. unfold linksRow, linksEntity, evalCondition.
  induction Hall as [| column r columns referencedColumns _ _ [IHrow IHentity]].
  - split; [ | intros _ ]; cbn; split; intros _; [ constructor | reflexivity
                                                  | constructor | reflexivity ].
  - split.
    + cbn [zip_with forallb evalAtom].
      unfold columnValue at 1 2. cbn [fst snd]. rewrite !Hwrap.
      rewrite bound_closure by exact Hne. rewrite bound_primary.
      fold (stored link column). fold (stored row r).
      rewrite andb_true_iff, IHrow. split.
      * intros [Hhead Htail]. constructor; assumption.
      * intros H. inversion H; subst. split; assumption.
    + intros Hparameters.
      cbn [zip_with forallb evalAtom].
      unfold columnValue at 1. cbn [fst snd]. rewrite !Hwrap.
      rewrite bound_closure by exact Hne.
      rewrite (Hparameters r) by (apply elem_of_cons; left; reflexivity).
      cbn [default]. fold (stored link column).
      rewrite andb_true_iff, IHentity.
      * split.
        -- intros [Hhead Htail]. constructor; assumption.
        -- intros H. inversion H; subst. split; assumption.
      * intros r' Hr'. apply Hparameters, elem_of_cons. right. exact Hr'.
Qed.

(** The parameters set for the referenced columns. *)
Lemma closure_parameters (entity : Entity) (referencedColumns : list ColumnMetadata)
    (r : ColumnMetadata) :
  NoDup (map propertyName referencedColumns) ->
  r ∈ referencedColumns ->
  setParameters (map (fun r => (propertyName r, getEntityValue r entity))
                     referencedColumns) !! propertyName r
  = Some (getEntityValue r entity).
Proof.
  intros Hnd Hr. apply setParameters_lookup.
  - assert (Hkeys : (map (fun r => (propertyName r, getEntityValue r entity))
                         referencedColumns).*1
                    = map propertyName referencedColumns).
    { clear. induction referencedColumns as [| r rest IH]; [ reflexivity | ].
      cbn. f_equal. exact IH. }
    rewrite Hkeys. exact Hnd.
  - apply list_elem_of_In, in_map_iff. exists r. split; [ reflexivity | ].
    apply list_elem_of_In. exact Hr.
Qed.

(** The rows of a closure-table query: those that a junction row links, on
    the join columns, to the entity on the where columns. *)
Lemma closure_rows (wrap : string -> Name) (md : EntityMetadata)
    (alias closureTableAlias : string) (entity : Entity) (db : string -> list Entity)
    (joinColumns joinReferenced whereColumns whereReferenced : list ColumnMetadata) :
  (forall name, nameOf (wrap name) = name) ->
  alias <> EmptyString ->
  closureTableAlias <> EmptyString ->
  alias <> closureTableAlias ->
  Forall2 (fun column r => referenced column = Ok r) joinColumns joinReferenced ->
  Forall2 (fun column r => referenced column = Ok r) whereColumns whereReferenced ->
  NoDup (map propertyName whereReferenced) ->
  exists rows,
    selectedRows db
      {| selectFrom := createQueryBuilder md alias;
         innerJoin :=
           Some (tableName (closureJunctionTable md), closureTableAlias,
                 zip_with (fun column r =>
                             EqColumn (wrap closureTableAlias,
                                       wrap (propertyPath column))
                                      (wrap alias, wrap (propertyPath r)))
                          joinColumns joinReferenced);
         where_ :=
           WhereCondition
             (zip_with (fun column r =>
                          EqParameter (wrap closureTableAlias,
                                       wrap (propertyPath column))
                                      (propertyName r))
                       whereColumns whereReferenced);
         parameters :=
           setParameters (map (fun r => (propertyName r, getEntityValue r entity))
                              whereReferenced) |}
    = Some rows
    /\ forall row,
         row ∈ rows
         <-> row ∈ db (targetName md)
             /\ exists link,
                  link ∈ db (tableName (closureJunctionTable md))
                  /\ linksRow joinColumns joinReferenced link row
                  /\ linksEntity whereColumns whereReferenced link entity.
Proof.
  intros Hwrap Hnamed Hclosure Hne Hjoin Hwhere Hnd.
  unfold selectedRows. cbn [selectFrom innerJoin where_ parameters].
  rewrite (createQueryBuilder_alias md alias Hnamed).
  destruct (closure_conditions_resolved wrap alias closureTableAlias
              joinColumns joinReferenced Hwrap) as [-> _].
  destruct (closure_conditions_resolved wrap alias closureTableAlias
              whereColumns whereReferenced Hwrap) as [_ ->].
  apply String.eqb_neq in Hclosure, Hne. rewrite Hclosure, Hne.
  cbn [negb andb]. eexists. split; [ reflexivity | ].
  apply String.eqb_neq in Hne.
  intros row. rewrite selected_pairs.
  set (chosen := setParameters _).
  assert (Hchosen : forall r, r ∈ whereReferenced ->
            chosen !! propertyName r = Some (getEntityValue r entity)).
  { intros r Hr. apply closure_parameters; assumption. }
  split; intros (Hrow & link & Hlink & H);
    (split; [ exact Hrow | exists link; split; [ exact Hlink | ] ]);
    destruct (closure_conditions wrap alias closureTableAlias row link entity chosen
                joinColumns joinReferenced Hwrap Hne Hjoin) as [Hj _];
    destruct (closure_conditions wrap alias closureTableAlias row link entity chosen
                whereColumns whereReferenced Hwrap Hne Hwhere) as [_ Hw];
    specialize (Hw Hchosen).
  - apply andb_prop in H as [H1 H2]. split; [ apply Hj, H1 | apply Hw, H2 ].
  - destruct H as [H1 H2]. apply andb_true_intro.
    split; [ apply Hj, H1 | apply Hw, H2 ].
Qed.

(** X22.  For closure-table metadata, an alias that is not empty and a
    closure alias that is not empty and is another name, and descendant
    columns whose referenced columns have distinct property names, the
    ancestors query selects exactly the rows of the entity table that some
    row of the junction table links, on its ancestor columns, to the entity
    on its descendant columns: the ancestor columns of the junction row hold
    the values the selected row stores in the columns they reference, and
    its descendant columns the values of the entity. *)
Theorem closure_ancestors_query_selects_linked_rows (d : Driver) (md : EntityMetadata)
    (alias closureTableAlias : string) (entity : Entity)
    (db : string -> list Entity)
    (ancestorReferenced descendantReferenced : list ColumnMetadata) :
  treeType md = Some "closure-table" ->
  mapResult referenced (ancestorColumns (closureJunctionTable md))
  = Ok ancestorReferenced ->
  mapResult referenced (descendantColumns (closureJunctionTable md))
  = Ok descendantReferenced ->
  NoDup (map propertyName descendantReferenced) ->
  alias <> EmptyString ->
  closureTableAlias <> EmptyString ->
  alias <> closureTableAlias ->
  exists qb rows,
    createAncestorsQueryBuilder d (Ok md) alias closureTableAlias entity = Ok qb
    /\ selectedRows db qb = Some rows
    /\ forall row,
         row ∈ rows
         <-> row ∈ db (targetName md)
             /\ exists link,
                  link ∈ db (tableName (closureJunctionTable md))
                  /\ linksRow (ancestorColumns (closureJunctionTable md))
                              ancestorReferenced link row
                  /\ linksEntity (descendantColumns (closureJunctionTable md))
                                 descendantReferenced link entity.
Proof.
  intros Htype Hancestors Hdescendants Hnd Hnamed Hclosure Hne.
  unfold createAncestorsQueryBuilder. cbn [bindResult].
  destruct (decide (treeType md = Some "closure-table")) as [_ | Hno]; [ | congruence ].
  rewrite Hancestors, Hdescendants. cbn [bindResult].
  apply mapResult_Ok in Hancestors, Hdescendants.
  destruct (closure_rows Plain md alias closureTableAlias entity db
              (ancestorColumns (closureJunctionTable md)) ancestorReferenced
              (descendantColumns (closureJunctionTable md)) descendantReferenced
              (fun name => eq_refl) Hnamed Hclosure Hne Hancestors Hdescendants Hnd)
    as (rows & Hrows & Hspec).
  eexists. exists rows. split; [ reflexivity | ]. split; [ exact Hrows | exact Hspec ].
Qed.

(** X23.  For closure-table metadata, on every driver, whatever its
    escaping of names, and under the same conditions on the aliases, with
    ancestor columns whose referenced columns have distinct property names,
    the descendants query selects exactly the rows of the entity table that
    some row of the junction table links, on its descendant columns, to the
    entity on its ancestor columns. *)
Theorem closure_descendants_query_selects_linked_rows (d : Driver)
    (md : EntityMetadata) (alias closureTableAlias : string) (entity : Entity)
    (db : string -> list Entity)
    (ancestorReferenced descendantReferenced : list ColumnMetadata) :
  treeType md = Some "closure-table" ->
  mapResult referenced (ancestorColumns (closureJunctionTable md))
  = Ok ancestorReferenced ->
  mapResult referenced (descendantColumns (closureJunctionTable md))
  = Ok descendantReferenced ->
  NoDup (map propertyName ancestorReferenced) ->
  alias <> EmptyString ->
  closureTableAlias <> EmptyString ->
  alias <> closureTableAlias ->
  exists qb rows,
    createDescendantsQueryBuilder d (Ok md) alias closureTableAlias entity = Ok qb
    /\ selectedRows db qb = Some rows
    /\ forall row,
         row ∈ rows
         <-> row ∈ db (targetName md)
             /\ exists link,
                  link ∈ db (tableName (closureJunctionTable md))
                  /\ linksRow (descendantColumns (closureJunctionTable md))
                              descendantReferenced link row
                  /\ linksEntity (ancestorColumns (closureJunctionTable md))
                                 ancestorReferenced link entity.
Proof.
  intros Htype Hancestors Hdescendants Hnd Hnamed Hclosure Hne.
  unfold createDescendantsQueryBuilder. cbn [bindResult].
  destruct (decide (treeType md = Some "closure-table")) as [_ | Hno]; [ | congruence ].
  rewrite Hancestors, Hdescendants. cbn [bindResult].
  apply mapResult_Ok in Hancestors, Hdescendants.
  destruct (closure_rows Escaped md alias closureTableAlias entity db
              (descendantColumns (closureJunctionTable md)) descendantReferenced
              (ancestorColumns (closureJunctionTable md)) ancestorReferenced
              (fun name => eq_refl) Hnamed Hclosure Hne Hdescendants Hancestors Hnd)
    as (rows & Hrows & Hspec).
  eexists. exists rows. split; [ reflexivity | ]. split; [ exact Hrows | exact Hspec ].
Qed.

End TreeStrategies.

(** ** Relation maps and the built trees *)

Section TreeBuilding.

Import LiteralTreeRepository TreeShapes.

(** [rawResults.map(f)] for a callback that does not throw. *)
Lemma mapResult_total {A B : Type} (f : A -> B) (l : list A) :
  mapResult (fun a => Ok (f a)) l = Ok (map f l).
Proof.
  induction l as [| a rest IH]; [ reflexivity | ].
  cbn. rewrite IH. reflexivity.
Qed.

(** [rawResults.map(f)] for a callback that throws on every element. *)
Lemma mapResult_throws {A B : Type} (e : JsError) (l : list A) :
  l <> [] -> mapResult (fun _ => @Err B e) l = Err e.
Proof. destruct l; [ congruence | reflexivity ]. Qed.

(** With the tree-parent relation, a join column and a primary column in
    the metadata, every raw row gives its relation map. *)
Lemma createRelationMaps_shape (d : Driver) (md : EntityMetadata) (alias : string)
    (rawResults : list Entity) (relation : RelationMetadata)
    (joinColumn : ColumnMetadata) (otherJoinColumns : list ColumnMetadata)
    (primary : ColumnMetadata) (otherPrimary : list ColumnMetadata) :
  treeParentRelation md = Some relation ->
  joinColumns relation = joinColumn :: otherJoinColumns ->
  primaryColumns md = primary :: otherPrimary ->
  createRelationMaps d md alias rawResults
  = Ok (map (fun rawResult =>
               {| id := prepareHydratedValue d
                          (property (alias +:+ "_" +:+ databaseName primary) rawResult)
                          primary;
                  parentId :=
                    prepareHydratedValue d
                      (property
                         (alias +:+ "_"
                            +:+ match givenDatabaseName joinColumn with
                                | Some (String _ _ as given) => given
                                | _ => databaseName joinColumn
                                end)
                         rawResult)
                      joinColumn |})
            rawResults).
Proof.
  intros Hrelation Hjoin Hprimary. unfold createRelationMaps.
  rewrite Hrelation. cbn [required bindResult]. rewrite Hjoin.
  cbn [required head bindResult]. rewrite Hprimary.
  cbn [required head bindResult]. apply mapResult_total.
Qed.

(** X24.  [createRelationMaps] gives one map for each raw row, in order: its
    [id] is the hydrated value the row has under the alias and the database
    name of the first primary column, and its [parentId] the one under the
    alias and the name of the first join column of the tree-parent relation,
    the given database name unless that is missing or empty.  It throws
    exactly when there is a raw row and the metadata lacks the tree-parent
    relation, a join column of it or a primary column; without raw rows
    the metadata is not read. *)
Theorem createRelationMaps_reads_each_raw_row (d : Driver) (md : EntityMetadata)
    (alias : string) (rawResults : list Entity) :
  (createRelationMaps d md alias [] = Ok [])
  /\ (forall maps,
        createRelationMaps d md alias rawResults = Ok maps ->
        length maps = length rawResults)
  /\ (forall relation joinColumn otherJoinColumns primary otherPrimary,
        treeParentRelation md = Some relation ->
        joinColumns relation = joinColumn :: otherJoinColumns ->
        primaryColumns md = primary :: otherPrimary ->
        createRelationMaps d md alias rawResults
        = Ok (map (fun rawResult =>
                     {| id := prepareHydratedValue d
                                (property (alias +:+ "_" +:+ databaseName primary)
                                          rawResult)
                                primary;
                        parentId :=
                          prepareHydratedValue d
                            (property
                               (alias +:+ "_"
                                  +:+ match givenDatabaseName joinColumn with
                                      | Some (String _ _ as given) => given
                                      | _ => databaseName joinColumn
                                      end)
                               rawResult)
                            joinColumn |})
                  rawResults))
  /\ (rawResults <> [] ->
      (treeParentRelation md = None
       \/ (exists relation,
             treeParentRelation md = Some relation /\ joinColumns relation = [])
       \/ primaryColumns md = []) ->
      createRelationMaps d md alias rawResults
      = Err (TypeError "Cannot read properties of undefined")).
Proof.
  split; [ reflexivity | ]. split; [ | split ].
  - intros maps Hmaps. unfold createRelationMaps in Hmaps.
    apply mapResult_Ok in Hmaps. symmetry. eapply Forall2_length, Hmaps.
  - intros relation joinColumn otherJoinColumns primary otherPrimary
      Hrelation Hjoin Hprimary.
    apply (createRelationMaps_shape d md alias rawResults relation joinColumn
             otherJoinColumns primary otherPrimary Hrelation Hjoin Hprimary).
  - intros Hraw Hmissing. unfold createRelationMaps.
    destruct Hmissing as [Hrelation | [(relation & Hrelation & Hjoin) | Hprimary]].
    + rewrite Hrelation. cbn [required bindResult].
      apply mapResult_throws, Hraw.
    + rewrite Hrelation. cbn [required bindResult]. rewrite Hjoin.
      cbn [required head bindResult]. apply mapResult_throws, Hraw.
    + destruct (treeParentRelation md) as [relation |]; cbn [required bindResult];
        [ destruct (head (joinColumns relation)); cbn [required head bindResult];
          [ rewrite Hprimary; cbn [required head bindResult] | ] | ].
      all: apply mapResult_throws, Hraw.
Qed.

(** The filter of the children, as a filter by a test. *)
Lemma childEntities_filter (primary : ColumnMetadata) (parent : Entity)
    (entities : list Entity) (relationMaps : list RelationMap) :
  childEntities primary parent entities relationMaps
  = List.filter
      (fun e =>
         bool_decide
           (property "id" e
            ∈ (list_to_set
                 (map id (filter (fun relationMap =>
                                    parentId relationMap
                                    = getEntityValue primary parent)
                                 relationMaps)) : gset Prim)))
      entities.
Proof.
  unfold childEntities. induction entities as [| e rest IH]; [ reflexivity | ].
  rewrite filter_cons. cbn [List.filter]. rewrite IH.
  destruct (decide _) as [Hin | Hout].
  - rewrite bool_decide_eq_true_2 by exact Hin. reflexivity.
  - rewrite bool_decide_eq_false_2 by exact Hout. reflexivity.
Qed.

(** The measure of a node bounds the recursion of the children build, and
    the build attaches the children at every node. *)
Lemma children_tree_built (md : EntityMetadata) (relation : RelationMetadata)
    (primary : ColumnMetadata) (others : list ColumnMetadata)
    (entities : list Entity) (relationMaps : list RelationMap)
    (depth : Entity -> nat) (children : Entity -> list Entity) :
  treeChildrenRelation md = Some relation ->
  primaryColumns md = primary :: others ->
  (forall parent,
     childEntities primary parent entities relationMaps = children parent) ->
  (forall parent childEntity,
     childEntity ∈ children parent -> (depth childEntity < depth parent)%nat) ->
  forall fuel entity,
    (depth entity < fuel)%nat ->
    exists tree,
      buildChildrenEntityTree fuel md entity entities relationMaps = Built tree
      /\ rootEntity tree = entity
      /\ AttachedThroughout children tree.
Proof.
  intros Hrelation Hprimary Hchildren Hdepth fuel.
  induction fuel as [| fuel IH]; intros entity Hfuel; [ lia | ].
  cbn [buildChildrenEntityTree]. rewrite Hrelation, Hprimary, Hchildren.
  assert (Hsubtrees : forall l,
            (forall childEntity, childEntity ∈ l -> (depth childEntity < fuel)%nat) ->
            exists subtrees,
              forEachBuild
                (fun childEntity =>
                   buildChildrenEntityTree fuel md childEntity entities relationMaps)
                l = Built subtrees
              /\ map rootEntity subtrees = l
              /\ Forall (AttachedThroughout children) subtrees).
  { induction l as [| childEntity rest IHrest]; intros Hsmaller.
    - exists []. repeat split. constructor.
    - destruct (IH childEntity) as (childTree & Hbuilt & Hroot & Hattached).
      { apply Hsmaller, elem_of_cons. left. reflexivity. }
      destruct IHrest as (subtrees & Hrest & Hroots & Hall).
      { intros c Hc. apply Hsmaller, elem_of_cons. right. exact Hc. }
      exists (childTree :: subtrees). cbn [forEachBuild map].
      rewrite Hbuilt, Hrest, Hroot, Hroots.
      split; [ reflexivity | split; [ reflexivity | constructor; assumption ] ]. }
  destruct (Hsubtrees (children entity)) as (subtrees & Hbuilt & Hroots & Hall).
  { intros childEntity Hin. specialize (Hdepth entity childEntity Hin). lia. }
  rewrite Hbuilt. eexists. split; [ reflexivity | ].
  split; [ reflexivity | constructor; assumption ].
Qed.

(** X25.  [findDescendantsTree] on rows whose parent links go down a
    measure returns the tree of the entity in which every node, the entity
    and each entity attached below it, has attached under it, in the order
    they were fetched, exactly the fetched entities whose [id] property is
    the id of a raw row whose parent id is the primary-key value of the
    node; the ids are the hydrated values of the raw rows under the alias
    [treeEntity]. *)
Theorem findDescendantsTree_attaches_the_children_of_the_raw_rows (d : Driver)
    (md : EntityMetadata) (relation parentRelation : RelationMetadata)
    (joinColumn primary : ColumnMetadata) (otherJoinColumns others : list ColumnMetadata)
    (entity : Entity) (entities raw : list Entity) (relationMaps : list RelationMap)
    (depth : Entity -> nat) (fuel : nat) :
  treeChildrenRelation md = Some relation ->
  treeParentRelation md = Some parentRelation ->
  joinColumns parentRelation = joinColumn :: otherJoinColumns ->
  primaryColumns md = primary :: others ->
  createRelationMaps d md "treeEntity" raw = Ok relationMaps ->
  (forall parent childEntity,
     childEntity ∈ childEntities primary parent entities relationMaps ->
     (depth childEntity < depth parent)%nat) ->
  (depth entity < fuel)%nat ->
  exists tree (attachedTo : Entity -> Entity -> bool),
    findDescendantsTree fuel d md entity entities raw = Built tree
    /\ rootEntity tree = entity
    /\ AttachedThroughout (fun parent => List.filter (attachedTo parent) entities) tree
    /\ forall parent e,
         attachedTo parent e = true
         <-> exists rawResult,
               rawResult ∈ raw
               /\ prepareHydratedValue d
                    (property
                       ("treeEntity" +:+ "_"
                          +:+ match givenDatabaseName joinColumn with
                              | Some (String _ _ as given) => given
                              | _ => databaseName joinColumn
                              end)
                       rawResult)
                    joinColumn
                  = getEntityValue primary parent
               /\ prepareHydratedValue d
                    (property ("treeEntity" +:+ "_" +:+ databaseName primary)
                              rawResult)
                    primary
                  = property "id" e.
Proof.
  intros Hrelation Hparent Hjoin Hprimary Hmaps Hdepth Hfuel.
  unfold findDescendantsTree. rewrite Hmaps.
  destruct (children_tree_built md relation primary others entities relationMaps depth
              _ Hrelation Hprimary
              (fun parent => childEntities_filter primary parent entities relationMaps))
    with (fuel := fuel) (entity := entity) as (tree & Htree & Hroot & Hattached).
  { intros parent childEntity Hin. apply Hdepth.
    rewrite childEntities_filter. exact Hin. }
  { exact Hfuel. }
  eexists. eexists. split; [ exact Htree | ]. split; [ exact Hroot | ].
  split; [ exact Hattached | ].
  intros parent e. cbn beta.
  rewrite bool_decide_eq_true, elem_of_list_to_set, list_elem_of_In, in_map_iff.
  rewrite (createRelationMaps_shape d md "treeEntity" raw parentRelation joinColumn
             otherJoinColumns primary others Hparent Hjoin Hprimary) in Hmaps.
  injection Hmaps as <-.
  split.
  - intros (relationMap & Hid & Hin).
    apply list_elem_of_In, list_elem_of_filter in Hin as [Hparent' Hin].
    apply list_elem_of_In, in_map_iff in Hin as (rawResult & <- & Hraw).
    exists rawResult. split; [ apply list_elem_of_In, Hraw | ].
    split; [ exact Hparent' | exact Hid ].
  - intros (rawResult & Hraw & Hparent' & Hid).
    eexists. split; cycle 1.
    + apply list_elem_of_In, list_elem_of_filter. split; cycle 1.
      * apply list_elem_of_In, in_map_iff. exists rawResult.
        split; [ reflexivity | apply list_elem_of_In, Hraw ].
      * exact Hparent'.
    + exact Hid.
Qed.

(** The parent [find] returns is a fetched entity whose primary-column
    property is the [parentId] of a relation map of the entity. *)
Lemma parentEntity_found (primary : ColumnMetadata) (entity parent : Entity)
    (entities : list Entity) (relationMaps : list RelationMap) :
  parentEntity primary entity entities relationMaps = Some parent ->
  parent ∈ entities
  /\ exists relationMap,
       relationMap ∈ relationMaps
       /\ id relationMap = getEntityValue primary entity
       /\ property (propertyName primary) parent = parentId relationMap.
Proof.
  unfold parentEntity.
  destruct (find _ relationMaps) as [relationMap |] eqn:Hmap; [ | discriminate ].
  intros Hparent.
  apply find_some in Hmap as [Hin Hid]. apply find_some in Hparent as [Hin' Hpid].
  apply bool_decide_eq_true in Hid, Hpid.
  split; [ apply list_elem_of_In, Hin' | ].
  exists relationMap. split; [ apply list_elem_of_In, Hin | ]. split; assumption.
Qed.

(** The chain a parent build returns. *)
Lemma parent_chain_built (md : EntityMetadata) (relation : RelationMetadata)
    (primary : ColumnMetadata) (others : list ColumnMetadata)
    (entities : list Entity) (relationMaps : list RelationMap)
    (rank : Entity -> nat) :
  treeParentRelation md = Some relation ->
  primaryColumns md = primary :: others ->
  (forall e parent,
     parentEntity primary e entities relationMaps = Some parent ->
     (rank parent < rank e)%nat) ->
  forall fuel entity,
    (rank entity < fuel)%nat ->
    exists chain,
      buildParentEntityTree fuel md entity entities relationMaps = Built chain
      /\ head (chainEntities chain) = Some entity
      /\ (forall i e parent,
            chainEntities chain !! i = Some e ->
            chainEntities chain !! S i = Some parent ->
            parentEntity primary e entities relationMaps = Some parent)
      /\ (forall e,
            last (chainEntities chain) = Some e ->
            parentEntity primary e entities relationMaps = None).
Proof.
  intros Hrelation Hprimary Hrank fuel.
  induction fuel as [| fuel IH]; intros entity Hfuel; [ lia | ].
  cbn [buildParentEntityTree]. rewrite Hrelation, Hprimary.
  destruct (parentEntity primary entity entities relationMaps) as [parent |] eqn:Hparent.
  - destruct (IH parent) as (chain & -> & Hhead & Hlinks & Hlast).
    { specialize (Hrank entity parent Hparent). lia. }
    eexists. split; [ reflexivity | ]. cbn [chainEntities].
    split; [ reflexivity | split ].
    + intros [| i] e p He Hp; cbn in He, Hp.
      * injection He as <-.
        destruct (chainEntities chain) as [| first rest]; [ discriminate | ].
        cbn in Hhead, Hp. congruence.
      * exact (Hlinks i e p He Hp).
    + intros e He. apply Hlast.
      destruct (chainEntities chain) as [| first rest]; [ discriminate | ].
      cbn in He. exact He.
  - eexists. split; [ reflexivity | ]. cbn [chainEntities].
    split; [ reflexivity | split ].
    + intros [| i] e p He Hp; cbn in Hp; discriminate Hp.
    + intros e He. cbn in He. injection He as <-. exact Hparent.
Qed.

(** X26.  [findAncestorsTree] on rows whose parent links go up a measure
    returns the entity with the chain of its ancestors attached: each
    entity of the chain is followed by the first fetched entity whose
    primary-column property is the parent id of the first raw row of the
    entity, and the chain ends at the entity for which there is none. *)
Theorem findAncestorsTree_links_the_parents (d : Driver) (md : EntityMetadata)
    (relation : RelationMetadata) (primary : ColumnMetadata)
    (others : list ColumnMetadata) (entity : Entity) (entities raw : list Entity)
    (relationMaps : list RelationMap) (rank : Entity -> nat) (fuel : nat) :
  treeParentRelation md = Some relation ->
  primaryColumns md = primary :: others ->
  createRelationMaps d md "treeEntity" raw = Ok relationMaps ->
  (forall e parent,
     parentEntity primary e entities relationMaps = Some parent ->
     (rank parent < rank e)%nat) ->
  (rank entity < fuel)%nat ->
  exists chain,
    findAncestorsTree fuel d md entity entities raw = Built chain
    /\ head (chainEntities chain) = Some entity
    /\ (forall i e parent,
          chainEntities chain !! i = Some e ->
          chainEntities chain !! S i = Some parent ->
          parentEntity primary e entities relationMaps = Some parent
          /\ parent ∈ entities
          /\ exists relationMap,
               relationMap ∈ relationMaps
               /\ id relationMap = getEntityValue primary e
               /\ property (propertyName primary) parent = parentId relationMap)
    /\ (forall e,
          last (chainEntities chain) = Some e ->
          parentEntity primary e entities relationMaps = None).
Proof.
  intros Hrelation Hprimary Hmaps Hrank Hfuel.
  unfold findAncestorsTree. rewrite Hmaps.
  destruct (parent_chain_built md relation primary others entities relationMaps rank
              Hrelation Hprimary Hrank fuel entity Hfuel)
    as (chain & Hchain & Hhead & Hlinks & Hlast).
  exists chain. split; [ exact Hchain | ]. split; [ exact Hhead | ].
  split; [ | exact Hlast ].
  intros i e parent He Hp. specialize (Hlinks i e parent He Hp).
  split; [ exact Hlinks | ]. apply parentEntity_found. exact Hlinks.
Qed.

(** A children build with the metadata it reads does not throw. *)
Lemma children_build_does_not_throw (md : EntityMetadata) (relation : RelationMetadata)
    (primary : ColumnMetadata) (others : list ColumnMetadata)
    (entities : list Entity) (relationMaps : list RelationMap) :
  treeChildrenRelation md = Some relation ->
  primaryColumns md = primary :: others ->
  forall fuel entity e,
    buildChildrenEntityTree fuel md entity entities relationMaps <> Fails e.
Proof.
  intros Hrelation Hprimary fuel.
  induction fuel as [| fuel IH]; intros entity e; [ discriminate | ].
  cbn [buildChildrenEntityTree]. rewrite Hrelation, Hprimary.
  generalize (childEntities primary entity entities relationMaps) as children.
  intros children.
  assert (Hall : forall e', forEachBuild
                   (fun childEntity =>
                      buildChildrenEntityTree fuel md childEntity entities relationMaps)
                   children <> Fails e').
  { induction children as [| childEntity rest IHrest]; intros e'; cbn; [ discriminate | ].
    destruct (buildChildrenEntityTree fuel md childEntity entities relationMaps)
      as [childTree | e'' |] eqn:Hchild.
    - specialize (IHrest e'). destruct (forEachBuild _ rest); congruence.
    - destruct (IH childEntity e''). exact Hchild.
    - discriminate. }
  specialize (Hall e). destruct (forEachBuild _ children); congruence.
Qed.

(** X27.  On rows that close a cycle the builds do not end: when every
    entity of a set has its parent in the set, the parent build from an
    entity of the set is out of fuel for every fuel, and when every entity
    of a set has one of the set among the entities attached under it, so is
    the children build. *)
Theorem tree_builds_do_not_end_on_a_cycle (md : EntityMetadata)
    (parentRelation childrenRelation : RelationMetadata) (primary : ColumnMetadata)
    (others : list ColumnMetadata) (entities : list Entity)
    (relationMaps : list RelationMap) (onCycle : Entity -> Prop) :
  treeParentRelation md = Some parentRelation ->
  treeChildrenRelation md = Some childrenRelation ->
  primaryColumns md = primary :: others ->
  ((forall e, onCycle e ->
      exists parent,
        parentEntity primary e entities relationMaps = Some parent /\ onCycle parent) ->
   forall fuel entity,
     onCycle entity ->
     buildParentEntityTree fuel md entity entities relationMaps = OutOfFuel)
  /\ ((forall e, onCycle e ->
         exists childEntity,
           childEntity ∈ childEntities primary e entities relationMaps
           /\ onCycle childEntity) ->
      forall fuel entity,
        onCycle entity ->
        buildChildrenEntityTree fuel md entity entities relationMaps = OutOfFuel).
Proof.
  intros Hparent Hchildren Hprimary. split.
  - intros Hcycle fuel. induction fuel as [| fuel IH]; intros entity Hentity;
      [ reflexivity | ].
    cbn [buildParentEntityTree]. rewrite Hparent, Hprimary.
    destruct (Hcycle entity Hentity) as (parent & -> & Hon).
    rewrite (IH parent Hon). reflexivity.
  - intros Hcycle fuel. induction fuel as [| fuel IH]; intros entity Hentity;
      [ reflexivity | ].
    cbn [buildChildrenEntityTree]. rewrite Hchildren, Hprimary.
    destruct (Hcycle entity Hentity) as (childEntity & Hin & Hon).
    destruct (forEachBuild _ _) as [trees | e |] eqn:Hbuilt; [ | | reflexivity ].
    + apply forEachBuild_Built in Hbuilt. exfalso.
      induction Hbuilt as [| c tree rest trees' Hc _ IHbuilt]; [ inversion Hin | ].
      apply elem_of_cons in Hin as [<- | Hin]; [ | exact (IHbuilt Hin) ].
      rewrite (IH childEntity Hon) in Hc. discriminate Hc.
    + exfalso.
      assert (Hfails : exists childEntity',
                buildChildrenEntityTree fuel md childEntity' entities relationMaps
                = Fails e).
      { revert Hbuilt.
        generalize (childEntities primary entity entities relationMaps) as children.
        induction children as [| c rest IHrest]; cbn; [ discriminate | ].
        destruct (buildChildrenEntityTree fuel md c entities relationMaps)
          as [t | e' |] eqn:Hc; [ | | discriminate ].
        - destruct (forEachBuild _ rest); try discriminate.
          intros H. apply IHrest. exact H.
        - intros H. injection H as <-. eauto. }
      destruct Hfails as (c & Hc).
      exact (children_build_does_not_throw md childrenRelation primary others entities
               relationMaps Hchildren Hprimary fuel c e Hc).
Qed.

End TreeBuilding.

(** ** Sample trees for the tree theorems *)

Section TreeWitnesses.

Import LiteralTreeRepository TreeShapes.

(** The witness of [tree_queries_fail_only_on_missing_metadata]: an entity
    without a tree. *)
Lemma tree_queries_fail_only_on_missing_metadata_witness :
  createAncestorsQueryBuilder TreeSamples.plainDriver (Ok ClosureSamples.plain)
    "treeEntity" "treeClosure" TreeSamples.root
  = Err (Error "Supported only in tree entities").
Proof.
  destruct (tree_queries_fail_only_on_missing_metadata TreeSamples.plainDriver
              (Ok ClosureSamples.plain) "treeEntity" "treeClosure" TreeSamples.root
              createAncestorsQueryBuilder (or_intror eq_refl)) as [_ Hmetadata].
  apply (Hmetadata ClosureSamples.plain eq_refl).
  repeat split; discriminate.
Defined.

(** The witness of [closure_ancestors_query_selects_linked_rows]: the
    ancestors of the child. *)
Lemma closure_ancestors_query_selects_linked_rows_witness :
  exists qb rows,
    createAncestorsQueryBuilder TreeSamples.plainDriver (Ok ClosureSamples.category)
      "treeEntity" "treeClosure" TreeSamples.child = Ok qb
    /\ selectedRows ClosureSamples.tables qb = Some rows
    /\ forall row,
         row ∈ rows
         <-> row ∈ ClosureSamples.tables "Category"
             /\ exists link,
                  link ∈ ClosureSamples.tables "category_closure"
                  /\ linksRow [ClosureSamples.ancestorColumn] [TreeSamples.idColumn]
                              link row
                  /\ linksEntity [ClosureSamples.descendantColumn]
                                 [TreeSamples.idColumn] link TreeSamples.child.
Proof.
  apply (closure_ancestors_query_selects_linked_rows TreeSamples.plainDriver
           ClosureSamples.category "treeEntity" "treeClosure" TreeSamples.child
           ClosureSamples.tables [TreeSamples.idColumn] [TreeSamples.idColumn]).
  - reflexivity.
  - reflexivity.
  - reflexivity.
  - apply NoDup_singleton.
  - discriminate.
  - discriminate.
  - discriminate.
Defined.

(** The witness of [closure_descendants_query_selects_linked_rows]: the
    descendants of the root, on a driver that quotes the names. *)
Lemma closure_descendants_query_selects_linked_rows_witness :
  exists qb rows,
    createDescendantsQueryBuilder ClosureSamples.quotingDriver
      (Ok ClosureSamples.category) "treeEntity" "treeClosure" TreeSamples.root = Ok qb
    /\ selectedRows ClosureSamples.tables qb = Some rows
    /\ forall row,
         row ∈ rows
         <-> row ∈ ClosureSamples.tables "Category"
             /\ exists link,
                  link ∈ ClosureSamples.tables "category_closure"
                  /\ linksRow [ClosureSamples.descendantColumn] [TreeSamples.idColumn]
                              link row
                  /\ linksEntity [ClosureSamples.ancestorColumn]
                                 [TreeSamples.idColumn] link TreeSamples.root.
Proof.
  apply (closure_descendants_query_selects_linked_rows ClosureSamples.quotingDriver
           ClosureSamples.category "treeEntity" "treeClosure" TreeSamples.root
           ClosureSamples.tables [TreeSamples.idColumn] [TreeSamples.idColumn]).
  - reflexivity.
  - reflexivity.
  - reflexivity.
  - apply NoDup_singleton.
  - discriminate.
  - discriminate.
  - discriminate.
Defined.

(** On the quoting driver the descendants of the root are the root and its
    child, and the condition is written with the quoted names. *)
Example closure_descendants_on_a_quoting_driver :
  (let? qb := createDescendantsQueryBuilder ClosureSamples.quotingDriver
                (Ok ClosureSamples.category) "treeEntity" "treeClosure"
                TreeSamples.root in
   Ok (selectedRows ClosureSamples.tables qb))
  = Ok (Some [TreeSamples.root; TreeSamples.child])
  /\ (let? qb := createDescendantsQueryBuilder ClosureSamples.quotingDriver
                   (Ok ClosureSamples.category) "treeEntity" "treeClosure"
                   TreeSamples.root in
      Ok (option_map (fun join => renderCondition ClosureSamples.quotingDriver (snd join))
                     (innerJoin qb)))
     = Ok (Some (EntityNotFound.dquote +:+ "treeClosure" +:+ EntityNotFound.dquote
                   +:+ "." +:+ EntityNotFound.dquote +:+ "id_descendant"
                   +:+ EntityNotFound.dquote +:+ " = "
                   +:+ EntityNotFound.dquote +:+ "treeEntity" +:+ EntityNotFound.dquote
                   +:+ "." +:+ EntityNotFound.dquote +:+ "id" +:+ EntityNotFound.dquote)).
Proof. split; vm_compute; reflexivity. Qed.

(** Without an alias the builder is aliased by the name of the entity while
    the conditions are written with the empty alias: the query selects
    nothing that has a meaning; and for a target without metadata there is
    no query. *)
Example tree_queries_without_alias :
  (let? qb := createDescendantsQueryBuilder TreeSamples.plainDriver
                (Ok TreeSamples.category) "" "treeClosure" TreeSamples.root in
   Ok (selectFrom qb, selectedRows TreeSamples.categories qb))
  = Ok (Some ("Category", "Category"), None)
  /\ (let? qb := createAncestorsQueryBuilder TreeSamples.plainDriver
                   (Ok ClosureSamples.category) "" "treeClosure" TreeSamples.child in
      Ok (selectFrom qb, selectedRows ClosureSamples.tables qb))
     = Ok (Some ("Category", "Category"), None)
  /\ createDescendantsQueryBuilder TreeSamples.plainDriver
       (Err (EntityMetadataNotFound.new (TargetFunction "Category")))
       "treeEntity" "treeClosure" TreeSamples.root
     = Err (EntityMetadataNotFound.new (TargetFunction "Category")).
Proof. repeat apply conj; vm_compute; reflexivity. Qed.

(** Membership in the two sample lists. *)
Ltac among :=
  repeat match goal with
         | H : _ ∈ _ :: _ |- _ => apply elem_of_cons in H as [-> | H]
         | H : _ ∈ [] |- _ => inversion H
         end.

(** The witness of
    [findDescendantsTree_attaches_the_children_of_the_raw_rows]: the tree
    of the root. *)
Lemma findDescendantsTree_attaches_the_children_of_the_raw_rows_witness :
  exists tree,
    findDescendantsTree 3 TreeSamples.plainDriver TreeSamples.category TreeSamples.root
      [TreeSamples.root; TreeSamples.child] ClosureSamples.rawRows
    = Built tree
    /\ rootEntity tree = TreeSamples.root.
Proof.
  destruct (findDescendantsTree_attaches_the_children_of_the_raw_rows
              TreeSamples.plainDriver TreeSamples.category
              {| relationPropertyName := "childCategories"; joinColumns := [] |}
              {| relationPropertyName := "parentCategory";
                 joinColumns := [TreeSamples.parentJoinColumn TreeSamples.idColumn] |}
              (TreeSamples.parentJoinColumn TreeSamples.idColumn) TreeSamples.idColumn
              [] [] TreeSamples.root [TreeSamples.root; TreeSamples.child]
              ClosureSamples.rawRows TreeSamples.relationMaps ClosureSamples.depth 3)
    as (tree & attachedTo & Htree & Hroot & _).
  - reflexivity.
  - reflexivity.
  - reflexivity.
  - reflexivity.
  - vm_compute. reflexivity.
  - intros parent childEntity Hin.
    apply childEntities_spec in Hin as (Hchild & relationMap & Hmap & Hparent & Hid).
    unfold TreeSamples.relationMaps in Hmap. among.
    all: try (vm_compute in Hid; discriminate Hid).
    all: unfold ClosureSamples.depth.
    all: change (property "id" parent) with (getEntityValue TreeSamples.idColumn parent).
    all: rewrite <- Hparent; vm_compute; lia.
  - vm_compute. lia.
  - exists tree. split; [ exact Htree | exact Hroot ].
Defined.

(** The witness of [findAncestorsTree_links_the_parents]: the chain of the
    child. *)
Lemma findAncestorsTree_links_the_parents_witness :
  exists chain,
    findAncestorsTree 3 TreeSamples.plainDriver TreeSamples.category TreeSamples.child
      [TreeSamples.root; TreeSamples.child] ClosureSamples.rawRows
    = Built chain
    /\ head (chainEntities chain) = Some TreeSamples.child.
Proof.
  destruct (findAncestorsTree_links_the_parents
              TreeSamples.plainDriver TreeSamples.category
              {| relationPropertyName := "parentCategory";
                 joinColumns := [TreeSamples.parentJoinColumn TreeSamples.idColumn] |}
              TreeSamples.idColumn [] TreeSamples.child
              [TreeSamples.root; TreeSamples.child]
              ClosureSamples.rawRows TreeSamples.relationMaps ClosureSamples.rank 3)
    as (chain & Hchain & Hhead & _).
  - reflexivity.
  - reflexivity.
  - vm_compute. reflexivity.
  - intros e parent Hparent.
    apply parentEntity_found in Hparent as (Hin & relationMap & Hmap & Hid & Hpid).
    unfold TreeSamples.relationMaps in Hmap. among.
    all: try (vm_compute in Hpid; discriminate Hpid).
    all: unfold ClosureSamples.rank at 2.
    all: change (property "id" e) with (getEntityValue TreeSamples.idColumn e).
    all: rewrite <- Hid; vm_compute; lia.
  - vm_compute. lia.
  - exists chain. split; [ exact Hchain | exact Hhead ].
Defined.

(** The witness of [tree_builds_do_not_end_on_a_cycle]: a row that is its
    own parent. *)
Lemma tree_builds_do_not_end_on_a_cycle_witness :
  buildParentEntityTree 50 TreeSamples.category ClosureSamples.loop
    [ClosureSamples.loop] ClosureSamples.loopMaps = OutOfFuel
  /\ buildChildrenEntityTree 50 TreeSamples.category ClosureSamples.loop
       [ClosureSamples.loop] ClosureSamples.loopMaps = OutOfFuel.
Proof.
  destruct (tree_builds_do_not_end_on_a_cycle TreeSamples.category
              {| relationPropertyName := "parentCategory";
                 joinColumns := [TreeSamples.parentJoinColumn TreeSamples.idColumn] |}
              {| relationPropertyName := "childCategories"; joinColumns := [] |}
              TreeSamples.idColumn [] [ClosureSamples.loop] ClosureSamples.loopMaps
              (fun e => e = ClosureSamples.loop) eq_refl eq_refl eq_refl)
    as [Hparents Hchildren].
  split.
  - apply Hparents; [ | reflexivity ].
    intros e ->. exists ClosureSamples.loop. split; [ vm_compute | ]; reflexivity.
  - apply Hchildren; [ | reflexivity ].
    intros e ->. exists ClosureSamples.loop. split; [ | reflexivity ].
    apply childEntities_spec. split; [ apply elem_of_cons; left; reflexivity | ].
    exists {| id := PNum 5; parentId := PNum 5 |}.
    split; [ apply elem_of_cons; left; reflexivity | ].
    split; vm_compute; reflexivity.
Defined.

End TreeWitnesses.
